(** * FirstSourceScrapingCode.py: naming, consolidation pipeline, export
      session and orchestrator, as a shallow embedding.

    Python strings are sequences of Unicode code points; a code point is a
    number [N].  What the interpreter looks up in the Unicode character
    database (outside ASCII) is a table the program does not contain: it is
    the record [ucd], a parameter of the development. *)

From Stdlib Require Import List NArith ZArith Lia Bool String Ascii.
From Stdlib Require Import Decimal DecimalPos DecimalN Sorted Permutation.
Import ListNotations.

Open Scope N_scope.

(* ================================================================== *)
(** ** Strings *)

Definition char := N.
Definition str := list char.

(** A string literal of the source, as code points. *)
Definition lit (s : string) : str := map N_of_ascii (list_ascii_of_string s).

Definition str_eqb (a b : str) : bool :=
  if list_eq_dec N.eq_dec a b then true else false.

(** The Unicode tables consulted by [str.isalnum] and [int] for code points
    that are not ASCII. *)
Record ucd := {
  ucd_alnum : char -> bool;
  ucd_space : char -> bool;
  ucd_decimal : char -> option N
}.

(** The tables restricted to ASCII: nothing outside ASCII is a letter, a
    digit or a space. *)
Definition ascii_only : ucd :=
  {| ucd_alnum := fun _ => false;
     ucd_space := fun _ => false;
     ucd_decimal := fun _ => None |}.

Definition is_ascii_digit (c : char) : bool := (48 <=? c) && (c <=? 57).
Definition is_ascii_alpha (c : char) : bool :=
  ((65 <=? c) && (c <=? 90)) || ((97 <=? c) && (c <=? 122)).

(** [text.replace(old, new)] for a one-character [old]. *)
Definition replace (old : char) (new : str) (text : str) : str :=
  flat_map (fun c => if c =? old then new else [c]) text.

(** [s.startswith(p)] and the remainder after the prefix. *)
Fixpoint strip_prefix (p s : str) : option str :=
  match p, s with
  | [], _ => Some s
  | _ :: _, [] => None
  | a :: p', b :: s' => if a =? b then strip_prefix p' s' else None
  end.

Definition startswith (p s : str) : bool :=
  match strip_prefix p s with Some _ => true | None => false end.

(** [s.endswith(p)]. *)
Definition endswith (p s : str) : bool := startswith (List.rev p) (List.rev s).

(** [s.split(sep)] for a non-empty separator: the text is scanned from the
    left, every occurrence of [sep] closes the current piece and is skipped.
    [skip] counts the characters of a matched separator still to be passed,
    [cur] is the current piece, reversed. *)
Fixpoint split_go (sep : str) (skip : nat) (cur : str) (s : str) : list str :=
  match s with
  | [] => [List.rev cur]
  | c :: s' =>
      match skip with
      | S k => split_go sep k cur s'
      | O =>
          if startswith sep s
          then List.rev cur :: split_go sep (List.length sep - 1) [] s'
          else split_go sep 0 (c :: cur) s'
      end
  end.

Definition split (sep : str) (s : str) : list str := split_go sep 0 [] s.

(** [pieces[-1]] and [pieces[0]]; a split never returns an empty list. *)
Definition last_piece (l : list str) : str := last l [].
Definition first_piece (l : list str) : str := hd [] l.

(** [str(n)] for a non-negative integer: its decimal digits. *)
Fixpoint str_of_uint (u : uint) : str :=
  match u with
  | Nil => []
  | D0 u => 48 :: str_of_uint u
  | D1 u => 49 :: str_of_uint u
  | D2 u => 50 :: str_of_uint u
  | D3 u => 51 :: str_of_uint u
  | D4 u => 52 :: str_of_uint u
  | D5 u => 53 :: str_of_uint u
  | D6 u => 54 :: str_of_uint u
  | D7 u => 55 :: str_of_uint u
  | D8 u => 56 :: str_of_uint u
  | D9 u => 57 :: str_of_uint u
  end.

Definition str_of_N (n : N) : str := str_of_uint (N.to_uint n).

Definition digit_of (c : char) : option (uint -> uint) :=
  if c =? 48 then Some D0 else if c =? 49 then Some D1
  else if c =? 50 then Some D2 else if c =? 51 then Some D3
  else if c =? 52 then Some D4 else if c =? 53 then Some D5
  else if c =? 54 then Some D6 else if c =? 55 then Some D7
  else if c =? 56 then Some D8 else if c =? 57 then Some D9
  else None.

(** The digits of an integer literal: one underscore may separate two
    digits; [prev_digit] tells whether the previous character was a digit. *)
Fixpoint uint_of_digits (s : str) (prev_digit : bool) : option uint :=
  match s with
  | [] => if prev_digit then Some Nil else None
  | c :: s' =>
      if c =? 95
      then (if prev_digit then uint_of_digits s' false else None)
      else match digit_of c, uint_of_digits s' true with
           | Some d, Some u => Some (d u)
           | _, _ => None
           end
  end.

Definition is_ascii_space (c : char) : bool :=
  ((9 <=? c) && (c <=? 13)) || (c =? 32).

Fixpoint lstrip (s : str) : str :=
  match s with
  | c :: s' => if is_ascii_space c then lstrip s' else s
  | [] => []
  end.

Definition strip (s : str) : str := List.rev (lstrip (List.rev (lstrip s))).

(* ================================================================== *)
(** ** Exceptions, tables and files

    Only subclasses of Python's [Exception] are values of [exn]: they are
    what the handlers of the program ([except Exception]) catch. *)

Inductive exn_class :=
| TimeoutException
| NoSuchElementException
| ValueError
| OSError
| EmptyDataError
| OtherException.

Record exn := Exn { exn_cls : exn_class; exn_msg : str }.

Inductive result (A : Type) :=
| Ok (a : A)
| Raise (e : exn).
Arguments Ok {A} a.
Arguments Raise {A} e.

(** A row is a record from column label to cell; an absent label reads as
    NaN.  A DataFrame is its ordered column labels and its ordered rows. *)
Definition row := list (str * str).

Record DataFrame := { columns : list str; rows : list row }.

(** [pd.DataFrame()]. *)
Definition empty_frame : DataFrame := {| columns := []; rows := [] |}.

(** [df.empty]: some axis has length zero. *)
Definition df_empty (df : DataFrame) : bool :=
  match columns df, rows df with
  | [], _ => true
  | _, [] => true
  | _, _ => false
  end.

Definition mem (c : str) (l : list str) : bool := existsb (str_eqb c) l.

(** [pd.concat([a, b], ignore_index=True)]: the columns of [a], then the new
    columns of [b]; the rows of [a], then the rows of [b]. *)
Definition concat (a b : DataFrame) : DataFrame :=
  {| columns := columns a ++ filter (fun c => negb (mem c (columns a))) (columns b);
     rows := rows a ++ rows b |}.

(** What a path holds: a directory, a file pandas parses to a table (bad
    lines already skipped), or something [read_csv] raises [e] on.  The
    text of a file is not modelled: [to_csv] stores the table it is given
    and [read_csv] gives it back. *)
Inductive content :=
| Directory
| Csv (df : DataFrame)
| Garbled (e : exn).

(** Modification time, in microseconds. *)
Record node := { mtime : N; body : content }.

(** The file system: path to node, in the order directories list their
    entries.  A new entry goes last; an overwritten one keeps its place.
    Paths are the texts the program builds; a name without directory part is
    read against the entry of the empty path, the working directory.
    An entry is found under the text it was stored under only: two
    spellings of a path (a separator at its end, a doubled separator, [.]
    or [..]) are two keys.  Links, permissions and locks are not part of
    it: an operation below fails for the reasons its definition names and
    for no other. *)
Definition filesystem := list (str * node).

Fixpoint lookup (p : str) (fs : filesystem) : option node :=
  match fs with
  | [] => None
  | (q, n) :: fs' => if str_eqb p q then Some n else lookup p fs'
  end.

Fixpoint store (p : str) (n : node) (fs : filesystem) : filesystem :=
  match fs with
  | [] => [(p, n)]
  | (q, m) :: fs' => if str_eqb p q then (q, n) :: fs' else (q, m) :: store p n fs'
  end.

Definition unlink (p : str) (fs : filesystem) : filesystem :=
  filter (fun e => negb (str_eqb p (fst e))) fs.

Definition exists_path (p : str) (fs : filesystem) : bool :=
  match lookup p fs with Some _ => true | None => false end.

Definition is_dir (p : str) (fs : filesystem) : bool :=
  match lookup p fs with
  | Some {| body := Directory |} => true
  | _ => false
  end.

(** *** Paths ([posixpath]) *)

Definition sep : char := 47.

Definition ends_with_sep (a : str) : bool :=
  match List.rev a with c :: _ => c =? sep | [] => false end.

(** [os.path.join(a, b)]. *)
Definition path_join (a b : str) : str :=
  match b with
  | c :: _ => if c =? sep then b
              else match a with
                   | [] => b
                   | _ => if ends_with_sep a then a ++ b else a ++ sep :: b
                   end
  | [] => match a with
          | [] => []
          | _ => if ends_with_sep a then a else a ++ [sep]
          end
  end.

(** The text up to and including the last separator, and the text after. *)
Fixpoint rsplit_sep (p : str) : option (str * str) :=
  match p with
  | [] => None
  | c :: p' =>
      match rsplit_sep p' with
      | Some (h, t) => Some (c :: h, t)
      | None => if c =? sep then Some ([c], p') else None
      end
  end.

Fixpoint lstrip_sep (s : str) : str :=
  match s with
  | c :: s' => if c =? sep then lstrip_sep s' else s
  | [] => []
  end.

(** [os.path.split(p)]. *)
Definition path_split (p : str) : str * str :=
  match rsplit_sep p with
  | None => ([], p)
  | Some (h, t) =>
      match lstrip_sep (List.rev h) with
      | [] => (h, t)
      | r => (List.rev r, t)
      end
  end.

Definition dirname (p : str) : str := fst (path_split p).
Definition basename (p : str) : str := snd (path_split p).

(** *** Wildcards ([fnmatch], [glob]) *)

Definition is_magic (c : char) : bool := (c =? 42) || (c =? 63) || (c =? 91).
Definition has_magic (s : str) : bool := existsb is_magic s.

(** [fnmatch.fnmatchcase(name, pat)] for patterns of literal characters,
    [*] and [?]; bracket classes are left out: the name patterns of this
    program are sanitised text around one [*]. *)
Fixpoint fnmatch (pat : str) (name : str) : bool :=
  match pat with
  | [] => match name with [] => true | _ => false end
  | p :: pat' =>
      if p =? 42
      then (fix star (name : str) : bool :=
              fnmatch pat' name ||
              match name with
              | [] => false
              | _ :: name' => star name'
              end) name
      else match name with
           | [] => false
           | c :: name' => ((p =? 63) || (p =? c)) && fnmatch pat' name'
           end
  end.

Definition is_hidden (s : str) : bool :=
  match s with c :: _ => c =? 46 | [] => false end.

(** The name of [p] inside the directory [dir], when [p] is an entry of it. *)
Definition child_name (dir p : str) : option str :=
  match strip_prefix (match dir with
                      | [] => []
                      | _ => if ends_with_sep dir then dir else dir ++ [sep]
                      end) p with
  | Some (c :: name) =>
      if existsb (N.eqb sep) (c :: name) then None else Some (c :: name)
  | _ => None
  end.

(** [os.listdir(dir)], and nothing when [dir] is not a directory. *)
Definition listdir (dir : str) (fs : filesystem) : list str :=
  if is_dir dir fs
  then flat_map (fun e => match child_name dir (fst e) with
                          | Some name => [name]
                          | None => []
                          end) fs
  else [].

(** The names of [dir] matching a wildcard pattern; hidden names only for a
    pattern that is hidden itself. *)
Definition glob1 (dir pattern : str) (fs : filesystem) : list str :=
  filter (fun name => (is_hidden pattern || negb (is_hidden name)) && fnmatch pattern name)
         (listdir dir fs).

(** The same for a literal last component. *)
Definition glob0 (dir base : str) (fs : filesystem) : list str :=
  match base with
  | [] => if is_dir dir fs then [base] else []
  | _ => if exists_path (path_join dir base) fs then [base] else []
  end.

(** [glob.glob(pathname)]; a directory part with wildcards is expanded
    first, which [fuel] bounds by the length of the pattern. *)
Fixpoint glob_fuel (fuel : nat) (pathname : str) (fs : filesystem) : list str :=
  match fuel with
  | O => []
  | S fuel' =>
      if negb (has_magic pathname)
      then (if exists_path pathname fs then [pathname] else [])
      else
        let (dir, base) := path_split pathname in
        let in_dir := if has_magic base then glob1 else glob0 in
        let dirs := if negb (str_eqb dir pathname) && has_magic dir
                    then glob_fuel fuel' dir fs
                    else [dir] in
        flat_map (fun d => map (path_join d) (in_dir d base fs)) dirs
  end.

Definition glob (pathname : str) (fs : filesystem) : list str :=
  glob_fuel (S (List.length pathname)) pathname fs.

Definition null {A : Type} (l : list A) : bool :=
  match l with [] => true | _ => false end.

(** The directory a new entry goes into exists. *)
Definition parent_ok (p : str) (fs0 : filesystem) : bool := is_dir (dirname p) fs0.

(** The texts between the separators of a path, as [p.split('/')]. *)
Fixpoint components (p : str) : list str :=
  match p with
  | [] => [[]]
  | c :: p' =>
      if c =? sep then [] :: components p'
      else match components p' with
           | x :: l => (c :: x) :: l
           | [] => [[c]]
           end
  end.

(** A component that names an entry: not empty, not [.] and not [..]. *)
Definition proper (name : str) : bool :=
  negb (null name) && negb (str_eqb name (lit ".")) && negb (str_eqb name (lit "..")).

(** A path in the form [os.path.normpath] gives it, the root and the empty
    path apart: proper components, after an empty first one when the path is
    absolute.  These are the texts the entries of a [filesystem] are kept
    under. *)
Definition tidy (p : str) : bool :=
  match components p with
  | [] => false
  | [r] => proper r
  | r :: l => (null r || proper r) && forallb proper l
  end.

(** *** Stable sorting, as [list.sort(key=...)] does *)

Fixpoint insert_by {A : Type} (before : A -> A -> bool) (x : A) (l : list A) : list A :=
  match l with
  | [] => [x]
  | y :: l' => if before y x then y :: insert_by before x l' else x :: l
  end.

Definition sort_by {A : Type} (before : A -> A -> bool) (l : list A) : list A :=
  fold_right (insert_by before) [] l.

(* ================================================================== *)
(** ** The world the program acts on, and its effects *)

(** The lines [safe_print] writes. *)
Inductive line :=
| RenamedTo (new_filename : str)
| NoFileToRename
| MovedFile (target_directory name : str)
| ErrorMoving (file_path : str) (e : exn)
| ErrorProcessing (file_path : str) (e : exn)
| CreatedCombined (combined_file_path : str)
| NoDataToCombine (output_filename : str)
| NoFolders (state_formatted : str)
| FoundFolders (n : N) (state_formatted : str)
| ProcessingFolder (folder : str)
| Processed (file_path : str)
| CreatedConsolidated (consolidated_file_path : str)
| NoDataToConsolidate (state_formatted : str)
| NavigationEnded (e : exn)
| ErrorInDownload (e : exn)
| ProcessingFiltered (state : str)
| SkippingBusinessServices
| CompletedPair (state business_type : str)
| ErrorPair (state business_type : str) (e : exn)
| Consolidating (state : str)
| ProcessingUnfiltered (state : str)
| CompletedState (state : str)
| ErrorState (state : str) (e : exn)
| AllCompleted
| ErrorInMain (e : exn).

(** The text of a line. *)
Definition render (l : line) : str :=
  match l with
  | RenamedTo f => lit "Renamed downloaded file to: " ++ f
  | NoFileToRename => lit "No file found to rename."
  | MovedFile d f => lit "Moved file to " ++ d ++ lit ": " ++ f
  | ErrorMoving p e => lit "Error moving file " ++ p ++ lit ": " ++ exn_msg e
  | ErrorProcessing p e => lit "Error processing " ++ p ++ lit ": " ++ exn_msg e
  | CreatedCombined p => lit "Created combined CSV file: " ++ p
  | NoDataToCombine f => lit "No data to combine for " ++ f
  | NoFolders s => lit "No business type folders found for state: " ++ s
  | FoundFolders n s =>
      lit "Found " ++ str_of_N n ++ lit " folders for state: " ++ s
  | ProcessingFolder f => lit "Processing folder: " ++ f
  | Processed p => lit "Processed: " ++ p
  | CreatedConsolidated p => lit "Created consolidated CSV file: " ++ p
  | NoDataToConsolidate s => lit "No data to consolidate for state: " ++ s
  | NavigationEnded e =>
      lit "Navigation ended. Moving to next combination. Error: " ++ exn_msg e
  | ErrorInDownload e => lit "Error in download_and_process_data: " ++ exn_msg e
  | ProcessingFiltered s =>
      10 :: lit "Processing " ++ s ++ lit " with business type filtering..."
  | SkippingBusinessServices => lit "Skipping Business Services for Maharashtra..."
  | CompletedPair s b => lit "Completed processing " ++ s ++ lit " - " ++ b
  | ErrorPair s b e =>
      lit "Error processing " ++ s ++ lit " - " ++ b ++ lit ": " ++ exn_msg e
  | Consolidating s => 10 :: lit "Consolidating files for " ++ s ++ lit "..."
  | ProcessingUnfiltered s =>
      10 :: lit "Processing " ++ s ++ lit " without business type filtering..."
  | CompletedState s => lit "Completed processing " ++ s
  | ErrorState s e => lit "Error processing " ++ s ++ lit ": " ++ exn_msg e
  | AllCompleted =>
      10 :: lit "Data collection and consolidation completed for all states."
  | ErrorInMain e => lit "An error occurred in main execution: " ++ exn_msg e
  end.

(** The files, the wall clock (microseconds of local time) and the output
    stream, each line with the instant it was written. *)
Record world := { fs : filesystem; now : N; out : list (N * line) }.

(** A computation reads and changes a state, and returns or raises; [M] is
    for the code that touches files, clock and output only. *)
Definition SE (St A : Type) : Type := St -> result A * St.
Definition M (A : Type) : Type := SE world A.

Definition ret {St A : Type} (a : A) : SE St A := fun w => (Ok a, w).
Definition raise {St A : Type} (e : exn) : SE St A := fun w => (Raise e, w).

Definition bind {St A B : Type} (m : SE St A) (k : A -> SE St B) : SE St B :=
  fun w => match m w with
           | (Ok a, w') => k a w'
           | (Raise e, w') => (Raise e, w')
           end.

(** [try: m  except Exception as e: handler(e)]. *)
Definition try_except {St A : Type} (m : SE St A) (handler : exn -> SE St A)
    : SE St A :=
  fun w => match m w with
           | (Ok a, w') => (Ok a, w')
           | (Raise e, w') => handler e w'
           end.

Declare Scope m_scope.
Delimit Scope m_scope with m.
Notation "x <- m ;; k" := (bind m (fun x => k))
  (at level 61, m at next level, right associativity) : m_scope.
Notation "m ;;; k" := (bind m (fun _ => k))
  (at level 61, right associativity) : m_scope.
Open Scope m_scope.

Fixpoint mapM {St A B : Type} (f : A -> SE St B) (l : list A) : SE St (list B) :=
  match l with
  | [] => ret []
  | x :: l' => y <- f x ;; ys <- mapM f l' ;; ret (y :: ys)
  end.

Definition safe_print (l : line) : M unit :=
  fun w => (Ok tt, {| fs := fs w; now := now w; out := out w ++ [(now w, l)] |}).

Definition os_error (what : string) (p : str) : exn :=
  Exn OSError (lit what ++ lit ": " ++ p).

Definition glob_glob (pathname : str) : M (list str) :=
  fun w => (Ok (glob pathname (fs w)), w).

(** [os.path.getmtime(p)]; it raises for a path without entry. *)
Definition getmtime (p : str) : M N :=
  fun w => match lookup p (fs w) with
           | Some n => (Ok (mtime n), w)
           | None => (Raise (os_error "No such file or directory" p), w)
           end.

(** [pd.read_csv(p, encoding='utf-8', on_bad_lines='skip')]. *)
Definition read_csv (p : str) : M DataFrame :=
  fun w => match lookup p (fs w) with
           | None => (Raise (os_error "No such file or directory" p), w)
           | Some {| body := Directory |} => (Raise (os_error "Is a directory" p), w)
           | Some {| body := Garbled e |} => (Raise e, w)
           | Some {| body := Csv df |} =>
               match columns df with
               | [] => (Raise (Exn EmptyDataError (lit "No columns to parse from file")), w)
               | _ => (Ok df, w)
               end
           end.

(** [df.to_csv(p, index=False, encoding='utf-8')]: the file is created or
    replaced inside an existing directory.  Of the ways the write can fail,
    the two that depend on the entries alone are kept. *)
Definition to_csv (p : str) (df : DataFrame) : M unit :=
  fun w =>
    if is_dir p (fs w) then (Raise (os_error "Is a directory" p), w)
    else if parent_ok p (fs w)
    then (Ok tt, {| fs := store p {| mtime := now w; body := Csv df |} (fs w);
                    now := now w; out := out w |})
    else (Raise (os_error "No such file or directory" p), w).

(** *** [os.rename], [os.mkdir], [os.makedirs] *)

(** The entries below a directory. *)
Definition below (dir p : str) : option str :=
  strip_prefix (dir ++ [sep]) p.

Definition has_entries (dir : str) (fs0 : filesystem) : bool :=
  existsb (fun e => match below dir (fst e) with Some _ => true | None => false end) fs0.

(** A directory moves with everything below it. *)
Definition retarget (src dst p : str) : str :=
  if str_eqb p src then dst
  else match below src p with
       | Some rest => dst ++ sep :: rest
       | None => p
       end.

(** [os.rename(src, dst)]: a file replaces a file of the same name, a
    directory replaces an empty one only. *)
Definition os_rename (src dst : str) : M unit :=
  fun w =>
    match lookup src (fs w) with
    | None => (Raise (os_error "No such file or directory" src), w)
    | Some n =>
        if str_eqb src dst then (Ok tt, w)
        else if negb (parent_ok dst (fs w))
        then (Raise (os_error "No such file or directory" dst), w)
        else
          match body n, lookup dst (fs w) with
          | Directory, Some {| body := Directory |} =>
              if has_entries dst (fs w)
              then (Raise (os_error "Directory not empty" dst), w)
              else (Ok tt, {| fs := map (fun e => (retarget src dst (fst e), snd e))
                                        (unlink dst (fs w));
                              now := now w; out := out w |})
          | Directory, Some _ => (Raise (os_error "Not a directory" dst), w)
          | Directory, None =>
              (Ok tt, {| fs := map (fun e => (retarget src dst (fst e), snd e)) (fs w);
                         now := now w; out := out w |})
          | _, Some {| body := Directory |} =>
              (Raise (os_error "Is a directory" dst), w)
          | _, _ =>
              (Ok tt, {| fs := store dst n (unlink src (fs w));
                         now := now w; out := out w |})
          end
    end.

Definition os_mkdir (p : str) : M unit :=
  fun w =>
    if exists_path p (fs w) then (Raise (os_error "File exists" p), w)
    else if negb (parent_ok p (fs w))
    then (Raise (os_error "No such file or directory" p), w)
    else (Ok tt, {| fs := store p {| mtime := now w; body := Directory |} (fs w);
                    now := now w; out := out w |}).

(** [os.makedirs(p)]: the missing ancestors first; each is shorter than the
    path, which bounds the recursion.  After them a last component [.] is
    not created: it exists with its directory. *)
Fixpoint makedirs_fuel (fuel : nat) (p : str) : M unit :=
  match fuel with
  | O => raise (os_error "File name too long" p)
  | S fuel' =>
      let (head, tail) := path_split p in
      let (head, tail) := match tail with
                          | [] => path_split head
                          | _ => (head, tail)
                          end in
      fun w =>
        if negb (null head) && negb (null tail) && negb (exists_path head (fs w))
        then match try_except (makedirs_fuel fuel' head)
                     (fun e => if exists_path head (fs w) then ret tt else raise e) w with
             | (Ok _, w1) => if str_eqb tail (lit ".") then (Ok tt, w1) else os_mkdir p w1
             | (Raise e, w1) => (Raise e, w1)
             end
        else os_mkdir p w
  end.

Definition makedirs (p : str) : M unit := makedirs_fuel (S (List.length p)) p.

(** [create_directory], lines 34-37. *)
Definition create_directory (path : str) : M unit :=
  fun w => if negb (exists_path path (fs w)) then makedirs path w else (Ok tt, w).

(** *** The clock

    [datetime.now().strftime('%Y%m%d%H%M%S')]: the instant is cut to whole
    seconds; the date is that of the day count since 1970-01-01. *)

Definition second : N := 1000000.

Definition pad2 (n : N) : str := [48 + (n / 10) mod 10; 48 + n mod 10].

Definition pad4 (n : N) : str :=
  if n <? 10000
  then [48 + (n / 1000) mod 10; 48 + (n / 100) mod 10;
        48 + (n / 10) mod 10; 48 + n mod 10]
  else str_of_N n.

Definition civil_from_days (z : N) : N * N * N :=
  let z := z + 719468 in
  let era := z / 146097 in
  let doe := z mod 146097 in
  let yoe := (doe - doe / 1460 + doe / 36524 - doe / 146096) / 365 in
  let doy := doe - (365 * yoe + yoe / 4 - yoe / 100) in
  let mp := (5 * doy + 2) / 153 in
  let d := doy - (153 * mp + 2) / 5 + 1 in
  let m := if mp <? 10 then mp + 3 else mp - 9 in
  let y := yoe + era * 400 + (if m <=? 2 then 1 else 0) in
  (y, m, d).

Definition date_text (day : N) : str :=
  let '(y, m, d) := civil_from_days day in
  pad4 y ++ pad2 m ++ pad2 d.

Definition time_text (sod : N) : str :=
  pad2 (sod / 3600) ++ pad2 ((sod / 60) mod 60) ++ pad2 (sod mod 60).

Definition strftime (t : N) : str :=
  let s := t / second in
  date_text (s / 86400) ++ time_text (s mod 86400).

Definition same_day (t1 t2 : N) : Prop :=
  t1 / second / 86400 = t2 / second / 86400.

Section Unicode.

Variable U : ucd.

(** [c.isalnum()]. *)
Definition isalnum (c : char) : bool :=
  if c <? 128 then is_ascii_digit c || is_ascii_alpha c else ucd_alnum U c.

(** [format_filename], lines 40-44. *)
Definition format_filename (text : str) : str :=
  let formatted := replace 38 (lit "and") (replace 32 (lit "_") text) in
  filter (fun c => isalnum c || (c =? 95)) formatted.

(** [int(s)] on a string, base ten: Unicode spaces and decimal digits are
    first brought to ASCII, surrounding whitespace is dropped, a sign may
    lead.  [None] stands for the [ValueError]. *)
Definition to_ascii (c : char) : char :=
  if c <? 128 then c
  else if ucd_space U c then 32
  else match ucd_decimal U c with
       | Some d => 48 + d
       | None => c
       end.

Definition py_int (s : str) : option Z :=
  match strip (map to_ascii s) with
  | 43 :: r => option_map (fun u => Z.of_N (N.of_uint u)) (uint_of_digits r false)
  | 45 :: r => option_map (fun u => (- Z.of_N (N.of_uint u))%Z) (uint_of_digits r false)
  | r => option_map (fun u => Z.of_N (N.of_uint u)) (uint_of_digits r false)
  end.

(* ================================================================== *)
(** ** File naming *)

(** [if business_type:] holds for a non-empty string. *)
Definition truthy (business_type : option str) : bool :=
  match business_type with
  | Some (_ :: _) => true
  | _ => false
  end.

Definition text_of (business_type : option str) : str :=
  match business_type with Some b => b | None => [] end.

(** The name of line 56: [f"{state}_{business}_page_{page_number}.csv"]. *)
Definition page_filename (state_formatted business_formatted : str)
    (page_number : N) : str :=
  state_formatted ++ lit "_" ++ business_formatted ++ lit "_page_" ++
  str_of_N page_number ++ lit ".csv".

(** The name of line 58: [f"{state}_{timestamp}.csv"]. *)
Definition stamp_filename (state_formatted timestamp : str) : str :=
  state_formatted ++ lit "_" ++ timestamp ++ lit ".csv".

(** [rename_downloaded_file], lines 47-66; [None] is Python's [None]. *)
Definition rename_downloaded_file (download_directory state_name : str)
    (business_type : option str) (page_number : N) : M (option str) :=
  let downloaded_file_path := path_join download_directory (lit "data.csv") in
  fun w =>
    if exists_path downloaded_file_path (fs w) then
      let state_formatted := format_filename state_name in
      let timestamp := strftime (now w) in
      let new_filename :=
        if truthy business_type
        then page_filename state_formatted
               (format_filename (text_of business_type)) page_number
        else stamp_filename state_formatted timestamp in
      let new_file_path := path_join download_directory new_filename in
      (os_rename downloaded_file_path new_file_path ;;;
       safe_print (RenamedTo new_filename) ;;;
       ret (Some new_file_path)) w
    else
      (safe_print NoFileToRename ;;; ret None) w.

(** Lines 84-90: each file is moved inside its own [try]. *)
Fixpoint move_each (target_directory : str) (csv_files : list str) : M unit :=
  match csv_files with
  | [] => ret tt
  | file_path :: rest =>
      try_except
        (let destination_path := path_join target_directory (basename file_path) in
         os_rename file_path destination_path ;;;
         safe_print (MovedFile target_directory (basename file_path)))
        (fun e => safe_print (ErrorMoving file_path e)) ;;;
      move_each target_directory rest
  end.

(** [move_files_to_directory], lines 69-90. *)
Definition move_files_to_directory (download_directory state_name : str)
    (business_type : option str) : M unit :=
  let state_formatted := format_filename state_name in
  let '(target_directory, file_pattern) :=
    if truthy business_type then
      let business_formatted := format_filename (text_of business_type) in
      (path_join download_directory (state_formatted ++ lit "_" ++ business_formatted),
       state_formatted ++ lit "_" ++ business_formatted ++ lit "_page_*.csv")
    else
      (path_join download_directory state_formatted,
       state_formatted ++ lit "_*.csv") in
  create_directory target_directory ;;;
  csv_files <- glob_glob (path_join download_directory file_pattern) ;;
  move_each target_directory csv_files.

(* ================================================================== *)
(** ** Consolidation pipeline *)

(** The sort key of line 109: [int(x.split('page_')[-1].split('.')[0])]. *)
Definition page_segment (x : str) : str :=
  first_piece (split (lit ".") (last_piece (split (lit "page_") x))).

Definition page_key (x : str) : M Z :=
  match py_int (page_segment x) with
  | Some z => ret z
  | None =>
      raise (Exn ValueError
               (lit "invalid literal for int() with base 10: '" ++ page_segment x ++ lit "'"))
  end.

(** [l.sort(key=key)]: every key is computed first, then the list is sorted
    on them, equal keys keeping their order. *)
Definition sort_key {K : Type} (before : K -> K -> bool) (key : str -> M K)
    (l : list str) : M (list str) :=
  keys <- mapM key l ;;
  ret (map snd (sort_by (fun a b => before (fst a) (fst b)) (combine keys l))).

(** Directory, input pattern and output name of a query, lines 97-105. *)
Definition combine_layout (download_directory state_name : str)
    (business_type : option str) : str * str * str :=
  let state_formatted := format_filename state_name in
  if truthy business_type then
    let business_formatted := format_filename (text_of business_type) in
    (path_join download_directory (state_formatted ++ lit "_" ++ business_formatted),
     state_formatted ++ lit "_" ++ business_formatted ++ lit "_page_*.csv",
     state_formatted ++ lit "_" ++ business_formatted ++ lit "_combined.csv")
  else
    (path_join download_directory state_formatted,
     state_formatted ++ lit "_*.csv",
     state_formatted ++ lit "_combined.csv").

(** Lines 107-111: the inputs, in the order they are read. *)
Definition combine_inputs (download_directory state_name : str)
    (business_type : option str) : M (list str) :=
  let '(directory_path, file_pattern, _) :=
    combine_layout download_directory state_name business_type in
  csv_files <- glob_glob (path_join directory_path file_pattern) ;;
  if truthy business_type
  then sort_key Z.ltb page_key csv_files
  else sort_key (fun a b => b <? a) getmtime csv_files.

(** Lines 113-119: each file is read inside its own [try]. *)
Fixpoint read_pages (csv_files : list str) (combined_df : DataFrame) : M DataFrame :=
  match csv_files with
  | [] => ret combined_df
  | file_path :: rest =>
      combined_df' <-
        try_except
          (df <- read_csv file_path ;;
           ret (concat combined_df df))
          (fun e => safe_print (ErrorProcessing file_path e) ;;; ret combined_df) ;;
      read_pages rest combined_df'
  end.

(** [combine_csv_files], lines 93-126. *)
Definition combine_csv_files (download_directory state_name : str)
    (business_type : option str) : M unit :=
  let '(directory_path, _, output_filename) :=
    combine_layout download_directory state_name business_type in
  csv_files <- combine_inputs download_directory state_name business_type ;;
  combined_df <- read_pages csv_files empty_frame ;;
  if negb (df_empty combined_df) then
    let combined_file_path := path_join directory_path output_filename in
    to_csv combined_file_path combined_df ;;;
    safe_print (CreatedCombined combined_file_path)
  else
    safe_print (NoDataToCombine output_filename).

(** Lines 148-154: the inner loop over one folder's combined files. *)
Fixpoint read_combined (combined_files : list str) (combined_df : DataFrame)
    : M DataFrame :=
  match combined_files with
  | [] => ret combined_df
  | file_path :: rest =>
      combined_df' <-
        try_except
          (df <- read_csv file_path ;;
           safe_print (Processed file_path) ;;;
           ret (concat combined_df df))
          (fun e => safe_print (ErrorProcessing file_path e) ;;; ret combined_df) ;;
      read_combined rest combined_df'
  end.

(** Lines 144-154: the loop over the folders. *)
Fixpoint read_folders (business_type_folders : list str) (combined_df : DataFrame)
    : M DataFrame :=
  match business_type_folders with
  | [] => ret combined_df
  | folder :: rest =>
      safe_print (ProcessingFolder folder) ;;;
      combined_files <- glob_glob (path_join folder (lit "*_combined.csv")) ;;
      combined_df' <- read_combined combined_files combined_df ;;
      read_folders rest combined_df'
  end.

(** [consolidate_state_files], lines 129-161. *)
Definition consolidate_state_files (download_directory state_name : str) : M unit :=
  let state_formatted := format_filename state_name in
  let state_directory_pattern :=
    path_join download_directory (state_formatted ++ lit "_*") in
  business_type_folders <- glob_glob state_directory_pattern ;;
  match business_type_folders with
  | [] => safe_print (NoFolders state_formatted)
  | _ =>
      safe_print (FoundFolders (N.of_nat (List.length business_type_folders))
                               state_formatted) ;;;
      combined_df <- read_folders business_type_folders empty_frame ;;
      if negb (df_empty combined_df) then
        let consolidated_file_path :=
          path_join download_directory (state_formatted ++ lit "_consolidated.csv") in
        to_csv consolidated_file_path combined_df ;;;
        safe_print (CreatedConsolidated consolidated_file_path)
      else
        safe_print (NoDataToConsolidate state_formatted)
  end.

(** *** What a merge reads, seen from the files alone *)

(** The table [read_csv] returns for a path, or the exception it raises. *)
Definition table_at (fs0 : filesystem) (p : str) : result DataFrame :=
  fst (read_csv p {| fs := fs0; now := 0; out := [] |}).

(** The rows a path contributes: none when it cannot be read. *)
Definition rows_at (fs0 : filesystem) (p : str) : list row :=
  match table_at fs0 p with
  | Ok df => rows df
  | Raise _ => []
  end.

(** The table accumulated over the files that can be read. *)
Definition merged (fs0 : filesystem) (files : list str) (acc : DataFrame) : DataFrame :=
  fold_left (fun acc p => match table_at fs0 p with
                          | Ok df => concat acc df
                          | Raise _ => acc
                          end) files acc.

(** The lines written for the files that cannot be read. *)
Definition failures (fs0 : filesystem) (files : list str) : list line :=
  flat_map (fun p => match table_at fs0 p with
                     | Ok _ => []
                     | Raise e => [ErrorProcessing p e]
                     end) files.

(** The lines of [consolidate_state_files] for the files of one folder. *)
Definition notes (fs0 : filesystem) (files : list str) : list line :=
  map (fun p => match table_at fs0 p with
                | Ok _ => Processed p
                | Raise e => ErrorProcessing p e
                end) files.

Definition folder_files (fs0 : filesystem) (folder : str) : list str :=
  glob (path_join folder (lit "*_combined.csv")) fs0.

Definition folder_notes (fs0 : filesystem) (folders : list str) : list line :=
  flat_map (fun f => ProcessingFolder f :: notes fs0 (folder_files fs0 f)) folders.

Definition stamped (t : N) (ls : list line) : list (N * line) := map (pair t) ls.

(** The world after more lines were written. *)
Definition wrote (w : world) (ls : list line) : world :=
  {| fs := fs w; now := now w; out := out w ++ stamped (now w) ls |}.

(** The page number line 109 reads off a path, the modification time line
    111 reads, and the two paths of a query. *)
Definition page_no (x : str) : Z :=
  match py_int (page_segment x) with
  | Some z => z
  | None => 0%Z
  end.

Definition mtime_at (fs0 : filesystem) (p : str) : N :=
  match lookup p fs0 with
  | Some n => mtime n
  | None => 0
  end.

Definition combine_pattern (download_directory state_name : str)
    (business_type : option str) : str :=
  let '(directory_path, file_pattern, _) :=
    combine_layout download_directory state_name business_type in
  path_join directory_path file_pattern.

Definition combine_output (download_directory state_name : str)
    (business_type : option str) : str :=
  let '(directory_path, _, output_filename) :=
    combine_layout download_directory state_name business_type in
  path_join directory_path output_filename.

Definition consolidate_pattern (download_directory state_name : str) : str :=
  path_join download_directory (format_filename state_name ++ lit "_*").

Definition consolidate_output (download_directory state_name : str) : str :=
  path_join download_directory (format_filename state_name ++ lit "_consolidated.csv").

(* ================================================================== *)
(** ** Export session

    The browser and its driver are not part of the program: every call the
    program makes on them is an [action] handed to [drive], which answers
    with an element or an exception and may change the browser, the files
    (downloads land) and the clock (time passes).  [time.sleep] and the
    polling of [WebDriverWait] are such calls too. *)

Inductive selector :=
| ByXPath (s : str)
| ById (s : str)
| ByCssSelector (s : str).

Definition elem := N.

Inductive action :=
| StartEdge (download_directory : str)
| Get (url : str)
| Input (prompt : str)
| UntilClickable (timeout : N) (by_ : selector)
| UntilVisible (timeout : N) (by_ : selector)
| UntilStale (timeout : N) (e : elem)
| UntilFile (timeout : N) (path : str)
| FindElement (by_ : selector)
| Click (e : elem)
| SelectByVisibleText (e : elem) (text : str)
| ExecuteScript (script : str) (e : elem)
| Sleep (seconds : N)
| Quit.

Section Session.

Variable B : Type.
Variable drive : action -> B -> filesystem -> N -> result elem * (B * filesystem * N).

Definition state : Type := B * world.

(** Code that drives the browser, and code that may also loop for ever
    ([None]: the loop has not ended within the fuel). *)
Definition Run (A : Type) : Type := SE state A.
Definition Loop (A : Type) : Type := state -> option (result A * state).

Definition lift {A : Type} (m : M A) : Run A :=
  fun st => let (r, w') := m (snd st) in (r, (fst st, w')).

Definition call (a : action) : Run elem :=
  fun st =>
    let '(r, (b', fs', t')) := drive a (fst st) (fs (snd st)) (now (snd st)) in
    (r, (b', {| fs := fs'; now := t'; out := out (snd st) |})).

Definition call_ (a : action) : Run unit := call a ;;; ret tt.

(** [time.sleep(seconds)] returns, whatever happened meanwhile. *)
Definition sleep (seconds : N) : Run unit :=
  fun st => (Ok tt, snd (call (Sleep seconds) st)).

(** [WebDriverWait(driver, timeout).until(lambda d: os.path.exists(path))]. *)
Definition until_file (timeout : N) (path : str) : Run unit :=
  fun st =>
    if exists_path path (fs (snd st)) then (Ok tt, st)
    else
      let st' := snd (call (UntilFile timeout path) st) in
      if exists_path path (fs (snd st')) then (Ok tt, st')
      else (Raise (Exn TimeoutException (lit "Message: ")), st').

Definition retL {A : Type} (a : A) : Loop A := fun st => Some (Ok a, st).

Definition bindL {A C : Type} (m : Loop A) (k : A -> Loop C) : Loop C :=
  fun st => match m st with
            | None => None
            | Some (Ok a, st') => k a st'
            | Some (Raise e, st') => Some (Raise e, st')
            end.

Definition try_exceptL {A : Type} (m : Loop A) (handler : exn -> Loop A) : Loop A :=
  fun st => match m st with
            | None => None
            | Some (Ok a, st') => Some (Ok a, st')
            | Some (Raise e, st') => handler e st'
            end.

(** [try: m  finally: cleanup]. *)
Definition try_finallyL {A : Type} (m : Loop A) (cleanup : Loop unit) : Loop A :=
  fun st => match m st with
            | None => None
            | Some (r, st') =>
                match cleanup st' with
                | None => None
                | Some (Ok _, st'') => Some (r, st'')
                | Some (Raise e, st'') => Some (Raise e, st'')
                end
            end.

Definition run {A : Type} (m : Run A) : Loop A := fun st => Some (m st).

Definition say (l : line) : Loop unit := run (lift (safe_print l)).

Notation "x <~ m ;; k" := (bindL m (fun x => k))
  (at level 61, m at next level, right associativity) : m_scope.
Notation "m ~;; k" := (bindL m (fun _ => k))
  (at level 61, right associativity) : m_scope.

(** Lines 167-191: the query is entered and submitted. *)
Definition setup (state_name : str) (business_type : option str) : Run unit :=
  (if truthy business_type then
     category_tab <- call (UntilClickable 10
                       (ByXPath (lit "//a[@class='nav-link' and @href='#category']"))) ;;
     call_ (Click category_tab) ;;;
     sleep 2 ;;;
     business_select <- call (FindElement (ById (lit "nature_of_business"))) ;;
     call_ (SelectByVisibleText business_select (text_of business_type)) ;;;
     sleep 2
   else ret tt) ;;;
  location_tab <- call (UntilClickable 10
                    (ByXPath (lit "//a[@class='nav-link' and @href='#location']"))) ;;
  call_ (Click location_tab) ;;;
  sleep 2 ;;;
  state_select <- call (FindElement (ById (lit "state_name"))) ;;
  call_ (SelectByVisibleText state_select state_name) ;;;
  sleep 2 ;;;
  submit_button <- call (UntilClickable 5 (ById (lit "frm_submit"))) ;;
  call_ (Click submit_button).

Definition export_link : selector :=
  ByXPath (lit "//a[contains(@id, 'exporttocsv_') and contains(text(), 'Export to CSV')]").

Definition next_control : selector := ByXPath (lit "//input[@class='img_but_next']").

(** Lines 196-204: the page is exported and the download awaited. *)
Definition export_page (download_directory : str) : Run unit :=
  sleep 5 ;;;
  export_csv_link <- call (UntilClickable 30 export_link) ;;
  call_ (Click export_csv_link) ;;;
  until_file 40 (path_join download_directory (lit "data.csv")).

(** Lines 213-220: the overlay is dismissed when there is one; only the two
    named exceptions are passed over. *)
Definition dismiss_overlay : Run unit :=
  try_except
    (overlay <- call (UntilVisible 3 (ByCssSelector (lit "a.nav-link.dropdown-toggle"))) ;;
     call_ (Click overlay) ;;;
     sleep 1)
    (fun e => match exn_cls e with
              | TimeoutException | NoSuchElementException => ret tt
              | _ => raise e
              end).

(** Lines 207-225: the next page is asked for and awaited. *)
Definition next_page : Run unit :=
  next_button <- call (UntilClickable 30 next_control) ;;
  call_ (ExecuteScript (lit "arguments[0].scrollIntoView(true);") next_button) ;;;
  sleep 1 ;;;
  dismiss_overlay ;;;
  call_ (ExecuteScript (lit "arguments[0].click();") next_button) ;;;
  sleep 5 ;;;
  call_ (UntilStale 20 next_button).

(** Lines 195-225: the body of the [try] inside the loop. *)
Definition page_step (download_directory state_name : str)
    (business_type : option str) (page_number : N) : Run unit :=
  export_page download_directory ;;;
  lift (rename_downloaded_file download_directory state_name business_type
          page_number) ;;;
  next_page.

(** Lines 193-228: [while True], left through the [except] only.  The
    source raises [page_number] before the last wait of a turn; when that
    wait raises the loop ends and the number is not read again. *)
Fixpoint paginate (fuel : nat) (download_directory state_name : str)
    (business_type : option str) (page_number : N) : Loop unit :=
  match fuel with
  | O => fun _ => None
  | S fuel' =>
      fun st =>
        match page_step download_directory state_name business_type page_number st with
        | (Ok _, st') =>
            paginate fuel' download_directory state_name business_type
              (page_number + 1) st'
        | (Raise e, st') => say (NavigationEnded e) st'
        end
  end.

(** [download_and_process_data], lines 164-235. *)
Definition download_and_process_data (fuel : nat) (download_directory state_name : str)
    (business_type : option str) : Loop unit :=
  try_exceptL
    (run (setup state_name business_type) ~;;
     paginate fuel download_directory state_name business_type 1 ~;;
     run (lift (move_files_to_directory download_directory state_name business_type)) ~;;
     run (lift (combine_csv_files download_directory state_name business_type)))
    (fun e => say (ErrorInDownload e) ~;; run (raise e)).

(* ================================================================== *)
(** ** Query orchestrator *)

Definition portal : str :=
  lit "https://firstsource.cmie.com/kommon/bin/sr.php?kall=wadvsearch".

Definition business_filtered_states : list str :=
  map lit ["Maharashtra"; "NCT of Delhi"; "Rajasthan"; "Tamil Nadu"; "Telangana";
           "Uttar Pradesh"; "Gujarat"; "Haryana"; "Karnataka"; "West Bengal"]%string.

Definition other_states : list str :=
  map lit ["Andaman & Nicobar"; "Manipur"; "Meghalaya"; "Mizoram"; "Nagaland";
           "Odisha"; "Puducherry"; "Punjab"; "Sikkim"; "Tripura"; "Uttarakhand";
           "Madhya Pradesh"; "Lakshadweep"; "Ladakh"; "Andhra Pradesh";
           "Arunachal Pradesh"; "Assam"; "Bihar"; "Chandigarh"; "Chhattisgarh";
           "Dadra & Nagar Haveli"; "Daman & Diu"; "Goa"; "Himachal Pradesh";
           "Jammu & Kashmir"; "Jharkhand"; "Kerala"]%string.

Definition business_types : list str :=
  map lit ["Agriculture and Allied Activities";
           "Business Services";
           "Community, personal & Social Services";
           "Construction";
           "Electricity, Gas & Water companies";
           "Finance";
           "Insurance";
           "Manufacturing (Food stuffs)";
           "Manufacturing (Leather & products thereof)";
           "Manufacturing (Machinery & Equipments)";
           "Manufacturing (Metals & Chemicals, and products thereof)";
           "Manufacturing (Others)";
           "Manufacturing (Paper & Paper products, Publishing, printing and reproduction of recorded media)";
           "Manufacturing (Textiles)";
           "Manufacturing (Wood Products)";
           "Mining & Quarrying";
           "Real Estate and Renting";
           "Trading";
           "Transport, storage and Communications"]%string.

(** Lines 292-299: one (state, business type) pair inside its [try]. *)
Definition attempt_pair (fuel : nat) (download_directory state business_type : str)
    : Loop unit :=
  try_exceptL
    (run (call_ (Get portal)) ~;;
     run (sleep 2) ~;;
     download_and_process_data fuel download_directory state (Some business_type) ~;;
     say (CompletedPair state business_type))
    (fun e => say (ErrorPair state business_type e)).

Definition skipped (state business_type : str) : bool :=
  str_eqb state (lit "Maharashtra") && str_eqb business_type (lit "Business Services").

(** Lines 286-299: the loop over the business types of one state. *)
Fixpoint for_business_types (fuel : nat) (download_directory state : str)
    (types : list str) : Loop unit :=
  match types with
  | [] => retL tt
  | business_type :: rest =>
      (if skipped state business_type
       then say SkippingBusinessServices
       else attempt_pair fuel download_directory state business_type) ~;;
      for_business_types fuel download_directory state rest
  end.

(** Lines 284-303. *)
Fixpoint for_filtered_states (fuel : nat) (download_directory : str)
    (states types : list str) : Loop unit :=
  match states with
  | [] => retL tt
  | state :: rest =>
      say (ProcessingFiltered state) ~;;
      for_business_types fuel download_directory state types ~;;
      say (Consolidating state) ~;;
      run (lift (consolidate_state_files download_directory state)) ~;;
      for_filtered_states fuel download_directory rest types
  end.

(** Lines 308-315: one unfiltered state inside its [try]. *)
Definition attempt_state (fuel : nat) (download_directory state : str) : Loop unit :=
  try_exceptL
    (run (call_ (Get portal)) ~;;
     run (sleep 2) ~;;
     download_and_process_data fuel download_directory state None ~;;
     say (CompletedState state))
    (fun e => say (ErrorState state e)).

(** Lines 306-315. *)
Fixpoint for_other_states (fuel : nat) (download_directory : str)
    (states : list str) : Loop unit :=
  match states with
  | [] => retL tt
  | state :: rest =>
      say (ProcessingUnfiltered state) ~;;
      attempt_state fuel download_directory state ~;;
      for_other_states fuel download_directory rest
  end.

(** [main], lines 238-322. *)
Definition main (fuel : nat) : Loop unit :=
  let download_directory := lit "D:\Downloads" in
  run (call_ (StartEdge download_directory)) ~;;
  run (call_ (Get portal)) ~;;
  run (call_ (Input (lit "Press Enter after you've logged in..."))) ~;;
  try_finallyL
    (try_exceptL
       (for_filtered_states fuel download_directory business_filtered_states
          business_types ~;;
        for_other_states fuel download_directory other_states ~;;
        say AllCompleted)
       (fun e => say (ErrorInMain e)))
    (run (call_ (Input (lit "Press Enter to close the browser..."))) ~;;
     run (call_ Quit)).

End Session.

Arguments lift {B A} m st.
Arguments call {B} drive a st.
Arguments call_ {B} drive a.
Arguments sleep {B} drive seconds st.
Arguments until_file {B} drive timeout path st.
Arguments retL {B A} a st.
Arguments bindL {B A C} m k st.
Arguments try_exceptL {B A} m handler st.
Arguments try_finallyL {B A} m cleanup st.
Arguments run {B A} m st.
Arguments say {B} l.
Arguments setup {B} drive state_name business_type.
Arguments export_page {B} drive download_directory.
Arguments dismiss_overlay {B} drive.
Arguments next_page {B} drive.
Arguments page_step {B} drive download_directory state_name business_type page_number.
Arguments paginate {B} drive fuel download_directory state_name business_type page_number.
Arguments download_and_process_data {B} drive fuel download_directory state_name
  business_type.
Arguments attempt_pair {B} drive fuel download_directory state business_type.
Arguments for_business_types {B} drive fuel download_directory state types.
Arguments for_filtered_states {B} drive fuel download_directory states types.
Arguments attempt_state {B} drive fuel download_directory state.
Arguments for_other_states {B} drive fuel download_directory states.
Arguments main {B} drive fuel.

(** *** What a computation writes

    [emits log P m]: whatever [m] does and however it ends, the output grows
    by lines that satisfy [P]. *)

Definition emits {St A : Type} (log : St -> list (N * line)) (P : line -> Prop)
    (m : SE St A) : Prop :=
  forall s, exists added,
    log (snd (m s)) = log s ++ added /\ Forall (fun x => P (snd x)) added.

Definition emitsL {B A : Type} (P : line -> Prop) (m : Loop B A) : Prop :=
  forall st r st', m st = Some (r, st') ->
    exists added,
      out (snd st') = out (snd st) ++ added /\ Forall (fun x => P (snd x)) added.

Definition out_of {B : Type} (st : state B) : list (N * line) := out (snd st).

(** The function a line comes from. *)
Inductive printer :=
| in_rename | in_move | in_combine | in_consolidate | in_session | in_main.

Definition printed_by (l : line) : printer :=
  match l with
  | RenamedTo _ | NoFileToRename => in_rename
  | MovedFile _ _ | ErrorMoving _ _ => in_move
  | ErrorProcessing _ _ | CreatedCombined _ | NoDataToCombine _ => in_combine
  | NoFolders _ | FoundFolders _ _ | ProcessingFolder _ | Processed _
  | CreatedConsolidated _ | NoDataToConsolidate _ => in_consolidate
  | NavigationEnded _ | ErrorInDownload _ => in_session
  | _ => in_main
  end.

(** The separator of line 109, as code points. *)
Definition page_sep : str := [112; 97; 103; 101; 95].

(** The name [rename_downloaded_file] gives to the export of a page at
    instant [t]. *)
Definition artifact_name (st : str) (bt : option str) (page t : N) : str :=
  if truthy bt
  then page_filename (format_filename st) (format_filename (text_of bt)) page
  else stamp_filename (format_filename st) (strftime t).

(** The lines of the orchestrator among the lines written. *)
Definition by_main (l : line) : bool :=
  match printed_by l with in_main => true | _ => false end.


(** The line that closes the attempt of a pair, and of a state. *)
Definition session_line (l : line) : Prop := by_main l = false.



(** *** Time in a session *)

Definition clock {B : Type} (st : state B) : N := now (snd st).

(** [advances d m]: the clock never goes back during [m], and is [d] later
    at least when [m] returns. *)
Definition advances {B A : Type} (d : N) (m : Run B A) : Prop :=
  forall st,
    clock st <= clock (snd (m st)) /\
    (forall a, fst (m st) = Ok a -> clock st + d <= clock (snd (m st))).

Definition not_renamed (l : line) : Prop := forall n, l <> RenamedTo n.

(** [spaced name lo l]: the renamings among the lines [l] are at [lo] or
    later, each eleven seconds at least after the one before, and each
    gives the name of its own instant. *)
Fixpoint spaced (name : N -> str) (lo : N) (l : list (N * line)) : Prop :=
  match l with
  | [] => True
  | (t, RenamedTo n) :: l' =>
      lo <= t /\ n = name t /\ spaced name (t + 11 * second) l'
  | _ :: l' => spaced name lo l'
  end.

(* ================================================================== *)
(** ** Sample worlds

    A download directory [/data], small tables, and a browser that shows
    [pages] further pages, answers at once and downloads on the click of
    the export link.  They are the inputs the statements below are run on. *)

Definition sample_row (v : string) : row := [(lit "company", lit v)].

Definition sample_table (vs : list string) : DataFrame :=
  {| columns := [lit "company"]; rows := map sample_row vs |}.

Definition csv_file (t : N) (vs : list string) : node :=
  {| mtime := t; body := Csv (sample_table vs) |}.

Definition folder : node := {| mtime := 0; body := Directory |}.

Definition broken_file (t : N) : node :=
  {| mtime := t;
     body := Garbled (Exn OtherException
                        (lit "'utf-8' codec can't decode byte 0xff in position 0")) |}.

Definition data : str := lit "/data".

(** Pages 3, 1 and 2 of (Gujarat, Trading), listed in that order. *)
Definition pages_fs : filesystem :=
  [ (lit "/data", folder);
    (lit "/data/Gujarat_Trading", folder);
    (lit "/data/Gujarat_Trading/Gujarat_Trading_page_3.csv", csv_file 30 ["p3"]);
    (lit "/data/Gujarat_Trading/Gujarat_Trading_page_1.csv", csv_file 10 ["p1"]);
    (lit "/data/Gujarat_Trading/Gujarat_Trading_page_2.csv", csv_file 20 ["p2"]) ]%string.

Definition pages_sorted : list str :=
  [ lit "/data/Gujarat_Trading/Gujarat_Trading_page_1.csv";
    lit "/data/Gujarat_Trading/Gujarat_Trading_page_2.csv";
    lit "/data/Gujarat_Trading/Gujarat_Trading_page_3.csv" ].

(** Two captures of Goa, the earlier one listed first. *)
Definition stamps_fs : filesystem :=
  [ (lit "/data", folder);
    (lit "/data/Goa", folder);
    (lit "/data/Goa/Goa_20240101000009.csv", csv_file 9000000 ["early"]);
    (lit "/data/Goa/Goa_20240101000023.csv", csv_file 23000000 ["late"]) ]%string.

(** The same two captures after the earlier one was written to again: its
    modification time is now the later one. *)
Definition touched_fs : filesystem :=
  [ (lit "/data", folder);
    (lit "/data/Goa", folder);
    (lit "/data/Goa/Goa_20240101000009.csv", csv_file 23000000 ["early"]);
    (lit "/data/Goa/Goa_20240101000023.csv", csv_file 9000000 ["late"]) ]%string.

(** Five pages, the third unreadable. *)
Definition five_fs : filesystem :=
  [ (lit "/data", folder);
    (lit "/data/Gujarat_Trading", folder);
    (lit "/data/Gujarat_Trading/Gujarat_Trading_page_1.csv", csv_file 10 ["p1"]);
    (lit "/data/Gujarat_Trading/Gujarat_Trading_page_2.csv", csv_file 20 ["p2"]);
    (lit "/data/Gujarat_Trading/Gujarat_Trading_page_3.csv", broken_file 30);
    (lit "/data/Gujarat_Trading/Gujarat_Trading_page_4.csv", csv_file 40 ["p4"]);
    (lit "/data/Gujarat_Trading/Gujarat_Trading_page_5.csv", csv_file 50 ["p5"]) ]%string.

(** A page file the browser saved a second time under its own name. *)
Definition copy_fs : filesystem :=
  [ (lit "/data", folder);
    (lit "/data/Gujarat_Trading", folder);
    (lit "/data/Gujarat_Trading/Gujarat_Trading_page_1.csv", csv_file 10 ["p1"]);
    (lit "/data/Gujarat_Trading/Gujarat_Trading_page_1 (1).csv", csv_file 20 ["p1"]) ]%string.

(** Gujarat with a combined folder and a folder of raw pages only. *)
Definition raw_fs : filesystem :=
  [ (lit "/data", folder);
    (lit "/data/Gujarat_Finance", folder);
    (lit "/data/Gujarat_Finance/Gujarat_Finance_page_1.csv", csv_file 10 ["f1"]);
    (lit "/data/Gujarat_Trading", folder);
    (lit "/data/Gujarat_Trading/Gujarat_Trading_page_1.csv", csv_file 20 ["t1"]);
    (lit "/data/Gujarat_Trading/Gujarat_Trading_combined.csv", csv_file 30 ["t1"]) ]%string.

(** Gujarat with a folder of raw pages whose name holds a star, and a
    folder with a combined file. *)
Definition wild_fs : filesystem :=
  [ (lit "/data", folder);
    (lit "/data/Gujarat_T*", folder);
    (lit "/data/Gujarat_T*/Gujarat_T_page_1.csv", csv_file 10 ["raw"]);
    (lit "/data/Gujarat_Tea", folder);
    (lit "/data/Gujarat_Tea/Gujarat_Tea_combined.csv", csv_file 20 ["tea"]) ]%string.

(** Midnight of 2024-01-01, in microseconds. *)
Definition new_year : N := 19723 * 86400 * second.

Definition world_of (fs0 : filesystem) : world :=
  {| fs := fs0; now := new_year; out := [] |}.

Definition selector_eqb (a b : selector) : bool :=
  match a, b with
  | ByXPath x, ByXPath y => str_eqb x y
  | ById x, ById y => str_eqb x y
  | ByCssSelector x, ByCssSelector y => str_eqb x y
  | _, _ => false
  end.

(** The browser state is the number of the page shown, from 0. *)
Definition sample_drive (pages : N) (download_directory : str) (a : action)
    (b : N) (f : filesystem) (t : N) : result elem * (N * filesystem * N) :=
  match a with
  | Sleep n => (Ok 0, (b, f, t + n * second))
  | UntilClickable timeout by_ =>
      if selector_eqb by_ next_control
      then (if b <? pages then (Ok 2, (b, f, t))
            else (Raise (Exn TimeoutException (lit "Message: ")),
                  (b, f, t + timeout * second)))
      else (Ok 1, (b, f, t))
  | UntilVisible timeout _ =>
      (Raise (Exn TimeoutException (lit "Message: ")), (b, f, t + timeout * second))
  | Click e =>
      if e =? 1
      then (Ok 0, (b, store (path_join download_directory (lit "data.csv"))
                           {| mtime := t;
                              body := Csv {| columns := [lit "company"];
                                             rows := [[(lit "company", str_of_N b)]] |} |}
                           f, t))
      else (Ok 0, (b, f, t))
  | ExecuteScript script _ =>
      if str_eqb script (lit "arguments[0].click();")
      then (Ok 0, (b + 1, f, t))
      else (Ok 0, (b, f, t))
  | _ => (Ok 0, (b, f, t))
  end.

(** A browser whose result page shows neither the export link nor a
    next-page control, and which downloads nothing. *)
Definition bare_drive (a : action) (b : N) (f : filesystem) (t : N)
    : result elem * (N * filesystem * N) :=
  match a with
  | Sleep n => (Ok 0, (b, f, t + n * second))
  | UntilClickable timeout by_ =>
      if selector_eqb by_ next_control || selector_eqb by_ export_link
      then (Raise (Exn TimeoutException (lit "Message: ")), (b, f, t + timeout * second))
      else (Ok 1, (b, f, t))
  | UntilVisible timeout _ =>
      (Raise (Exn TimeoutException (lit "Message: ")), (b, f, t + timeout * second))
  | _ => (Ok 0, (b, f, t))
  end.

(** The browser of [sample_drive] on a machine whose clock is set back by
    fourteen seconds while the next page is asked for. *)
Definition set_back_drive (pages : N) (download_directory : str) (a : action)
    (b : N) (f : filesystem) (t : N) : result elem * (N * filesystem * N) :=
  match a with
  | ExecuteScript script _ =>
      if str_eqb script (lit "arguments[0].click();")
      then (Ok 0, (b + 1, f, t - 14 * second))
      else (Ok 0, (b, f, t))
  | _ => sample_drive pages download_directory a b f t
  end.

Definition sample_start : state N := (0, world_of [(lit "/data", folder)]).

Definition trading : option str := Some (lit "Trading").

Definition goa_combined : str := lit "/data/Goa/Goa_combined.csv".
Definition trading_combined : str :=
  lit "/data/Gujarat_Trading/Gujarat_Trading_combined.csv".
Definition gujarat_consolidated : str := lit "/data/Gujarat_consolidated.csv".


Definition copy_name : str := lit "/data/Gujarat_Trading/Gujarat_Trading_page_1 (1).csv".

(** The session after the first export of the browser with no next page. *)
Definition first_export : state N :=
  snd (export_page (sample_drive 0 data) data sample_start).

Definition first_artifact : str := lit "/data/Gujarat_Trading_page_1.csv".

(** Gujarat with one combined folder, the path of the consolidated file
    taken by a directory. *)
Definition blocked_fs : filesystem :=
  [ (lit "/data", folder);
    (lit "/data/Gujarat_Trading", folder);
    (lit "/data/Gujarat_Trading/Gujarat_Trading_combined.csv", csv_file 30 ["t1"]);
    (lit "/data/Gujarat_consolidated.csv", folder) ]%string.

(* ================================================================== *)
(** ** Notions of the further statements *)

(** The test [glob] puts a name to, as in [glob1]. *)
Definition glob_match (pattern name : str) : bool :=
  (is_hidden pattern || negb (is_hidden name)) && fnmatch pattern name.

Definition sep_free (s : str) : Prop := Forall (fun c => c <> sep) s.

(** Characters [fnmatch] reads literally. *)
Definition literal (s : str) : Prop := Forall (fun c => c <> 42 /\ c <> 63) s.

(** A directory path as the program builds it from a download directory
    like that of [main]: not empty, no separator at its end, no wildcard. *)
Definition plain_dir (d : str) : Prop :=
  d <> [] /\ ends_with_sep d = false /\ has_magic d = false.

(** The names given by the renaming step, in the order of the output. *)
Definition renamed (added : list (N * line)) : list str :=
  flat_map (fun x => match snd x with RenamedTo n => [n] | _ => [] end) added.

(** The names of a directory, read off the paths of the file system. *)
Definition names_in (d : str) (paths : list str) : list str :=
  flat_map (fun q => match child_name d q with
                     | Some name => [name]
                     | None => []
                     end) paths.

(** Text that is one path component and is read literally by [glob]:
    no separator, no wildcard character. *)
Definition tame (s : str) : Prop :=
  Forall (fun c => c <> sep /\ is_magic c = false) s.

(** The text the directory, the pattern and the output name of a query
    start with. *)
Definition query_stem (st : str) (bt : option str) : str :=
  if truthy bt
  then format_filename st ++ lit "_" ++ format_filename (text_of bt)
  else format_filename st.

(** What the files hold, modification times left aside. *)
Definition contents (fs0 : filesystem) : list (str * content) :=
  map (fun e => (fst e, body (snd e))) fs0.

(** The inputs of [combine_csv_files] and what it does to the files, seen
    from the files and the instant alone. *)
Definition files_read (dd st : str) (bt : option str) (fs0 : filesystem)
    : result (list str) :=
  fst (combine_inputs dd st bt {| fs := fs0; now := 0; out := [] |}).

Definition combine_effect (dd st : str) (bt : option str) (fs0 : filesystem) (t : N)
    : filesystem :=
  match files_read dd st bt fs0 with
  | Raise _ => fs0
  | Ok files =>
      let df := merged fs0 files empty_frame in
      if negb (df_empty df) && negb (is_dir (combine_output dd st bt) fs0)
         && parent_ok (combine_output dd st bt) fs0
      then store (combine_output dd st bt) {| mtime := t; body := Csv df |} fs0
      else fs0
  end.

(** The queries [main] runs, in order: every business type of every
    business-filtered state but the pair skipped at line 289, then the other
    states without business type. *)
Definition main_queries : list (str * option str) :=
  flat_map (fun state =>
              map (fun business_type => (state, Some business_type))
                  (filter (fun business_type => negb (skipped state business_type))
                          business_types))
           business_filtered_states
  ++ map (fun state => (state, None)) other_states.

(** The literal text the input pattern of a query starts with. *)
Definition query_prefix (q : str * option str) : str :=
  query_stem (fst q) (snd q) ++ (if truthy (snd q) then lit "_page_" else lit "_").

Definition comparable (a b : str) : bool := startswith a b || startswith b a.

(** No text occurs twice. *)
Fixpoint distinct (l : list str) : bool :=
  match l with
  | [] => true
  | x :: r => negb (existsb (str_eqb x) r) && distinct r
  end.

(** What [consolidate_state_files] does to the files, seen from the files
    and the instant alone. *)
Definition consolidate_effect (dd st : str) (fs0 : filesystem) (t : N) : filesystem :=
  match glob (consolidate_pattern dd st) fs0 with
  | [] => fs0
  | folders =>
      let df := merged fs0 (flat_map (folder_files fs0) folders) empty_frame in
      if negb (df_empty df) && negb (is_dir (consolidate_output dd st) fs0)
         && parent_ok (consolidate_output dd st) fs0
      then store (consolidate_output dd st) {| mtime := t; body := Csv df |} fs0
      else fs0
  end.

(** The two lines [main] closes its [try] with are set apart. *)
Definition not_closing (l : line) : Prop :=
  l <> AllCompleted /\ forall e, l <> ErrorInMain e.

(* ================================================================== *)
(** ** Theorems *)

(** Linear arithmetic with division by constants. *)
Ltac div_lia := zify; Z.to_euclidean_division_equations; lia.

(** *** Sorting *)

Section Sorting.

Variable A : Type.
Variable R : A -> A -> Prop.
Variable before : A -> A -> bool.
Hypothesis before_true : forall y x, before y x = true -> R y x.
Hypothesis before_false : forall y x, before y x = false -> R x y.
Hypothesis R_trans : forall x y z, R x y -> R y z -> R x z.

Lemma insert_by_perm x l : Permutation (x :: l) (insert_by before x l).
Proof.
  induction l as [|y l IH]; simpl; [reflexivity|].
  destruct (before y x); [|reflexivity].
  rewrite perm_swap. now constructor.
Qed.

Lemma sort_by_perm l : Permutation l (sort_by before l).
Proof.
  induction l as [|x l IH]; simpl; [constructor|].
  rewrite <- insert_by_perm. now constructor.
Qed.

Lemma insert_by_sorted x l :
  StronglySorted R l -> StronglySorted R (insert_by before x l).
Proof.
  induction 1 as [|y l Hs IH Hy]; simpl.
  - repeat constructor.
  - destruct (before y x) eqn:E.
    + constructor; [exact IH|].
      rewrite <- insert_by_perm. constructor; [now apply before_true | exact Hy].
    + apply before_false in E.
      constructor; [now constructor|].
      constructor; [exact E|].
      eapply Forall_impl; [|exact Hy]. intros z Hz. now apply R_trans with y.
Qed.

Lemma sort_by_sorted l : StronglySorted R (sort_by before l).
Proof.
  induction l as [|x l IH]; simpl; [constructor|]. now apply insert_by_sorted.
Qed.

End Sorting.

Lemma insert_by_map {A B : Type} (g : A -> B) (b1 : B -> B -> bool)
    (b2 : A -> A -> bool) x l :
  (forall a b, b1 (g a) (g b) = b2 a b) ->
  insert_by b1 (g x) (map g l) = map g (insert_by b2 x l).
Proof.
  intros Hb. induction l as [|y l IH]; simpl; [reflexivity|].
  rewrite Hb. destruct (b2 y x); simpl; [now rewrite IH | reflexivity].
Qed.

Lemma sort_by_map {A B : Type} (g : A -> B) (b1 : B -> B -> bool)
    (b2 : A -> A -> bool) l :
  (forall a b, b1 (g a) (g b) = b2 a b) ->
  sort_by b1 (map g l) = map g (sort_by b2 l).
Proof.
  intros Hb. induction l as [|x l IH]; simpl; [reflexivity|].
  rewrite IH. now apply insert_by_map.
Qed.

Lemma combine_map_self {A K : Type} (f : A -> K) l :
  combine (map f l) l = map (fun x => (f x, x)) l.
Proof. induction l as [|x l IH]; simpl; [reflexivity | now rewrite IH]. Qed.

Lemma sort_keyed {A K : Type} (f : A -> K) (before : K -> K -> bool) l :
  map snd (sort_by (fun a b => before (fst a) (fst b)) (combine (map f l) l)) =
  sort_by (fun a b => before (f a) (f b)) l.
Proof.
  rewrite combine_map_self.
  rewrite (sort_by_map (fun x => (f x, x)) _ (fun a b => before (f a) (f b)))
    by reflexivity.
  rewrite map_map. simpl. apply map_id.
Qed.

(** *** Effects *)

Lemma mapM_world {A B : Type} (f : A -> M B) l w :
  (forall x w0, snd (f x w0) = w0) -> snd (mapM f l w) = w.
Proof.
  intros Hf. induction l as [|x l IH]; simpl; [reflexivity|].
  unfold bind. specialize (Hf x w). destruct (f x w) as [[b|e] w0]; simpl in *; subst.
  - destruct (mapM f l w) as [[bs|e] w1]; simpl in *; now subst.
  - reflexivity.
Qed.

Lemma mapM_ok_inv {A B : Type} (f : A -> M B) l w ys w' :
  (forall x w0, snd (f x w0) = w0) ->
  mapM f l w = (Ok ys, w') ->
  w' = w /\ Forall2 (fun x y => f x w = (Ok y, w)) l ys.
Proof.
  intros Hf. revert ys. induction l as [|x l IH]; simpl; intros ys H.
  - inversion H. split; [reflexivity | constructor].
  - unfold bind in H. pose proof (Hf x w) as Hx.
    destruct (f x w) as [[b|e] w0] eqn:E; simpl in Hx; subst; [|discriminate].
    destruct (mapM f l w) as [[bs|e] w1] eqn:E1; [|discriminate].
    inversion H; subst. destruct (IH bs eq_refl) as [-> HF].
    split; [reflexivity | now constructor].
Qed.


(** *** The read loops *)

Lemma wrote_nil w : wrote w [] = w.
Proof. destruct w; unfold wrote, stamped; simpl. now rewrite app_nil_r. Qed.

Lemma wrote_wrote w l1 l2 : wrote (wrote w l1) l2 = wrote w (l1 ++ l2).
Proof.
  unfold wrote, stamped; simpl. now rewrite map_app, app_assoc.
Qed.

Lemma safe_print_wrote l w : safe_print l w = (Ok tt, wrote w [l]).
Proof. reflexivity. Qed.

Lemma read_csv_table p w : read_csv p w = (table_at (fs w) p, w).
Proof.
  unfold table_at, read_csv; simpl.
  destruct (lookup p (fs w)) as [[t [|df|e]]|]; try reflexivity.
  destruct (columns df); reflexivity.
Qed.

Lemma merged_cons fs0 p files acc :
  merged fs0 (p :: files) acc =
  merged fs0 files (match table_at fs0 p with
                    | Ok df => concat acc df
                    | Raise _ => acc
                    end).
Proof. reflexivity. Qed.

Lemma failures_cons fs0 p files :
  failures fs0 (p :: files) =
  match table_at fs0 p with
  | Ok _ => []
  | Raise e => [ErrorProcessing p e]
  end ++ failures fs0 files.
Proof. reflexivity. Qed.

Lemma read_pages_spec files : forall acc w,
  read_pages files acc w =
  (Ok (merged (fs w) files acc), wrote w (failures (fs w) files)).
Proof.
  induction files as [|p files IH]; intros acc w.
  - simpl. unfold ret. now rewrite wrote_nil.
  - rewrite merged_cons, failures_cons. cbn [read_pages].
    unfold bind at 1, try_except, bind at 1. rewrite read_csv_table.
    destruct (table_at (fs w) p) as [df|e].
    + unfold ret. now rewrite IH.
    + unfold bind, ret. rewrite safe_print_wrote, IH. simpl fs.
      now rewrite wrote_wrote.
Qed.

Lemma read_combined_spec files : forall acc w,
  read_combined files acc w =
  (Ok (merged (fs w) files acc), wrote w (notes (fs w) files)).
Proof.
  induction files as [|p files IH]; intros acc w.
  - simpl. unfold ret. now rewrite wrote_nil.
  - rewrite merged_cons. cbn [read_combined notes map].
    unfold bind at 1, try_except, bind at 1. rewrite read_csv_table.
    destruct (table_at (fs w) p) as [df|e].
    + unfold bind, ret. rewrite safe_print_wrote, IH. simpl fs.
      now rewrite wrote_wrote.
    + unfold bind, ret. rewrite safe_print_wrote, IH. simpl fs.
      now rewrite wrote_wrote.
Qed.

Lemma merged_app fs0 l1 l2 acc :
  merged fs0 (l1 ++ l2) acc = merged fs0 l2 (merged fs0 l1 acc).
Proof. unfold merged. apply fold_left_app. Qed.

Lemma read_folders_spec folders : forall acc w,
  read_folders folders acc w =
  (Ok (merged (fs w) (flat_map (folder_files (fs w)) folders) acc),
   wrote w (folder_notes (fs w) folders)).
Proof.
  induction folders as [|f folders IH]; intros acc w; simpl.
  - unfold ret. now rewrite wrote_nil.
  - unfold bind at 1. rewrite safe_print_wrote.
    unfold bind at 1, glob_glob. unfold bind at 1.
    rewrite read_combined_spec. rewrite IH. simpl.
    rewrite !wrote_wrote, merged_app. reflexivity.
Qed.

Lemma merged_rows fs0 files : forall acc,
  rows (merged fs0 files acc) = rows acc ++ flat_map (rows_at fs0) files.
Proof.
  induction files as [|p files IH]; intros acc; simpl.
  - now rewrite app_nil_r.
  - rewrite IH. unfold rows_at.
    destruct (table_at fs0 p); simpl; [now rewrite app_assoc | reflexivity].
Qed.


(** *** Page-combine *)

Lemma Forall2_map_eq {A B : Type} (g : A -> B) l ys :
  Forall2 (fun x y => y = g x) l ys -> ys = map g l.
Proof. induction 1; simpl; congruence. Qed.

Lemma page_key_world x w : snd (page_key x w) = w.
Proof. unfold page_key. now destruct (py_int (page_segment x)). Qed.

Lemma page_key_inv x w y w' :
  page_key x w = (Ok y, w') -> py_int (page_segment x) = Some y /\ y = page_no x.
Proof.
  unfold page_key, page_no. destruct (py_int (page_segment x)); intros H.
  - inversion H. now split.
  - discriminate.
Qed.

Lemma getmtime_world p w : snd (getmtime p w) = w.
Proof. unfold getmtime. now destruct (lookup p (fs w)). Qed.

Lemma getmtime_inv p w t w' :
  getmtime p w = (Ok t, w') -> t = mtime_at (fs w) p.
Proof.
  unfold getmtime, mtime_at. destruct (lookup p (fs w)); intros H.
  - now inversion H.
  - discriminate.
Qed.

Lemma sort_key_inv {K : Type} (before : K -> K -> bool) (key : str -> M K)
    (g : str -> K) l w files w1 :
  (forall x w0, snd (key x w0) = w0) ->
  (forall x y w', key x w = (Ok y, w') -> y = g x) ->
  sort_key before key l w = (Ok files, w1) ->
  w1 = w /\ files = sort_by (fun a b => before (g a) (g b)) l /\
  Forall (fun x => key x w = (Ok (g x), w)) l.
Proof.
  intros Hw Hg. unfold sort_key, bind.
  destruct (mapM key l w) as [[keys|e] w0] eqn:E; [|discriminate].
  apply mapM_ok_inv in E; [|exact Hw]. destruct E as [-> HF].
  unfold ret. intros H. inversion H; subst. clear H.
  assert (keys = map g l) as ->.
  { apply Forall2_map_eq. eapply Forall2_impl; [|exact HF].
    intros x y Hxy. eapply Hg; exact Hxy. }
  split; [reflexivity|]. split; [apply sort_keyed|].
  clear -HF Hg. remember (map g l) as ks eqn:Eks. revert Eks.
  induction HF as [|x y l ys Hxy _ IH]; intros Eks; constructor.
  - simpl in Eks. inversion Eks; subst. exact Hxy.
  - apply IH. simpl in Eks. now inversion Eks.
Qed.

Lemma lookup_store p n fs0 : lookup p (store p n fs0) = Some n.
Proof.
  induction fs0 as [|[q m] fs0 IH]; simpl.
  - unfold str_eqb. now destruct (list_eq_dec N.eq_dec p p).
  - destruct (str_eqb p q) eqn:E; simpl; now rewrite E.
Qed.

Lemma combine_csv_files_body dd st bt w :
  combine_csv_files dd st bt w =
  match combine_inputs dd st bt w with
  | (Raise e, w1) => (Raise e, w1)
  | (Ok files, w1) =>
      let df := merged (fs w1) files empty_frame in
      let w2 := wrote w1 (failures (fs w1) files) in
      if negb (df_empty df)
      then (to_csv (combine_output dd st bt) df ;;;
            safe_print (CreatedCombined (combine_output dd st bt))) w2
      else safe_print (NoDataToCombine (snd (combine_layout dd st bt))) w2
  end.
Proof.
  unfold combine_csv_files, combine_output.
  destruct (combine_layout dd st bt) as [[d pat] o]. simpl snd.
  unfold bind at 1. destruct (combine_inputs dd st bt w) as [[files|e] w1]; [|reflexivity].
  unfold bind at 1. rewrite read_pages_spec. cbv zeta.
  destruct (negb (df_empty (merged (fs w1) files empty_frame))); reflexivity.
Qed.

Lemma to_csv_ok p df w w' :
  to_csv p df w = (Ok tt, w') ->
  w' = {| fs := store p {| mtime := now w; body := Csv df |} (fs w);
          now := now w; out := out w |}.
Proof.
  unfold to_csv. destruct (is_dir p (fs w)); [discriminate|].
  destruct (parent_ok p (fs w)); [|discriminate].
  intros H. now inversion H.
Qed.

Lemma to_csv_raise p df w e w' : to_csv p df w = (Raise e, w') -> w' = w.
Proof.
  unfold to_csv. destruct (is_dir p (fs w)); [intros H; now inversion H|].
  destruct (parent_ok p (fs w)); [discriminate|].
  intros H. now inversion H.
Qed.

(** C2: the inputs of page-combine are the matched files, sorted by page
    number (ascending) for a business-filtered query and by modification
    time (latest first) otherwise; the rows of the output are the row blocks
    of the files in that order. *)
Theorem combine_order dd st bt w files w1 :
  combine_inputs dd st bt w = (Ok files, w1) ->
  Permutation (glob (combine_pattern dd st bt) (fs w)) files /\
  (if truthy bt
   then StronglySorted (fun a b => (page_no a <= page_no b)%Z) files /\
        Forall (fun x => py_int (page_segment x) = Some (page_no x)) files
   else StronglySorted (fun a b => mtime_at (fs w) b <= mtime_at (fs w) a) files) /\
  exists df w2,
    read_pages files empty_frame w1 = (Ok df, w2) /\
    rows df = flat_map (rows_at (fs w)) files /\
    (df_empty df = false ->
     forall w', combine_csv_files dd st bt w = (Ok tt, w') ->
       lookup (combine_output dd st bt) (fs w') =
       Some {| mtime := now w; body := Csv df |}).
Proof.
  intros H.
  assert (Hin : w1 = w /\
    Permutation (glob (combine_pattern dd st bt) (fs w)) files /\
    (if truthy bt
     then StronglySorted (fun a b => (page_no a <= page_no b)%Z) files /\
          Forall (fun x => py_int (page_segment x) = Some (page_no x)) files
     else StronglySorted (fun a b => mtime_at (fs w) b <= mtime_at (fs w) a) files)).
  { revert H. unfold combine_inputs, combine_pattern.
    destruct (combine_layout dd st bt) as [[d pat] o].
    unfold bind, glob_glob. set (l := glob (path_join d pat) (fs w)).
    destruct (truthy bt); intros H.
    - apply (sort_key_inv Z.ltb page_key page_no) in H.
      + destruct H as (-> & -> & HF). split; [reflexivity|]. split; [|split].
        * apply sort_by_perm.
        * apply sort_by_sorted with (before := fun a b => (page_no a <? page_no b)%Z).
          -- intros y x E. apply Z.ltb_lt in E. lia.
          -- intros y x E. apply Z.ltb_ge in E. lia.
          -- intros x y z. lia.
        * apply Forall_forall. intros x Hx.
          apply (Permutation_in _ (Permutation_sym (sort_by_perm _ _ l))) in Hx.
          rewrite Forall_forall in HF. specialize (HF x Hx).
          apply page_key_inv in HF. tauto.
      + apply page_key_world.
      + intros x y w' E. apply page_key_inv in E. tauto.
    - apply (sort_key_inv (fun a b => b <? a) getmtime (mtime_at (fs w))) in H.
      + destruct H as (-> & -> & HF). split; [reflexivity|]. split.
        * apply sort_by_perm.
        * apply sort_by_sorted
            with (before := fun a b => mtime_at (fs w) b <? mtime_at (fs w) a).
          -- intros y x E. apply N.ltb_lt in E. lia.
          -- intros y x E. apply N.ltb_ge in E. lia.
          -- intros x y z. lia.
      + apply getmtime_world.
      + intros x y w' E. now apply getmtime_inv in E. }
  destruct Hin as (-> & HP & HS). split; [exact HP|]. split; [exact HS|].
  eexists. eexists. split; [apply read_pages_spec|].
  split; [apply merged_rows|].
  intros Hne w' Hc. rewrite combine_csv_files_body, H in Hc. cbv zeta in Hc.
  rewrite Hne in Hc. simpl negb in Hc. cbv iota in Hc.
  unfold bind in Hc.
  destruct (to_csv _ _ _) as [[[]|e] w3] eqn:E; [|discriminate].
  apply to_csv_ok in E. subst w3. rewrite safe_print_wrote in Hc.
  inversion Hc. simpl. apply lookup_store.
Qed.

(** *** Splitting a path and reading the page number back *)

Lemma strip_prefix_Some p : forall s r, strip_prefix p s = Some r -> s = p ++ r.
Proof.
  induction p as [|a p IH]; intros [|b s] r H; simpl in *; try discriminate.
  - now inversion H.
  - now inversion H.
  - destruct (a =? b) eqn:E; [|discriminate].
    apply N.eqb_eq in E. subst. f_equal. now apply IH.
Qed.

Lemma split_go_nonempty sp s : forall skip cur, split_go sp skip cur s <> [].
Proof.
  induction s as [|c s IH]; intros skip cur; simpl; [discriminate|].
  destruct skip; [|apply IH].
  destruct (startswith sp (c :: s)); [discriminate | apply IH].
Qed.

Lemma last_cons {A : Type} (x : A) l d : l <> [] -> last (x :: l) d = last l d.
Proof. destruct l; [congruence | reflexivity]. Qed.

Lemma page_sep_lit : lit "page_" = page_sep.
Proof. reflexivity. Qed.

Lemma startswith_head_neq a p c s :
  a <> c -> startswith (a :: p) (c :: s) = false.
Proof.
  intros H. unfold startswith. cbn [strip_prefix].
  apply N.eqb_neq in H. now rewrite H.
Qed.

Lemma split_go_free T : forall cur,
  Forall (fun c => c <> 112) T ->
  split_go page_sep 0 cur T = [List.rev cur ++ T].
Proof.
  induction T as [|c T IH]; intros cur HT; cbn [split_go].
  - now rewrite app_nil_r.
  - inversion HT as [|? ? Hc HT']; subst.
    unfold page_sep at 1. rewrite startswith_head_neq by congruence.
    fold page_sep. rewrite IH by assumption. simpl. now rewrite <- app_assoc.
Qed.

Lemma split_go_last T : Forall (fun c => c <> 112) T ->
  forall P skip cur,
  (skip <= 4)%nat ->
  firstn skip (P ++ page_sep ++ T) = skipn (5 - skip) page_sep ->
  last (split_go page_sep skip cur (P ++ page_sep ++ T)) [] = T.
Proof.
  intros HT. induction P as [|c P IH]; intros skip cur Hk Hf.
  - destruct skip as [|[|[|[|[|k]]]]]; simpl in Hf; try discriminate; try lia.
    simpl. unfold startswith. simpl.
    now rewrite split_go_free.
  - destruct skip as [|k].
    + rewrite <- app_comm_cons; cbn [split_go].
      destruct (startswith page_sep (c :: P ++ page_sep ++ T)) eqn:E.
      * rewrite last_cons by apply split_go_nonempty.
        apply IH; [simpl; lia|].
        unfold startswith in E.
        destruct (strip_prefix page_sep (c :: P ++ page_sep ++ T)) as [r|] eqn:E1;
          [|discriminate].
        apply strip_prefix_Some in E1.
        change (c :: (P ++ page_sep ++ T) = 112 :: ([97; 103; 101; 95] ++ r)) in E1.
        assert (Hr : P ++ page_sep ++ T = [97; 103; 101; 95] ++ r) by congruence.
        rewrite Hr. reflexivity.
      * apply IH; [lia | reflexivity].
    + rewrite <- app_comm_cons; cbn [split_go]. apply IH; [lia|].
      destruct k as [|[|[|[|k]]]]; simpl in Hf |- *; try lia;
        inversion Hf; reflexivity.
Qed.

Lemma split_last_page P T :
  Forall (fun c => c <> 112) T ->
  last_piece (split (lit "page_") (P ++ lit "page_" ++ T)) = T.
Proof.
  intros HT. unfold last_piece, split. rewrite page_sep_lit.
  apply split_go_last; [exact HT | lia | reflexivity].
Qed.

Lemma split_go_first_dot D R : forall cur,
  Forall (fun c => c <> 46) D ->
  hd [] (split_go [46] 0 cur (D ++ 46 :: R)) = List.rev cur ++ D.
Proof.
  induction D as [|c D IH]; intros cur HD.
  - simpl. now rewrite app_nil_r.
  - inversion HD as [|? ? Hc HD']; subst.
    rewrite <- app_comm_cons; cbn [split_go]. rewrite startswith_head_neq by congruence.
    rewrite IH by assumption. simpl. now rewrite <- app_assoc.
Qed.

Lemma str_of_uint_digits u :
  Forall (fun c => is_ascii_digit c = true) (str_of_uint u).
Proof. induction u; simpl; constructor; auto. Qed.

Lemma digit_facts c :
  is_ascii_digit c = true ->
  c <> 112 /\ c <> 46 /\ is_ascii_space c = false /\ (c <? 128) = true.
Proof.
  unfold is_ascii_digit, is_ascii_space. intros H.
  apply andb_true_iff in H. destruct H as [H1 H2].
  apply N.leb_le in H1. apply N.leb_le in H2.
  repeat split; try lia.
  - apply orb_false_iff. split.
    + apply andb_false_iff. right. apply N.leb_gt. lia.
    + apply N.eqb_neq. lia.
  - apply N.ltb_lt. lia.
Qed.

Lemma uint_of_digits_str u : uint_of_digits (str_of_uint u) true = Some u.
Proof. induction u; simpl; try rewrite IHu; reflexivity. Qed.

Lemma uint_of_digits_str_first u :
  u <> Nil -> uint_of_digits (str_of_uint u) false = Some u.
Proof.
  destruct u; intros H; simpl; try congruence;
    now rewrite uint_of_digits_str.
Qed.

Lemma lstrip_digits s :
  Forall (fun c => is_ascii_digit c = true) s -> lstrip s = s.
Proof.
  destruct 1 as [|c s Hc _]; simpl; [reflexivity|].
  apply digit_facts in Hc. now destruct Hc as (_ & _ & -> & _).
Qed.

Lemma strip_digits s :
  Forall (fun c => is_ascii_digit c = true) s -> strip s = s.
Proof.
  intros H. unfold strip. rewrite (lstrip_digits s H).
  rewrite lstrip_digits by now apply Forall_rev.
  apply rev_involutive.
Qed.

Lemma to_uint_N_nonnil n : N.to_uint n <> Nil.
Proof.
  destruct n; simpl; [discriminate | apply DecimalPos.Unsigned.to_uint_nonnil].
Qed.

Lemma page_segment_filename P n :
  page_segment (P ++ lit "page_" ++ str_of_N n ++ lit ".csv") = str_of_N n.
Proof.
  unfold page_segment. rewrite split_last_page.
  - unfold first_piece, split. change (lit ".") with [46].
    change (lit ".csv") with (46 :: lit "csv").
    rewrite split_go_first_dot; [reflexivity|].
    eapply Forall_impl; [|apply str_of_uint_digits].
    intros c Hc. now apply digit_facts in Hc.
  - apply Forall_app. split.
    + eapply Forall_impl; [|apply str_of_uint_digits].
      intros c Hc. now apply digit_facts in Hc.
    + repeat constructor; discriminate.
Qed.

Lemma py_int_digits u :
  u <> Nil -> py_int (str_of_uint u) = Some (Z.of_N (N.of_uint u)).
Proof.
  intros Hn. unfold py_int.
  assert (Hm : map to_ascii (str_of_uint u) = str_of_uint u).
  { rewrite <- (map_id (str_of_uint u)) at 2.
    apply map_ext_in. intros c Hc.
    pose proof (str_of_uint_digits u) as HD.
    rewrite Forall_forall in HD. specialize (HD c Hc).
    apply digit_facts in HD. unfold to_ascii. now destruct HD as (_ & _ & _ & ->). }
  rewrite Hm, strip_digits by apply str_of_uint_digits.
  destruct u; try congruence; cbn [str_of_uint]; cbv match beta;
    cbn [uint_of_digits]; unfold digit_of; cbn [N.eqb Pos.eqb];
    rewrite uint_of_digits_str; reflexivity.
Qed.

Lemma py_int_str_of_N n : py_int (str_of_N n) = Some (Z.of_N n).
Proof.
  unfold str_of_N. rewrite py_int_digits by apply to_uint_N_nonnil.
  now rewrite DecimalN.Unsigned.of_to.
Qed.

Lemma sort_key_world {K : Type} (before : K -> K -> bool) (key : str -> M K) l w :
  (forall x w0, snd (key x w0) = w0) -> snd (sort_key before key l w) = w.
Proof.
  intros Hw. unfold sort_key, bind. pose proof (mapM_world key l w Hw) as H.
  destruct (mapM key l w) as [[keys|e] w0]; simpl in *; now subst.
Qed.

Lemma combine_inputs_world dd st bt w : snd (combine_inputs dd st bt w) = w.
Proof.
  unfold combine_inputs. destruct (combine_layout dd st bt) as [[d pat] o].
  unfold bind, glob_glob. destruct (truthy bt).
  - apply sort_key_world, page_key_world.
  - apply sort_key_world, getmtime_world.
Qed.

Lemma combine_inputs_none dd st bt w :
  glob (combine_pattern dd st bt) (fs w) = [] ->
  combine_inputs dd st bt w = (Ok [], w).
Proof.
  unfold combine_inputs, combine_pattern.
  destruct (combine_layout dd st bt) as [[d pat] o].
  unfold bind, glob_glob. intros ->. now destruct (truthy bt).
Qed.

Lemma combine_files dd st bt w :
  fs (snd (combine_csv_files dd st bt w)) = fs w \/
  exists df, df_empty df = false /\
    fs (snd (combine_csv_files dd st bt w)) =
    store (combine_output dd st bt) {| mtime := now w; body := Csv df |} (fs w).
Proof.
  rewrite combine_csv_files_body.
  pose proof (combine_inputs_world dd st bt w) as Hw.
  destruct (combine_inputs dd st bt w) as [[files|e] w1]; simpl in Hw; subst w1;
    [|now left].
  cbv zeta. destruct (df_empty (merged (fs w) files empty_frame)) eqn:E; simpl negb;
    cbv iota; [now left|].
  unfold bind.
  destruct (to_csv _ _ _) as [[[]|e] w3] eqn:E1.
  - apply to_csv_ok in E1. subst w3. right. eexists. split; [exact E|]. reflexivity.
  - apply to_csv_raise in E1. subst w3. now left.
Qed.

(** *** State-consolidate *)

Lemma consolidate_state_files_body dd st w :
  consolidate_state_files dd st w =
  match glob (consolidate_pattern dd st) (fs w) with
  | [] => safe_print (NoFolders (format_filename st)) w
  | folders =>
      let df := merged (fs w) (flat_map (folder_files (fs w)) folders) empty_frame in
      let w1 := wrote w (FoundFolders (N.of_nat (List.length folders))
                                      (format_filename st)
                         :: folder_notes (fs w) folders) in
      if negb (df_empty df)
      then (to_csv (consolidate_output dd st) df ;;;
            safe_print (CreatedConsolidated (consolidate_output dd st))) w1
      else safe_print (NoDataToConsolidate (format_filename st)) w1
  end.
Proof.
  unfold consolidate_state_files, consolidate_output, consolidate_pattern.
  unfold bind at 1, glob_glob.
  destruct (glob _ (fs w)) as [|f folders] eqn:E; [reflexivity|].
  unfold bind at 1. rewrite safe_print_wrote.
  unfold bind at 1. rewrite read_folders_spec. cbn [fs wrote].
  rewrite wrote_wrote. cbv zeta.
  destruct (negb (df_empty _)); reflexivity.
Qed.

Lemma consolidate_files dd st w :
  fs (snd (consolidate_state_files dd st w)) = fs w \/
  exists df, df_empty df = false /\
    fs (snd (consolidate_state_files dd st w)) =
    store (consolidate_output dd st) {| mtime := now w; body := Csv df |} (fs w).
Proof.
  rewrite consolidate_state_files_body.
  destruct (glob _ (fs w)) as [|f folders]; [now left|].
  cbv zeta. destruct (df_empty _) eqn:E; simpl negb; cbv iota; [now left|].
  unfold bind.
  destruct (to_csv _ _ _) as [[[]|e] w3] eqn:E1.
  - apply to_csv_ok in E1. subst w3. right. eexists. split; [exact E|]. reflexivity.
  - apply to_csv_raise in E1. subst w3. now left.
Qed.

(** C3: when the concatenated table is empty, neither merge writes a file;
    a file a merge does write holds a table that is not empty. *)
Theorem empty_input_guard dd st bt w :
  (forall files w1 df w2,
     combine_inputs dd st bt w = (Ok files, w1) ->
     read_pages files empty_frame w1 = (Ok df, w2) ->
     df_empty df = true ->
     fs (snd (combine_csv_files dd st bt w)) = fs w) /\
  (glob (combine_pattern dd st bt) (fs w) = [] ->
     fs (snd (combine_csv_files dd st bt w)) = fs w) /\
  (fs (snd (combine_csv_files dd st bt w)) = fs w \/
   exists df, df_empty df = false /\
     fs (snd (combine_csv_files dd st bt w)) =
     store (combine_output dd st bt) {| mtime := now w; body := Csv df |} (fs w)) /\
  (forall w0 df w2,
     fs w0 = fs w ->
     read_folders (glob (consolidate_pattern dd st) (fs w)) empty_frame w0 = (Ok df, w2) ->
     df_empty df = true ->
     fs (snd (consolidate_state_files dd st w)) = fs w) /\
  (glob (consolidate_pattern dd st) (fs w) = [] ->
     fs (snd (consolidate_state_files dd st w)) = fs w) /\
  (fs (snd (consolidate_state_files dd st w)) = fs w \/
   exists df, df_empty df = false /\
     fs (snd (consolidate_state_files dd st w)) =
     store (consolidate_output dd st) {| mtime := now w; body := Csv df |} (fs w)).
Proof.
  assert (Hc : forall files w1 df w2,
     combine_inputs dd st bt w = (Ok files, w1) ->
     read_pages files empty_frame w1 = (Ok df, w2) ->
     df_empty df = true ->
     fs (snd (combine_csv_files dd st bt w)) = fs w).
  { intros files w1 df w2 Hi Hr He.
    pose proof (combine_inputs_world dd st bt w) as Hw. rewrite Hi in Hw.
    simpl in Hw. subst w1.
    rewrite read_pages_spec in Hr. inversion Hr; subst. clear Hr.
    rewrite combine_csv_files_body, Hi. cbv zeta. rewrite He. reflexivity. }
  split; [exact Hc|]. split.
  { intros Hg. apply combine_inputs_none in Hg.
    eapply Hc; [exact Hg | apply read_pages_spec | reflexivity]. }
  split; [apply combine_files|].
  assert (Hs : forall w0 df w2,
     fs w0 = fs w ->
     read_folders (glob (consolidate_pattern dd st) (fs w)) empty_frame w0 = (Ok df, w2) ->
     df_empty df = true ->
     fs (snd (consolidate_state_files dd st w)) = fs w).
  { intros w0 df w2 Hf Hr He.
    rewrite read_folders_spec, Hf in Hr. inversion Hr; subst. clear Hr.
    rewrite consolidate_state_files_body.
    destruct (glob _ (fs w)) as [|f folders]; [reflexivity|].
    cbv zeta. rewrite He. reflexivity. }
  split; [exact Hs|]. split.
  { intros Hg. rewrite consolidate_state_files_body, Hg. reflexivity. }
  apply consolidate_files.
Qed.

(** A folder for which [glob] finds no [*_combined.csv] contributes no
    row: the accumulated table is the one obtained without the folder, and
    is made of the rows of the combined files only. *)
Lemma read_folders_skips_folder l1 folder l2 acc w :
  glob (path_join folder (lit "*_combined.csv")) (fs w) = [] ->
  fst (read_folders (l1 ++ folder :: l2) acc w) =
  fst (read_folders (l1 ++ l2) acc w) /\
  exists df w',
    read_folders (l1 ++ folder :: l2) acc w = (Ok df, w') /\
    fs w' = fs w /\
    rows df =
    rows acc ++
    flat_map (fun f => flat_map (rows_at (fs w))
                         (glob (path_join f (lit "*_combined.csv")) (fs w)))
             (l1 ++ l2).
Proof.
  intros Hg. rewrite !read_folders_spec. cbn [fst].
  assert (E : flat_map (folder_files (fs w)) (l1 ++ folder :: l2) =
              flat_map (folder_files (fs w)) (l1 ++ l2)).
  { rewrite !flat_map_app. cbn [flat_map]. unfold folder_files at 2.
    now rewrite Hg. }
  rewrite E. split; [reflexivity|].
  eexists. eexists. split; [reflexivity|]. split; [reflexivity|].
  rewrite merged_rows. f_equal.
  generalize (l1 ++ l2). intros l. induction l as [|f l IH]; simpl; [reflexivity|].
  rewrite flat_map_app, IH. reflexivity.
Qed.


Lemma mapM_page_key_raise l w x :
  In x l -> py_int (page_segment x) = None ->
  exists e, mapM page_key l w = (Raise e, w) /\ exn_cls e = ValueError.
Proof.
  intros Hin Hx. induction l as [|y l IH]; [contradiction|].
  cbn [mapM]. unfold bind at 1. unfold page_key at 1.
  destruct (py_int (page_segment y)) as [z|] eqn:E.
  - destruct Hin as [->|Hin]; [congruence|].
    destruct (IH Hin) as (e & He & Hc). unfold ret at 1.
    unfold bind. rewrite He. eauto.
  - unfold raise. eexists. split; reflexivity.
Qed.

Lemma path_join_suffix a b : exists P, path_join a b = P ++ b.
Proof.
  unfold path_join. destruct b as [|c b].
  - destruct a; [now exists [] |].
    destruct (ends_with_sep _); eexists; now rewrite app_nil_r.
  - destruct (c =? sep); [now exists [] |].
    destruct a as [|x a]; [now exists [] |].
    destruct (ends_with_sep _).
    + now exists (x :: a).
    + exists ((x :: a) ++ [sep]). now rewrite <- app_assoc.
Qed.

(** C10: the key of line 109 reads the page number back from every name the
    renaming step builds, in whatever directory; when a matched name has no
    integer there, [combine_csv_files] raises [ValueError] before any file is
    read and leaves the world as it was. *)
Theorem page_number_parse :
  (forall dir s b n w,
     page_key (path_join dir (page_filename s b n)) w = (Ok (Z.of_N n), w)) /\
  (forall dd st bt w x,
     truthy bt = true ->
     In x (glob (combine_pattern dd st bt) (fs w)) ->
     py_int (page_segment x) = None ->
     exists e, combine_csv_files dd st bt w = (Raise e, w) /\
               exn_cls e = ValueError).
Proof.
  split.
  - intros dir s b n w. destruct (path_join_suffix dir (page_filename s b n)) as [P ->].
    unfold page_key, page_filename.
    replace (P ++ s ++ lit "_" ++ b ++ lit "_page_" ++ str_of_N n ++ lit ".csv")
      with ((P ++ s ++ lit "_" ++ b ++ lit "_") ++ lit "page_" ++ str_of_N n ++ lit ".csv")
      by (rewrite <- !app_assoc; reflexivity).
    rewrite page_segment_filename, py_int_str_of_N. reflexivity.
  - intros dd st bt w x Ht Hin Hx.
    rewrite combine_csv_files_body.
    unfold combine_inputs. unfold combine_pattern in Hin.
    destruct (combine_layout dd st bt) as [[d pat] o].
    unfold bind at 1, glob_glob. rewrite Ht. unfold sort_key, bind.
    destruct (mapM_page_key_raise _ w x Hin Hx) as (e & -> & Hc). eauto.
Qed.

(** *** Output only grows *)

Section Emits.

Variable St : Type.
Variable log : St -> list (N * line).
Variable P : line -> Prop.

Lemma emits_silent {A : Type} (m : SE St A) :
  (forall s, log (snd (m s)) = log s) -> emits log P m.
Proof.
  intros H s. exists []. rewrite H, app_nil_r. split; [reflexivity | constructor].
Qed.

Lemma emits_ret {A : Type} (a : A) : emits log P (ret a).
Proof. now apply emits_silent. Qed.

Lemma emits_raise {A : Type} (e : exn) : emits log P (@raise St A e).
Proof. now apply emits_silent. Qed.

Lemma emits_bind {A C : Type} (m : SE St A) (k : A -> SE St C) :
  emits log P m -> (forall a, emits log P (k a)) -> emits log P (bind m k).
Proof.
  intros Hm Hk s. unfold bind. destruct (Hm s) as (a1 & E1 & F1).
  destruct (m s) as [[a|e] s1]; simpl in *.
  - destruct (Hk a s1) as (a2 & E2 & F2). exists (a1 ++ a2).
    rewrite E2, E1, app_assoc. split; [reflexivity | now apply Forall_app].
  - now exists a1.
Qed.

Lemma emits_try {A : Type} (m : SE St A) (h : exn -> SE St A) :
  emits log P m -> (forall e, emits log P (h e)) -> emits log P (try_except m h).
Proof.
  intros Hm Hh s. unfold try_except. destruct (Hm s) as (a1 & E1 & F1).
  destruct (m s) as [[a|e] s1]; simpl in *.
  - now exists a1.
  - destruct (Hh e s1) as (a2 & E2 & F2). exists (a1 ++ a2).
    rewrite E2, E1, app_assoc. split; [reflexivity | now apply Forall_app].
Qed.

Lemma emits_mapM {A C : Type} (f : A -> SE St C) l :
  (forall x, emits log P (f x)) -> emits log P (mapM f l).
Proof.
  intros Hf. induction l as [|x l IH]; simpl.
  - apply emits_ret.
  - apply emits_bind; [apply Hf|]. intros y.
    apply emits_bind; [exact IH|]. intros ys. apply emits_ret.
Qed.

End Emits.

Lemma emits_weaken {St A : Type} (log : St -> list (N * line)) (P Q : line -> Prop)
    (m : SE St A) :
  (forall l, P l -> Q l) -> emits log P m -> emits log Q m.
Proof.
  intros HPQ Hm s. destruct (Hm s) as (a & E & F). exists a. split; [exact E|].
  eapply Forall_impl; [|exact F]. intros x. apply HPQ.
Qed.

Lemma emits_print (P : line -> Prop) l : P l -> emits out P (safe_print l).
Proof.
  intros Hl w. exists [(now w, l)]. split; [reflexivity|]. now repeat constructor.
Qed.

Lemma emits_glob P p : emits out P (glob_glob p).
Proof. now apply emits_silent. Qed.

Lemma emits_getmtime P p : emits out P (getmtime p).
Proof. apply emits_silent. intros w. now rewrite getmtime_world. Qed.

Lemma emits_read_csv P p : emits out P (read_csv p).
Proof. apply emits_silent. intros w. now rewrite read_csv_table. Qed.

Lemma emits_to_csv P p df : emits out P (to_csv p df).
Proof.
  apply emits_silent. intros w. unfold to_csv.
  destruct (is_dir p (fs w)); [reflexivity|].
  now destruct (parent_ok p (fs w)).
Qed.

Lemma emits_os_rename P a b : emits out P (os_rename a b).
Proof.
  apply emits_silent. intros w. unfold os_rename.
  destruct (lookup a (fs w)) as [n|]; [|reflexivity].
  destruct (str_eqb a b); [reflexivity|].
  destruct (negb (parent_ok b (fs w))); [reflexivity|].
  destruct (body n) as [|d0|e0]; destruct (lookup b (fs w)) as [[t [|df|e]]|];
    try reflexivity.
  now destruct (has_entries b (fs w)).
Qed.

Lemma emits_os_mkdir P p : emits out P (os_mkdir p).
Proof.
  apply emits_silent. intros w. unfold os_mkdir.
  destruct (exists_path p (fs w)); [reflexivity|].
  now destruct (negb (parent_ok p (fs w))).
Qed.

Lemma emits_makedirs_fuel P fuel : forall p, emits out P (makedirs_fuel fuel p).
Proof.
  induction fuel as [|fuel IH]; intros p; simpl.
  - apply emits_raise.
  - destruct (path_split p) as [h t].
    destruct (match t with [] => path_split h | _ :: _ => (h, t) end) as [h' t'].
    intros w. destruct (_ && _); [|apply emits_os_mkdir].
    assert (T : emits out P (try_except (makedirs_fuel fuel h')
                  (fun e => if exists_path h' (fs w) then ret tt else raise e))).
    { apply emits_try; [apply IH|]. intros e.
      destruct (exists_path h' (fs w)); [apply emits_ret | apply emits_raise]. }
    destruct (T w) as (a1 & E1 & F1).
    destruct (try_except _ _ w) as [[[]|e] w1]; cbn [snd] in E1;
      [|exists a1; now split].
    destruct (str_eqb t' (lit ".")); [exists a1; now split|].
    destruct (emits_os_mkdir P p w1) as (a2 & E2 & F2).
    exists (a1 ++ a2). split.
    + now rewrite E2, E1, app_assoc.
    + apply Forall_app. now split.
Qed.

Lemma emits_create_directory P p : emits out P (create_directory p).
Proof.
  intros w. unfold create_directory. destruct (negb _).
  - apply emits_makedirs_fuel.
  - exists []. simpl. rewrite app_nil_r. split; [reflexivity | constructor].
Qed.

Lemma emits_sort_key {K : Type} P (before : K -> K -> bool) (key : str -> M K) l :
  (forall x, emits out P (key x)) -> emits out P (sort_key before key l).
Proof.
  intros Hk. unfold sort_key. apply emits_bind; [now apply emits_mapM|].
  intros keys. apply emits_ret.
Qed.

Lemma emits_page_key P x : emits out P (page_key x).
Proof. apply emits_silent. intros w. now rewrite page_key_world. Qed.

Lemma emits_read_pages files : forall acc,
  emits out (fun l => printed_by l = in_combine) (read_pages files acc).
Proof.
  induction files as [|p files IH]; intros acc; simpl; [apply emits_ret|].
  apply emits_bind; [|intros df; apply IH].
  apply emits_try.
  - apply emits_bind; [apply emits_read_csv | intros df; apply emits_ret].
  - intros e. apply emits_bind; [now apply emits_print | intros _; apply emits_ret].
Qed.

Lemma emits_combine dd st bt :
  emits out (fun l => printed_by l = in_combine) (combine_csv_files dd st bt).
Proof.
  unfold combine_csv_files, combine_inputs.
  destruct (combine_layout dd st bt) as [[d pat] o].
  apply emits_bind.
  { apply emits_bind; [apply emits_glob|]. intros files.
    destruct (truthy bt); apply emits_sort_key; intros x;
      [apply emits_page_key | apply emits_getmtime]. }
  intros files. apply emits_bind; [apply emits_read_pages|]. intros df.
  destruct (negb (df_empty df)).
  - apply emits_bind; [apply emits_to_csv | intros _; now apply emits_print].
  - now apply emits_print.
Qed.

Lemma emits_read_combined files : forall acc,
  emits out (fun l => printed_by l = in_consolidate \/ printed_by l = in_combine)
        (read_combined files acc).
Proof.
  induction files as [|p files IH]; intros acc; simpl; [apply emits_ret|].
  apply emits_bind; [|intros df; apply IH].
  apply emits_try.
  - apply emits_bind; [apply emits_read_csv|]. intros df.
    apply emits_bind; [apply emits_print; now left | intros _; apply emits_ret].
  - intros e. apply emits_bind; [apply emits_print; now right | intros _; apply emits_ret].
Qed.

Lemma emits_read_folders folders : forall acc,
  emits out (fun l => printed_by l = in_consolidate \/ printed_by l = in_combine)
        (read_folders folders acc).
Proof.
  induction folders as [|f folders IH]; intros acc; simpl; [apply emits_ret|].
  apply emits_bind; [apply emits_print; now left|]. intros _.
  apply emits_bind; [apply emits_glob|]. intros files.
  apply emits_bind; [apply emits_read_combined | intros df; apply IH].
Qed.

Lemma emits_consolidate dd st :
  emits out (fun l => printed_by l = in_consolidate \/ printed_by l = in_combine)
        (consolidate_state_files dd st).
Proof.
  unfold consolidate_state_files.
  apply emits_bind; [apply emits_glob|]. intros [|f folders].
  - apply emits_print; now left.
  - apply emits_bind; [apply emits_print; now left|]. intros _.
    apply emits_bind; [apply emits_read_folders|]. intros df.
    destruct (negb (df_empty df)).
    + apply emits_bind; [apply emits_to_csv | intros _; apply emits_print; now left].
    + apply emits_print; now left.
Qed.

Lemma emits_move_each target files :
  emits out (fun l => printed_by l = in_move) (move_each target files).
Proof.
  induction files as [|p files IH]; simpl; [apply emits_ret|].
  apply emits_bind; [|intros _; exact IH].
  apply emits_try.
  - apply emits_bind; [apply emits_os_rename | intros _; now apply emits_print].
  - intros e. now apply emits_print.
Qed.

Lemma emits_move dd st bt :
  emits out (fun l => printed_by l = in_move) (move_files_to_directory dd st bt).
Proof.
  unfold move_files_to_directory.
  destruct (if truthy bt then _ else _) as [target pat].
  apply emits_bind; [apply emits_create_directory|]. intros _.
  apply emits_bind; [apply emits_glob | intros files; apply emits_move_each].
Qed.

Lemma os_rename_quiet a b w :
  now (snd (os_rename a b w)) = now w /\ out (snd (os_rename a b w)) = out w.
Proof.
  unfold os_rename.
  destruct (lookup a (fs w)) as [n|]; [|now split].
  destruct (str_eqb a b); [now split|].
  destruct (negb (parent_ok b (fs w))); [now split|].
  destruct (body n) as [|d0|e0]; destruct (lookup b (fs w)) as [[t [|df|e]]|];
    try (now split).
  now destruct (has_entries b (fs w)).
Qed.

Lemma rename_outcome dd st bt page w :
  let name := artifact_name st bt page (now w) in
  now (snd (rename_downloaded_file dd st bt page w)) = now w /\
  ((exists e, fst (rename_downloaded_file dd st bt page w) = Raise e) /\
   out (snd (rename_downloaded_file dd st bt page w)) = out w \/
   fst (rename_downloaded_file dd st bt page w) = Ok None /\
   out (snd (rename_downloaded_file dd st bt page w)) = out w ++ [(now w, NoFileToRename)] \/
   fst (rename_downloaded_file dd st bt page w) = Ok (Some (path_join dd name)) /\
   out (snd (rename_downloaded_file dd st bt page w)) = out w ++ [(now w, RenamedTo name)]).
Proof.
  intros name. unfold rename_downloaded_file.
  destruct (exists_path _ (fs w)).
  - change (if truthy bt
            then page_filename (format_filename st) (format_filename (text_of bt)) page
            else stamp_filename (format_filename st) (strftime (now w))) with name.
    unfold bind, ret.
    destruct (os_rename_quiet (path_join dd (lit "data.csv")) (path_join dd name) w)
      as [Hn Ho].
    destruct (os_rename _ _ w) as [[[]|e] w1]; simpl in *.
    + split; [exact Hn|]. right. right. rewrite Ho, Hn. now split.
    + split; [exact Hn|]. left. split; [now exists e | exact Ho].
  - simpl. split; [reflexivity|]. right. left. now split.
Qed.

(** *** The session *)

Section SessionFacts.

Variable B : Type.
Variable drive : action -> B -> filesystem -> N -> result elem * (B * filesystem * N).

Lemma call_out a (st : state B) : out_of (snd (call drive a st)) = out_of st.
Proof.
  unfold call, out_of. destruct (drive a _ _ _) as [r [[b f] t]]. reflexivity.
Qed.

Lemma emits_call P a : emits (@out_of B) P (call drive a).
Proof. apply emits_silent. apply call_out. Qed.

Lemma emits_call_ P a : emits (@out_of B) P (call_ drive a).
Proof.
  unfold call_. apply emits_bind; [apply emits_call | intros _; apply emits_ret].
Qed.

Lemma emits_sleep P n : emits (@out_of B) P (sleep drive n).
Proof. apply emits_silent. intros st. unfold sleep. simpl. apply call_out. Qed.

Lemma emits_until_file P t p : emits (@out_of B) P (until_file drive t p).
Proof.
  apply emits_silent. intros st. unfold until_file.
  destruct (exists_path p (fs (snd st))); [reflexivity|].
  destruct (exists_path _ _); simpl; apply call_out.
Qed.

Lemma emits_lift {A : Type} P (m : M A) :
  emits out P m -> emits (@out_of B) P (lift m).
Proof.
  intros H [b w]. unfold lift, out_of. simpl. destruct (H w) as (a & E & F).
  exists a. destruct (m w) as [r w']. simpl in *. now split.
Qed.

Lemma emits_setup P st bt : emits (@out_of B) P (setup drive st bt).
Proof.
  unfold setup. apply emits_bind.
  { destruct (truthy bt); [|apply emits_ret].
    apply emits_bind; [apply emits_call|]. intros e1.
    apply emits_bind; [apply emits_call_|]. intros _.
    apply emits_bind; [apply emits_sleep|]. intros _.
    apply emits_bind; [apply emits_call|]. intros e2.
    apply emits_bind; [apply emits_call_|]. intros _. apply emits_sleep. }
  intros _.
  apply emits_bind; [apply emits_call|]. intros e1.
  apply emits_bind; [apply emits_call_|]. intros _.
  apply emits_bind; [apply emits_sleep|]. intros _.
  apply emits_bind; [apply emits_call|]. intros e2.
  apply emits_bind; [apply emits_call_|]. intros _.
  apply emits_bind; [apply emits_sleep|]. intros _.
  apply emits_bind; [apply emits_call|]. intros e3. apply emits_call_.
Qed.

Lemma emits_export_page P dd : emits (@out_of B) P (export_page drive dd).
Proof.
  unfold export_page.
  apply emits_bind; [apply emits_sleep|]. intros _.
  apply emits_bind; [apply emits_call|]. intros e1.
  apply emits_bind; [apply emits_call_|]. intros _. apply emits_until_file.
Qed.

Lemma emits_dismiss_overlay P : emits (@out_of B) P (dismiss_overlay drive).
Proof.
  unfold dismiss_overlay. apply emits_try.
  - apply emits_bind; [apply emits_call|]. intros e1.
    apply emits_bind; [apply emits_call_|]. intros _. apply emits_sleep.
  - intros e. destruct (exn_cls e); try apply emits_ret; apply emits_raise.
Qed.

Lemma emits_next_page P : emits (@out_of B) P (next_page drive).
Proof.
  unfold next_page.
  apply emits_bind; [apply emits_call|]. intros e1.
  apply emits_bind; [apply emits_call_|]. intros _.
  apply emits_bind; [apply emits_sleep|]. intros _.
  apply emits_bind; [apply emits_dismiss_overlay|]. intros _.
  apply emits_bind; [apply emits_call_|]. intros _.
  apply emits_bind; [apply emits_sleep|]. intros _. apply emits_call_.
Qed.

Lemma emits_rename dd st bt page :
  emits out (fun l => printed_by l = in_rename) (rename_downloaded_file dd st bt page).
Proof.
  intros w. destruct (rename_outcome dd st bt page w) as [_ [[_ H]|[[_ H]|[_ H]]]].
  - exists []. rewrite H, app_nil_r. split; [reflexivity | constructor].
  - eexists. split; [exact H|]. now repeat constructor.
  - eexists. split; [exact H|]. now repeat constructor.
Qed.

Lemma emits_page_step dd st bt page :
  emits (@out_of B) (fun l => printed_by l = in_rename) (page_step drive dd st bt page).
Proof.
  unfold page_step.
  apply emits_bind; [apply emits_export_page|]. intros _.
  apply emits_bind; [apply emits_lift, emits_rename|]. intros _.
  apply emits_next_page.
Qed.

(** Loops. *)

Lemma emitsL_run {A : Type} (P : line -> Prop) (m : Run B A) :
  emits (@out_of B) P m -> emitsL P (run m).
Proof.
  intros H st r st' E. unfold run in E. inversion E as [E1].
  destruct (H st) as (a & Ea & Fa). rewrite E1 in Ea. now exists a.
Qed.

Lemma emitsL_say (P : line -> Prop) l : P l -> emitsL P (@say B l).
Proof.
  intros Hl. apply emitsL_run, emits_lift. now apply emits_print.
Qed.

Lemma emitsL_bind {A C : Type} (P : line -> Prop) (m : Loop B A) (k : A -> Loop B C) :
  emitsL P m -> (forall a, emitsL P (k a)) -> emitsL P (bindL m k).
Proof.
  intros Hm Hk st r st' E. unfold bindL in E.
  destruct (m st) as [[[a|e] s1]|] eqn:E1; [| |discriminate].
  - destruct (Hm _ _ _ E1) as (a1 & Ea1 & F1).
    destruct (Hk a _ _ _ E) as (a2 & Ea2 & F2).
    exists (a1 ++ a2). rewrite Ea2, Ea1, app_assoc.
    split; [reflexivity | now apply Forall_app].
  - inversion E; subst. eapply Hm; exact E1.
Qed.

Lemma emitsL_try {A : Type} (P : line -> Prop) (m : Loop B A) (h : exn -> Loop B A) :
  emitsL P m -> (forall e, emitsL P (h e)) -> emitsL P (try_exceptL m h).
Proof.
  intros Hm Hh st r st' E. unfold try_exceptL in E.
  destruct (m st) as [[[a|e] s1]|] eqn:E1; [| |discriminate].
  - inversion E; subst. eapply Hm; exact E1.
  - destruct (Hm _ _ _ E1) as (a1 & Ea1 & F1).
    destruct (Hh e _ _ _ E) as (a2 & Ea2 & F2).
    exists (a1 ++ a2). rewrite Ea2, Ea1, app_assoc.
    split; [reflexivity | now apply Forall_app].
Qed.

Lemma emitsL_weaken {A : Type} (P Q : line -> Prop) (m : Loop B A) :
  (forall l, P l -> Q l) -> emitsL P m -> emitsL Q m.
Proof.
  intros HPQ Hm st r st' E. destruct (Hm _ _ _ E) as (a & Ea & F).
  exists a. split; [exact Ea|]. eapply Forall_impl; [|exact F]. intros x. apply HPQ.
Qed.

Lemma emitsL_paginate fuel dd st bt : forall page,
  emitsL session_line (paginate drive fuel dd st bt page).
Proof.
  induction fuel as [|fuel IH]; intros page s r s' E; simpl in E; [discriminate|].
  destruct (emits_page_step dd st bt page s) as (a1 & E1 & F1).
  destruct (page_step drive dd st bt page s) as [[[]|e] s1]; simpl in E1.
  - destruct (IH _ _ _ _ E) as (a2 & E2 & F2). exists (a1 ++ a2).
    rewrite E2. unfold out_of in E1. rewrite E1, app_assoc. split; [reflexivity|].
    apply Forall_app. split; [|exact F2].
    eapply Forall_impl; [|exact F1]. intros x Hx. unfold session_line, by_main.
    now rewrite Hx.
  - destruct (emitsL_say session_line (NavigationEnded e) eq_refl _ _ _ E)
      as (a2 & E2 & F2).
    exists (a1 ++ a2). rewrite E2. unfold out_of in E1. rewrite E1, app_assoc.
    split; [reflexivity|]. apply Forall_app. split; [|exact F2].
    eapply Forall_impl; [|exact F1]. intros x Hx. unfold session_line, by_main.
    now rewrite Hx.
Qed.

Lemma emitsL_session fuel dd st bt :
  emitsL session_line (download_and_process_data drive fuel dd st bt).
Proof.
  unfold download_and_process_data. apply emitsL_try.
  - apply emitsL_bind; [apply emitsL_run, emits_setup|]. intros _.
    apply emitsL_bind; [apply emitsL_paginate|]. intros _.
    apply emitsL_bind.
    + apply emitsL_run, emits_lift.
      eapply emits_weaken; [|apply emits_move]. intros l Hl.
      unfold session_line, by_main. now rewrite Hl.
    + intros _. apply emitsL_run, emits_lift.
      eapply emits_weaken; [|apply emits_combine]. intros l Hl.
      unfold session_line, by_main. now rewrite Hl.
  - intros e. apply emitsL_bind; [now apply emitsL_say|]. intros _.
    apply emitsL_run, emits_raise.
Qed.

(** *** The orchestrator *)

Lemma bindL_assoc {A C D : Type} (m : Loop B A) (k : A -> Loop B C)
    (h : C -> Loop B D) st :
  bindL (bindL m k) h st = bindL m (fun x => bindL (k x) h) st.
Proof.
  unfold bindL. destruct (m st) as [[[a|e] s1]|]; reflexivity.
Qed.

Lemma say_eq l (st : state B) :
  say l st = Some (Ok tt, (fst st, wrote (snd st) [l])).
Proof. destruct st as [b w]. reflexivity. Qed.



(** A guarded attempt: whatever [m] raises is answered by a line, and the
    attempt itself returns. *)
Lemma guarded_attempt (m : Loop B unit) (done : line) (failed : exn -> line) st r st' :
  emitsL session_line m ->
  try_exceptL (bindL m (fun _ => say done)) (fun e => say (failed e)) st = Some (r, st') ->
  r = Ok tt /\
  exists added t v,
    out_of st' = out_of st ++ added ++ [(t, v)] /\
    Forall (fun x => session_line (snd x)) added /\
    (v = done \/ exists e, v = failed e).
Proof.
  intros Hm. unfold try_exceptL, bindL.
  destruct (m st) as [[[[]|e] s1]|] eqn:E1; [| |discriminate].
  - destruct (Hm _ _ _ E1) as (a & Ea & Fa). rewrite say_eq. intros H.
    inversion H; subst. split; [reflexivity|].
    exists a, (now (snd s1)), done. unfold out_of in *. simpl.
    rewrite Ea, app_assoc. now repeat split; [|left].
  - destruct (Hm _ _ _ E1) as (a & Ea & Fa). rewrite say_eq. intros H.
    inversion H; subst. split; [reflexivity|].
    exists a, (now (snd s1)), (failed e). unfold out_of in *. simpl.
    rewrite Ea, app_assoc. repeat split; [exact Fa|]. right. now exists e.
Qed.

Lemma emitsL_query fuel dd state bt :
  emitsL session_line
    (bindL (run (call_ drive (Get portal)))
       (fun _ => bindL (run (sleep drive 2))
          (fun _ => download_and_process_data drive fuel dd state bt))).
Proof.
  apply emitsL_bind; [apply emitsL_run, emits_call_|]. intros _.
  apply emitsL_bind; [apply emitsL_run, emits_sleep|]. intros _.
  apply emitsL_session.
Qed.

Lemma attempt_pair_verdict fuel dd state bt st r st' :
  attempt_pair drive fuel dd state bt st = Some (r, st') ->
  r = Ok tt /\
  exists added t v,
    out_of st' = out_of st ++ added ++ [(t, v)] /\
    Forall (fun x => session_line (snd x)) added /\
    (v = CompletedPair state bt \/ exists e, v = ErrorPair state bt e).
Proof.
  intros H.
  apply (guarded_attempt _ (CompletedPair state bt) (ErrorPair state bt) st r st'
           (emitsL_query fuel dd state (Some bt))).
  rewrite <- H. unfold attempt_pair, try_exceptL.
  rewrite !bindL_assoc. reflexivity.
Qed.

Lemma attempt_state_verdict fuel dd state st r st' :
  attempt_state drive fuel dd state st = Some (r, st') ->
  r = Ok tt /\
  exists added t v,
    out_of st' = out_of st ++ added ++ [(t, v)] /\
    Forall (fun x => session_line (snd x)) added /\
    (v = CompletedState state \/ exists e, v = ErrorState state e).
Proof.
  intros H.
  apply (guarded_attempt _ (CompletedState state) (ErrorState state) st r st'
           (emitsL_query fuel dd state None)).
  rewrite <- H. unfold attempt_state, try_exceptL.
  rewrite !bindL_assoc. reflexivity.
Qed.




(** *** Pagination *)

Lemma silent_of_emits {St A : Type} (log : St -> list (N * line)) (m : SE St A) s :
  emits log (fun _ => False) m -> log (snd (m s)) = log s.
Proof.
  intros H. destruct (H s) as (a & E & F). destruct a as [|x a].
  - now rewrite app_nil_r in E.
  - inversion F. contradiction.
Qed.

Lemma call_fst a (st : state B) :
  fst (call drive a st) = fst (drive a (fst st) (fs (snd st)) (now (snd st))).
Proof. unfold call. now destruct (drive a _ _ _) as [r [[b f] t]]. Qed.

Lemma next_page_raises (st : state B) e :
  fst (call drive (UntilClickable 30 next_control) st) = Raise e ->
  next_page drive st = (Raise e, snd (call drive (UntilClickable 30 next_control) st)).
Proof.
  intros H. unfold next_page, bind.
  destruct (call drive (UntilClickable 30 next_control) st) as [r s1].
  simpl in H. now subst r.
Qed.

Lemma lift_eq {A : Type} (m : M A) (st : state B) :
  lift m st = (fst (m (snd st)), (fst st, snd (m (snd st)))).
Proof. unfold lift. now destruct (m (snd st)). Qed.

Lemma one_turn_without_next fuel dd sn bt :
  (forall b f t, exists e,
     fst (drive (UntilClickable 30 next_control) b f t) = Raise e) ->
  forall page st, exists e s1,
    page_step drive dd sn bt page st = (Raise e, s1) /\
    paginate drive (S fuel) dd sn bt page st =
    Some (Ok tt, (fst s1, wrote (snd s1) [NavigationEnded e])).
Proof.
  intros Hnever page st. cbn [paginate]. unfold page_step, bind.
  destruct (export_page drive dd st) as [[[]|e] s1].
  - destruct (lift (rename_downloaded_file dd sn bt page) s1) as [[o|e] s2].
    + destruct (Hnever (fst s2) (fs (snd s2)) (now (snd s2))) as [e He].
      rewrite <- call_fst in He. rewrite (next_page_raises s2 e He).
      exists e. eexists. split; [reflexivity | apply say_eq].
    + exists e, s2. split; [reflexivity | apply say_eq].
  - exists e, s1. split; [reflexivity | apply say_eq].
Qed.

(** Without a next page no session runs for ever. *)
Lemma session_ends_without_next fuel dd sn bt st :
  (forall b f t, exists e,
     fst (drive (UntilClickable 30 next_control) b f t) = Raise e) ->
  download_and_process_data drive (S fuel) dd sn bt st <> None.
Proof.
  intros Hnever. unfold download_and_process_data, try_exceptL.
  unfold bindL at 1. unfold run at 1.
  destruct (setup drive sn bt st) as [[[]|e] s0]; [|discriminate].
  unfold bindL at 1.
  destruct (one_turn_without_next fuel dd sn bt Hnever 1 s0) as (e & s1 & _ & ->).
  unfold bindL, run.
  destruct (lift (move_files_to_directory dd sn bt) _) as [[[]|e1] s2]; [|discriminate].
  destruct (lift (combine_csv_files dd sn bt) s2) as [[[]|e2] s3]; discriminate.
Qed.


Lemma attempt_state_ends_without_next fuel dd sn st :
  (forall b f t, exists e,
     fst (drive (UntilClickable 30 next_control) b f t) = Raise e) ->
  attempt_state drive (S fuel) dd sn st <> None.
Proof.
  intros Hnever. unfold attempt_state, try_exceptL.
  unfold bindL at 1. unfold run at 1.
  destruct (call_ drive (Get portal) st) as [[[]|e] s0]; [|discriminate].
  unfold bindL at 1. unfold run at 1. unfold sleep at 1.
  unfold bindL at 1.
  pose proof (session_ends_without_next fuel dd sn None
                (snd (call drive (Sleep 2) s0)) Hnever) as Hs.
  destruct (download_and_process_data drive (S fuel) dd sn None _)
    as [[[[]|e] s1]|]; [discriminate | discriminate | contradiction].
Qed.


End SessionFacts.

(** *** Naming *)

Lemma kept_not_space c :
  isalnum c || (c =? 95) = true -> (c =? 32) = false /\ (c =? 38) = false.
Proof.
  unfold isalnum, is_ascii_digit, is_ascii_alpha. intros H.
  split; apply N.eqb_neq; intros ->; vm_compute in H; discriminate.
Qed.

Lemma replace_id old new s :
  Forall (fun c => (c =? old) = false) s -> replace old new s = s.
Proof.
  unfold replace. induction 1 as [|c s Hc _ IH]; simpl; [reflexivity|].
  rewrite Hc. simpl. now rewrite IH.
Qed.

Lemma filter_id {A} (f : A -> bool) l :
  Forall (fun x => f x = true) l -> filter f l = l.
Proof.
  induction 1 as [|x l Hx _ IH]; simpl; [reflexivity|]. now rewrite Hx, IH.
Qed.

Lemma format_filename_kept text :
  Forall (fun c => isalnum c || (c =? 95) = true) (format_filename text).
Proof.
  unfold format_filename. apply Forall_forall. intros c Hc.
  apply filter_In in Hc. tauto.
Qed.

(** C8: sanitisation is idempotent, and "Andaman & Nicobar" becomes
    "Andaman_and_Nicobar". *)
Theorem format_filename_idempotent :
  (forall x, format_filename (format_filename x) = format_filename x) /\
  format_filename (lit "Andaman & Nicobar") = lit "Andaman_and_Nicobar".
Proof.
  split; [|reflexivity].
  intros x. pose proof (format_filename_kept x) as K.
  remember (format_filename x) as r eqn:E. clear E x.
  unfold format_filename.
  rewrite (replace_id 32), (replace_id 38).
  - now apply filter_id.
  - eapply Forall_impl; [|exact K]. intros c Hc. now apply kept_not_space.
  - eapply Forall_impl; [|exact K]. intros c Hc. now apply kept_not_space.
Qed.

(** *** Timestamps *)

Lemma cons_inv {A : Type} (a b : A) l l' : a :: l = b :: l' -> a = b /\ l = l'.
Proof. intros H. now inversion H. Qed.

Lemma pad2_inj a b : a < 100 -> b < 100 -> pad2 a = pad2 b -> a = b.
Proof.
  unfold pad2. intros Ha Hb E.
  apply cons_inv in E. destruct E as [E1 E]. apply cons_inv in E. destruct E as [E2 _].
  div_lia.
Qed.

Lemma pad2_app_inv a b l l' :
  a < 100 -> b < 100 -> pad2 a ++ l = pad2 b ++ l' -> a = b /\ l = l'.
Proof.
  intros Ha Hb E. unfold pad2 in E. cbn [List.app] in E.
  apply cons_inv in E. destruct E as [E1 E]. apply cons_inv in E. destruct E as [E2 E].
  split; [|exact E]. apply pad2_inj; [assumption | assumption |].
  unfold pad2. now rewrite E1, E2.
Qed.

Lemma time_text_inj s1 s2 :
  s1 < 86400 -> s2 < 86400 -> time_text s1 = time_text s2 -> s1 = s2.
Proof.
  unfold time_text. intros H1 H2 E.
  apply pad2_app_inv in E; [|div_lia ..].
  destruct E as [Eh E].
  apply pad2_app_inv in E; [|div_lia ..].
  destruct E as [Em E].
  apply pad2_inj in E; [|div_lia ..].
  clear - Eh Em E H1 H2. div_lia.
Qed.

Lemma strftime_distinct t1 t2 :
  same_day t1 t2 -> t1 + second <= t2 -> strftime t1 <> strftime t2.
Proof.
  unfold same_day, strftime. intros Hd Hl E. cbv zeta in E.
  rewrite Hd in E. apply app_inv_head in E.
  apply time_text_inj in E; try (apply N.mod_lt; discriminate).
  unfold second in *. clear - Hd Hl E. div_lia.
Qed.

Lemma stamp_filename_inj sf a b : stamp_filename sf a = stamp_filename sf b -> a = b.
Proof.
  unfold stamp_filename. intros E. apply app_inv_head in E. apply app_inv_head in E.
  now apply app_inv_tail in E.
Qed.

Lemma spaced_weaken name l : forall lo lo',
  lo' <= lo -> spaced name lo l -> spaced name lo' l.
Proof.
  induction l as [|[t x] l IH]; intros lo lo' Hl H; [exact I|].
  destruct x; simpl in *; try (eapply IH; eassumption).
  destruct H as (H1 & H2 & H3). repeat split; [lia | assumption | assumption].
Qed.

Lemma spaced_quiet name lo l :
  Forall (fun x => not_renamed (snd x)) l -> spaced name lo l.
Proof.
  induction 1 as [|[t x] l Hx _ IH]; [exact I|].
  destruct x; simpl in *; try exact IH. exfalso. now apply (Hx new_filename).
Qed.

Lemma spaced_app_quiet name a1 a2 : forall lo,
  spaced name lo a1 -> Forall (fun x => not_renamed (snd x)) a2 ->
  spaced name lo (a1 ++ a2).
Proof.
  induction a1 as [|[t x] a1 IH]; intros lo H1 H2.
  - now apply spaced_quiet.
  - destruct x; simpl in *; try (now apply IH).
    destruct H1 as (Ha & Hb & Hc). repeat split; [assumption | assumption | now apply IH].
Qed.

Lemma spaced_in name l t n l' : forall lo,
  spaced name lo (l ++ (t, RenamedTo n) :: l') ->
  lo <= t /\ n = name t /\ spaced name (t + 11 * second) l'.
Proof.
  induction l as [|[t0 x] l IH]; intros lo H.
  - exact H.
  - destruct x; simpl in H; try (now apply IH).
    destruct H as (Ha & Hb & Hc). apply IH in Hc. destruct Hc as (Hd & He & Hf).
    repeat split; [lia | assumption | assumption].
Qed.

Lemma spaced_split name lo l1 t1 n1 l2 t2 n2 l3 :
  spaced name lo (l1 ++ (t1, RenamedTo n1) :: l2 ++ (t2, RenamedTo n2) :: l3) ->
  n1 = name t1 /\ n2 = name t2 /\ t1 + 11 * second <= t2.
Proof.
  intros H. apply spaced_in in H. destruct H as (_ & H1 & H).
  apply spaced_in in H. destruct H as (H2 & H3 & _). now repeat split.
Qed.

Lemma format_filename_no_sep text : Forall (fun c => c <> sep) (format_filename text).
Proof.
  eapply Forall_impl; [|apply format_filename_kept]. intros c Hc ->.
  vm_compute in Hc. discriminate.
Qed.

Lemma path_join_inj dd a b x y :
  x <> sep -> y <> sep -> path_join dd (x :: a) = path_join dd (y :: b) ->
  x :: a = y :: b.
Proof.
  intros Hx Hy. unfold path_join.
  apply N.eqb_neq in Hx. apply N.eqb_neq in Hy. rewrite Hx, Hy.
  destruct dd as [|c dd]; [trivial|].
  destruct (ends_with_sep (c :: dd)); intros E.
  - now apply app_inv_head in E.
  - apply app_inv_head in E. now inversion E.
Qed.

Lemma stamp_path_inj dd sf a b :
  Forall (fun c => c <> sep) sf ->
  path_join dd (stamp_filename sf a) = path_join dd (stamp_filename sf b) -> a = b.
Proof.
  intros Hsf E. apply (stamp_filename_inj sf).
  unfold stamp_filename in *. destruct sf as [|c sf].
  - change ([] ++ lit "_" ++ a ++ lit ".csv") with (95 :: a ++ lit ".csv") in *.
    change ([] ++ lit "_" ++ b ++ lit ".csv") with (95 :: b ++ lit ".csv") in *.
    apply path_join_inj in E; [exact E | discriminate | discriminate].
  - inversion Hsf; subst. rewrite <- !app_comm_cons in *.
    apply path_join_inj in E; assumption.
Qed.

(** *** The clock during a session *)

Section ClockFacts.

Variable B : Type.
Variable drive : action -> B -> filesystem -> N -> result elem * (B * filesystem * N).

Hypothesis clock_mono : forall a b f t, t <= snd (snd (drive a b f t)).
Hypothesis sleep_takes :
  forall n b f t, t + n * second <= snd (snd (drive (Sleep n) b f t)).

Lemma call_clock a (st : state B) :
  clock (snd (call drive a st)) =
  snd (snd (drive a (fst st) (fs (snd st)) (now (snd st)))).
Proof. unfold call, clock. now destruct (drive a _ _ _) as [r [[b f] t]]. Qed.

Lemma advances_call a : advances 0 (call drive a).
Proof.
  intros st. rewrite call_clock. rewrite N.add_0_r.
  split; [apply clock_mono | intros _ _; apply clock_mono].
Qed.

Lemma advances_ret {A : Type} (a : A) : advances 0 (@ret (state B) A a).
Proof. intros st. simpl. split; [lia | intros; lia]. Qed.

Lemma advances_raise {A : Type} e : advances 0 (@raise (state B) A e).
Proof. intros st. simpl. split; [lia | intros; lia]. Qed.

Lemma advances_bind {A C : Type} d1 d2 (m : Run B A) (k : A -> Run B C) :
  advances d1 m -> (forall a, advances d2 (k a)) -> advances (d1 + d2) (bind m k).
Proof.
  intros Hm Hk st. unfold bind. destruct (Hm st) as [M1 M2].
  destruct (m st) as [[a|e] s1]; simpl in *.
  - destruct (Hk a s1) as [K1 K2]. specialize (M2 a eq_refl).
    split; [lia|]. intros c Hc. specialize (K2 c Hc). lia.
  - split; [exact M1 | discriminate].
Qed.

Lemma advances_weaken {A : Type} d d' (m : Run B A) :
  d' <= d -> advances d m -> advances d' m.
Proof.
  intros Hd Hm st. destruct (Hm st) as [M1 M2]. split; [exact M1|].
  intros a Ha. specialize (M2 a Ha). lia.
Qed.

Lemma advances_call_ a : advances 0 (call_ drive a).
Proof.
  unfold call_. apply (advances_bind 0 0); [apply advances_call|].
  intros _. apply advances_ret.
Qed.

Lemma advances_sleep n : advances (n * second) (sleep drive n).
Proof.
  intros st. unfold sleep. simpl. rewrite call_clock.
  split; [apply clock_mono | intros _ _; apply sleep_takes].
Qed.

Lemma advances_until_file t p : advances 0 (until_file drive t p).
Proof.
  intros st. unfold until_file. rewrite N.add_0_r.
  destruct (exists_path p (fs (snd st))); [simpl; split; [lia | intros; lia]|].
  destruct (exists_path _ _); simpl; rewrite call_clock;
    (split; [apply clock_mono | intros _ _; apply clock_mono]).
Qed.

Lemma advances_try {A : Type} (m : Run B A) (h : exn -> Run B A) :
  advances 0 m -> (forall e, advances 0 (h e)) -> advances 0 (try_except m h).
Proof.
  intros Hm Hh st. unfold try_except. destruct (Hm st) as [M1 _].
  destruct (m st) as [[a|e] s1]; simpl in *.
  - split; [exact M1 | intros; lia].
  - destruct (Hh e s1) as [H1 _]. split; [lia | intros; lia].
Qed.

Lemma advances_dismiss_overlay : advances 0 (dismiss_overlay drive).
Proof.
  unfold dismiss_overlay. apply advances_try.
  - apply (advances_weaken (0 + (0 + 1 * second))); [lia|].
    apply advances_bind; [apply advances_call|]. intros e1.
    apply advances_bind; [apply advances_call_|]. intros _. apply advances_sleep.
  - intros e. destruct (exn_cls e); try apply advances_ret; apply advances_raise.
Qed.

Lemma advances_export_page dd : advances (5 * second) (export_page drive dd).
Proof.
  unfold export_page. apply (advances_weaken (5 * second + (0 + (0 + 0)))); [lia|].
  apply advances_bind; [apply advances_sleep|]. intros _.
  apply advances_bind; [apply advances_call|]. intros e1.
  apply advances_bind; [apply advances_call_|]. intros _. apply advances_until_file.
Qed.

Lemma advances_next_page : advances (6 * second) (next_page drive).
Proof.
  unfold next_page.
  apply (advances_weaken (0 + (0 + (1 * second + (0 + (0 + (5 * second + 0)))))));
    [lia|].
  apply advances_bind; [apply advances_call|]. intros e1.
  apply advances_bind; [apply advances_call_|]. intros _.
  apply advances_bind; [apply advances_sleep|]. intros _.
  apply advances_bind; [apply advances_dismiss_overlay|]. intros _.
  apply advances_bind; [apply advances_call_|]. intros _.
  apply advances_bind; [apply advances_sleep|]. intros _. apply advances_call_.
Qed.

Lemma export_page_out dd (st : state B) :
  out_of (snd (export_page drive dd st)) = out_of st.
Proof.
  apply (silent_of_emits (@out_of B)). apply emits_export_page.
Qed.

Lemma next_page_out (st : state B) :
  out_of (snd (next_page drive st)) = out_of st.
Proof.
  apply (silent_of_emits (@out_of B)). apply emits_next_page.
Qed.

(** One turn of the loop writes at most one line of the renaming step, five
    seconds or more after the turn began and, when the turn goes through,
    six seconds or more before it ends. *)
Lemma page_step_log dd sn bt page (st : state B) :
  clock st <= clock (snd (page_step drive dd sn bt page st)) /\
  exists d,
    out_of (snd (page_step drive dd sn bt page st)) = out_of st ++ d /\
    (d = [] \/
     exists t l,
       d = [(t, l)] /\ clock st + 5 * second <= t /\
       (l = NoFileToRename \/ l = RenamedTo (artifact_name sn bt page t)) /\
       (forall u, fst (page_step drive dd sn bt page st) = Ok u ->
                  t + 6 * second <= clock (snd (page_step drive dd sn bt page st)))).
Proof.
  unfold page_step, bind.
  pose proof (advances_export_page dd st) as [X1 X2].
  pose proof (export_page_out dd st) as Xo.
  destruct (export_page drive dd st) as [[[]|e] s0]; simpl in X1, X2, Xo.
  2:{ simpl. split; [exact X1|]. exists []. rewrite app_nil_r. split; [exact Xo | now left]. }
  specialize (X2 tt eq_refl).
  rewrite lift_eq.
  destruct (rename_outcome dd sn bt page (snd s0)) as [Rn Rc].
  set (rr := rename_downloaded_file dd sn bt page (snd s0)) in *.
  set (s2 := (fst s0, snd rr)).
  assert (C2 : clock s2 = clock s0) by exact Rn.
  pose proof (advances_next_page s2) as [Y1 Y2].
  pose proof (next_page_out s2) as Yo.
  destruct (fst rr) as [o|e] eqn:Er.
  - destruct (next_page drive s2) as [r3 s3]; simpl in Y1, Y2, Yo |- *.
    split; [lia|].
    destruct Rc as [[[e1 H1] _]|[[_ H2]|[_ H2]]]; [discriminate| |].
    + exists [(now (snd s0), NoFileToRename)].
      split; [rewrite Yo; unfold s2, out_of in *; simpl; now rewrite H2, Xo|].
      right. exists (now (snd s0)), NoFileToRename. split; [reflexivity|].
      split; [unfold clock in *; simpl in *; lia|]. split; [now left|].
      intros u Hu. specialize (Y2 u Hu). unfold clock in *. simpl in *. lia.
    + exists [(now (snd s0), RenamedTo (artifact_name sn bt page (now (snd s0))))].
      split; [rewrite Yo; unfold s2, out_of in *; simpl; now rewrite H2, Xo|].
      right. exists (now (snd s0)), (RenamedTo (artifact_name sn bt page (now (snd s0)))).
      split; [reflexivity|]. split; [unfold clock in *; simpl in *; lia|].
      split; [now right|].
      intros u Hu. specialize (Y2 u Hu). unfold clock in *. simpl in *. lia.
  - simpl. split; [unfold clock in *; simpl in *; lia|].
    destruct Rc as [[_ H2]|[[H1 _]|[H1 _]]]; try discriminate.
    exists []. rewrite app_nil_r.
    split; [unfold s2, out_of in *; simpl; now rewrite H2 | now left].
Qed.

Lemma paginate_spaced dd sn bt fuel : forall page (st : state B) r st',
  truthy bt = false ->
  paginate drive fuel dd sn bt page st = Some (r, st') ->
  exists added,
    out_of st' = out_of st ++ added /\
    spaced (fun t => stamp_filename (format_filename sn) (strftime t))
           (clock st + 5 * second) added.
Proof.
  induction fuel as [|fuel IH]; intros page st r st' Hbt H; simpl in H; [discriminate|].
  destruct (page_step_log dd sn bt page st) as (Hc & d & Eo & Hd).
  assert (Hname : forall t, artifact_name sn bt page t =
                            stamp_filename (format_filename sn) (strftime t)).
  { intros t. unfold artifact_name. now rewrite Hbt. }
  destruct (page_step drive dd sn bt page st) as [[[]|e] s1] eqn:Es; simpl in *.
  - destruct (IH _ _ _ _ Hbt H) as (a2 & E2 & S2).
    exists (d ++ a2). split; [rewrite E2, Eo; now rewrite <- ?app_assoc|].
    destruct Hd as [->|(t & l & -> & Ht & Hl & Hu)].
    + simpl. eapply spaced_weaken; [|exact S2]. unfold second in *; lia.
    + specialize (Hu tt eq_refl). destruct Hl as [->| ->]; simpl.
      * eapply spaced_weaken; [|exact S2]. unfold second in *; lia.
      * split; [exact Ht|]. split; [apply Hname|].
        eapply spaced_weaken; [|exact S2]. unfold second in *; lia.
  - rewrite say_eq in H. inversion H; subst. clear H.
    exists (d ++ [(now (snd s1), NavigationEnded e)]).
    split; [unfold out_of in *; simpl; rewrite Eo; now rewrite <- ?app_assoc|].
    apply spaced_app_quiet; [|repeat constructor; intros n; discriminate].
    destruct Hd as [->|(t & l & -> & Ht & Hl & _)]; [exact I|].
    destruct Hl as [->| ->]; simpl; [exact I|].
    split; [exact Ht|]. split; [apply Hname | exact I].
Qed.

Lemma session_rest_quiet dd sn bt :
  emitsL not_renamed
    (bindL (run (lift (move_files_to_directory dd sn bt)))
       (fun _ : unit => @run B unit (lift (combine_csv_files dd sn bt)))).
Proof.
  apply emitsL_bind.
  - apply emitsL_run, emits_lift.
    eapply emits_weaken; [|apply emits_move]. intros l Hl n ->. discriminate.
  - intros _. apply emitsL_run, emits_lift.
    eapply emits_weaken; [|apply emits_combine]. intros l Hl n ->. discriminate.
Qed.

Lemma session_handler_quiet e :
  emitsL not_renamed
    (bindL (@say B (ErrorInDownload e)) (fun _ : unit => @run B unit (raise e))).
Proof.
  apply emitsL_bind.
  - apply emitsL_say. intros n. discriminate.
  - intros _. apply emitsL_run, emits_raise.
Qed.

Lemma session_spaced fuel dd sn bt (st : state B) r st' :
  truthy bt = false ->
  download_and_process_data drive fuel dd sn bt st = Some (r, st') ->
  exists added,
    out_of st' = out_of st ++ added /\
    spaced (fun t => stamp_filename (format_filename sn) (strftime t)) 0 added.
Proof.
  intros Hbt H. unfold download_and_process_data, try_exceptL in H.
  unfold bindL at 1 in H. unfold run at 1 in H.
  pose proof (silent_of_emits (@out_of B) (setup drive sn bt) st
                (emits_setup _ _ (fun _ => False) sn bt)) as So.
  destruct (setup drive sn bt st) as [[[]|e] s0]; simpl in So.
  - unfold bindL at 1 in H.
    destruct (paginate drive fuel dd sn bt 1 s0) as [[[[]|e1] s1]|] eqn:Ep;
      [| |discriminate].
    + destruct (paginate_spaced _ _ _ _ _ _ _ _ Hbt Ep) as (a1 & E1 & S1).
      destruct (bindL (run (lift (move_files_to_directory dd sn bt)))
                  (fun _ : unit => run (lift (combine_csv_files dd sn bt))) s1)
        as [[[[]|e2] s2]|] eqn:Er; [| |discriminate].
      * inversion H; subst. clear H.
        destruct (session_rest_quiet dd sn bt _ _ _ Er) as (a2 & E2 & F2).
        unfold out_of in *. exists (a1 ++ a2). split; [rewrite E2, E1, So; now rewrite <- ?app_assoc|].
        apply spaced_app_quiet; [|exact F2].
        eapply spaced_weaken; [|exact S1]. unfold second in *; lia.
      * destruct (session_rest_quiet dd sn bt _ _ _ Er) as (a2 & E2 & F2).
        destruct (session_handler_quiet e2 _ _ _ H) as (a3 & E3 & F3).
        unfold out_of in *. exists (a1 ++ a2 ++ a3).
        split; [rewrite E3, E2, E1, So; now rewrite <- !app_assoc|].
        apply spaced_app_quiet; [|now apply Forall_app].
        eapply spaced_weaken; [|exact S1]. unfold second in *; lia.
    + destruct (paginate_spaced _ _ _ _ _ _ _ _ Hbt Ep) as (a1 & E1 & S1).
      destruct (session_handler_quiet e1 _ _ _ H) as (a3 & E3 & F3).
      unfold out_of in *. exists (a1 ++ a3). split; [rewrite E3, E1, So; now rewrite <- ?app_assoc|].
      apply spaced_app_quiet; [|exact F3].
      eapply spaced_weaken; [|exact S1]. unfold second in *; lia.
  - destruct (session_handler_quiet e _ _ _ H) as (a3 & E3 & F3).
    unfold out_of in *. exists a3. split; [now rewrite E3, So|]. now apply spaced_quiet.
Qed.


End ClockFacts.

(* ================================================================== *)
(** ** Further properties *)

(** *** Paths, names and directory listings *)

Lemma str_eqb_eq a b : str_eqb a b = true <-> a = b.
Proof. unfold str_eqb. destruct (list_eq_dec N.eq_dec a b); split; congruence. Qed.

Lemma str_eqb_refl a : str_eqb a a = true.
Proof. now apply str_eqb_eq. Qed.

Lemma str_eqb_neq a b : a <> b -> str_eqb a b = false.
Proof. unfold str_eqb. now destruct (list_eq_dec N.eq_dec a b). Qed.

Lemma lookup_store_other p q n fs0 : p <> q -> lookup p (store q n fs0) = lookup p fs0.
Proof.
  intros H. induction fs0 as [|[r m] fs0 IH]; simpl.
  - now rewrite str_eqb_neq.
  - destruct (str_eqb q r) eqn:E; simpl.
    + apply str_eqb_eq in E. subst r. now rewrite !str_eqb_neq.
    + destruct (str_eqb p r); [reflexivity | exact IH].
Qed.

Lemma lookup_unlink_same p fs0 : lookup p (unlink p fs0) = None.
Proof.
  induction fs0 as [|[r m] fs0 IH]; simpl; [reflexivity|].
  destruct (str_eqb p r) eqn:E; simpl; [exact IH | now rewrite E].
Qed.

Lemma lookup_unlink_other p q fs0 : p <> q -> lookup p (unlink q fs0) = lookup p fs0.
Proof.
  intros H. induction fs0 as [|[r m] fs0 IH]; simpl; [reflexivity|].
  destruct (str_eqb q r) eqn:E; simpl.
  - apply str_eqb_eq in E. subst r. now rewrite str_eqb_neq.
  - destruct (str_eqb p r); [reflexivity | exact IH].
Qed.

Lemma store_store p n fs0 : store p n (store p n fs0) = store p n fs0.
Proof.
  induction fs0 as [|[r m] fs0 IH]; simpl.
  - now rewrite str_eqb_refl.
  - destruct (str_eqb p r) eqn:E; simpl; rewrite E; [reflexivity | now rewrite IH].
Qed.

(** The paths of a file system after a write. *)
Lemma store_paths p n fs0 :
  map fst (store p n fs0) =
  if exists_path p fs0 then map fst fs0 else map fst fs0 ++ [p].
Proof.
  unfold exists_path. induction fs0 as [|[r m] fs0 IH]; simpl; [reflexivity|].
  destruct (str_eqb p r) eqn:E; simpl; [reflexivity|].
  rewrite IH. now destruct (lookup p fs0).
Qed.

Lemma rsplit_sep_free b : sep_free b -> rsplit_sep b = None.
Proof.
  induction 1 as [|c b Hc _ IH]; simpl; [reflexivity|].
  rewrite IH. apply N.eqb_neq in Hc. now rewrite Hc.
Qed.

Lemma rsplit_sep_app x b :
  sep_free b -> rsplit_sep (x ++ sep :: b) = Some (x ++ [sep], b).
Proof.
  intros Hb. induction x as [|c x IH]; simpl.
  - now rewrite (rsplit_sep_free b Hb).
  - now rewrite IH.
Qed.

Lemma ends_with_sep_last d :
  d <> [] -> ends_with_sep d = false ->
  exists c r, List.rev d = c :: r /\ (c =? sep) = false.
Proof.
  unfold ends_with_sep. intros Hd H. destruct (List.rev d) as [|c r] eqn:E.
  - apply (f_equal (@List.rev N)) in E. rewrite rev_involutive in E. now subst.
  - now exists c, r.
Qed.

Lemma path_split_plain d b :
  d <> [] -> ends_with_sep d = false -> sep_free b ->
  path_split (d ++ sep :: b) = (d, b).
Proof.
  intros Hd He Hb. unfold path_split. rewrite rsplit_sep_app by assumption.
  rewrite rev_app_distr. change (List.rev [sep]) with [sep].
  cbn [List.app lstrip_sep]. rewrite N.eqb_refl.
  destruct (ends_with_sep_last d Hd He) as (c & r & E & Hc).
  rewrite E. cbn [lstrip_sep]. rewrite Hc. rewrite <- E. now rewrite rev_involutive.
Qed.

Lemma path_join_plain d c b :
  d <> [] -> ends_with_sep d = false -> c <> sep ->
  path_join d (c :: b) = d ++ sep :: c :: b.
Proof.
  intros Hd He Hc. unfold path_join. apply N.eqb_neq in Hc. rewrite Hc, He.
  destruct d; [congruence | reflexivity].
Qed.

(** Whatever the directory, the last component of a joined path is the name
    joined to it. *)
Lemma basename_join d c b :
  sep_free (c :: b) -> basename (path_join d (c :: b)) = c :: b.
Proof.
  intros Hb. unfold basename, path_join.
  assert (Hc : (c =? sep) = false) by (inversion Hb; now apply N.eqb_neq).
  rewrite Hc.
  assert (Hfree : path_split (c :: b) = ([], c :: b)).
  { unfold path_split. now rewrite (rsplit_sep_free _ Hb). }
  destruct d as [|x d]; [now rewrite Hfree|].
  destruct (ends_with_sep (x :: d)) eqn:E.
  - unfold ends_with_sep in E.
    destruct (List.rev (x :: d)) as [|y r] eqn:Er; [discriminate|].
    apply N.eqb_eq in E. subst y.
    assert (Hx : x :: d = List.rev r ++ [sep]).
    { rewrite <- (rev_involutive (x :: d)), Er. reflexivity. }
    rewrite Hx, <- app_assoc. cbn [List.app].
    unfold path_split. rewrite rsplit_sep_app by assumption.
    now destruct (lstrip_sep _).
  - unfold path_split. rewrite rsplit_sep_app by assumption.
    now destruct (lstrip_sep _).
Qed.

Lemma child_name_names d q name :
  child_name d q = Some name -> exists c r, name = c :: r /\ sep_free (c :: r).
Proof.
  unfold child_name. destruct (strip_prefix _ q) as [[|c r]|]; try discriminate.
  destruct (existsb (N.eqb sep) (c :: r)) eqn:E; [discriminate|].
  intros H. inversion H; subst. exists c, r. split; [reflexivity|].
  apply Forall_forall. intros y Hy ->.
  assert (existsb (N.eqb sep) (c :: r) = true); [|congruence].
  apply existsb_exists. exists sep. split; [exact Hy | apply N.eqb_refl].
Qed.

Lemma child_name_plain d c r :
  d <> [] -> ends_with_sep d = false -> sep_free (c :: r) ->
  child_name d (d ++ sep :: c :: r) = Some (c :: r).
Proof.
  intros Hd He Hf. unfold child_name. rewrite He.
  destruct d as [|x d]; [congruence|].
  assert (Hs : forall p t, strip_prefix p (p ++ t) = Some t).
  { induction p as [|a p IH]; intros t; simpl; [reflexivity|].
    now rewrite N.eqb_refl, IH. }
  replace ((x :: d) ++ sep :: c :: r) with (((x :: d) ++ [sep]) ++ c :: r)
    by (now rewrite <- app_assoc).
  rewrite Hs.
  destruct (existsb (N.eqb sep) (c :: r)) eqn:E; [|reflexivity].
  apply existsb_exists in E. destruct E as (y & Hy & E).
  apply N.eqb_eq in E. subst y. unfold sep_free in Hf.
  rewrite Forall_forall in Hf. now specialize (Hf sep Hy).
Qed.

Lemma child_name_path d q name :
  d <> [] -> ends_with_sep d = false ->
  child_name d q = Some name -> q = d ++ sep :: name.
Proof.
  intros Hd He. unfold child_name. rewrite He.
  destruct d as [|x d]; [congruence|].
  destruct (strip_prefix _ q) as [[|c r]|] eqn:E; try discriminate.
  destruct (existsb _ _); [discriminate|]. intros H. inversion H; subst.
  apply strip_prefix_Some in E. now rewrite <- app_assoc in E.
Qed.

Lemma listdir_names_in d fs0 :
  listdir d fs0 = if is_dir d fs0 then names_in d (map fst fs0) else [].
Proof.
  unfold listdir, names_in. destruct (is_dir d fs0); [|reflexivity].
  induction fs0 as [|e fs0 IH]; simpl; [reflexivity | now rewrite IH].
Qed.

Lemma listdir_name d fs0 name :
  In name (listdir d fs0) -> exists c r, name = c :: r /\ sep_free (c :: r).
Proof.
  unfold listdir. destruct (is_dir d fs0); [|contradiction].
  intros H. apply in_flat_map in H. destruct H as (e & _ & H).
  destruct (child_name d (fst e)) as [n|] eqn:E; [|contradiction].
  destruct H as [->|[]]. eapply child_name_names; exact E.
Qed.

Lemma is_dir_store_other d q n fs0 : d <> q -> is_dir d (store q n fs0) = is_dir d fs0.
Proof. intros H. unfold is_dir. now rewrite lookup_store_other. Qed.

Lemma has_magic_app a b : has_magic (a ++ b) = has_magic a || has_magic b.
Proof. unfold has_magic. apply existsb_app. Qed.

(** [glob] on a pattern in a plain directory: the matching names of the
    directory, in listing order. *)
Lemma glob_plain d pat fs0 :
  plain_dir d -> has_magic pat = true -> sep_free pat ->
  glob (d ++ sep :: pat) fs0 =
  map (fun name => d ++ sep :: name) (filter (glob_match pat) (listdir d fs0)).
Proof.
  intros (Hd & He & Hm) Hp Hf. unfold glob. cbn [glob_fuel].
  assert (Hmp : has_magic (d ++ sep :: pat) = true).
  { rewrite has_magic_app. change (sep :: pat) with ([sep] ++ pat).
    rewrite has_magic_app, Hp. now rewrite !orb_true_r. }
  rewrite Hmp. cbn [negb]. rewrite path_split_plain by assumption.
  rewrite Hp, Hm, andb_false_r. cbn [flat_map]. rewrite app_nil_r.
  unfold glob1. fold (glob_match pat).
  apply map_ext_in. intros name Hn. apply filter_In in Hn. destruct Hn as [Hn _].
  apply listdir_name in Hn. destruct Hn as (c & r & -> & Hcr).
  apply path_join_plain; try assumption. now inversion Hcr.
Qed.

(** *** Wildcard patterns of the program *)

Lemma tame_app a b : tame a -> tame b -> tame (a ++ b).
Proof. unfold tame. intros. now apply Forall_app. Qed.

Lemma tame_sep_free s : tame s -> sep_free s.
Proof. unfold tame, sep_free. apply Forall_impl. now intros c [H _]. Qed.

Lemma is_magic_false c : is_magic c = false -> c <> 42 /\ c <> 63 /\ c <> 91.
Proof.
  unfold is_magic. intros H. apply orb_false_iff in H. destruct H as [H H3].
  apply orb_false_iff in H. destruct H as [H1 H2].
  apply N.eqb_neq in H1. apply N.eqb_neq in H2. apply N.eqb_neq in H3. tauto.
Qed.

Lemma tame_literal s : tame s -> literal s.
Proof.
  unfold tame, literal. apply Forall_impl. intros c [_ H].
  apply is_magic_false in H. tauto.
Qed.

Lemma tame_no_magic s : tame s -> has_magic s = false.
Proof.
  unfold tame, has_magic. induction 1 as [|c s [_ H] _ IH]; simpl; [reflexivity|].
  now rewrite H, IH.
Qed.

Lemma kept_tame c :
  isalnum c || (c =? 95) = true -> c <> sep /\ is_magic c = false /\ c <> 46.
Proof.
  intros H. assert (K : forall k, isalnum k || (k =? 95) = false -> c <> k).
  { intros k Hk ->. congruence. }
  assert (H42 := K 42 eq_refl). assert (H63 := K 63 eq_refl).
  assert (H91 := K 91 eq_refl). assert (H46 := K 46 eq_refl).
  assert (H47 := K 47 eq_refl).
  repeat split; try assumption. unfold is_magic.
  apply N.eqb_neq in H42. apply N.eqb_neq in H63. apply N.eqb_neq in H91.
  now rewrite H42, H63, H91.
Qed.

Lemma format_filename_tame text : tame (format_filename text).
Proof.
  generalize (format_filename_kept text). unfold tame. apply Forall_impl.
  intros c H. apply kept_tame in H. tauto.
Qed.

Lemma digits_tame s : Forall (fun c => is_ascii_digit c = true) s -> tame s.
Proof.
  unfold tame. apply Forall_impl. intros c H. unfold is_ascii_digit in H.
  apply andb_true_iff in H. destruct H as [H1 H2].
  apply N.leb_le in H1. apply N.leb_le in H2. split; [unfold sep; lia|].
  unfold is_magic.
  assert (E1 : (c =? 42) = false) by (apply N.eqb_neq; lia).
  assert (E2 : (c =? 63) = false) by (apply N.eqb_neq; lia).
  assert (E3 : (c =? 91) = false) by (apply N.eqb_neq; lia).
  now rewrite E1, E2, E3.
Qed.

Lemma pad2_digits n : Forall (fun c => is_ascii_digit c = true) (pad2 n).
Proof.
  unfold pad2, is_ascii_digit.
  repeat constructor; apply andb_true_iff; split; apply N.leb_le; div_lia.
Qed.

Lemma pad4_digits n : Forall (fun c => is_ascii_digit c = true) (pad4 n).
Proof.
  unfold pad4. destruct (n <? 10000); [|apply str_of_uint_digits].
  unfold is_ascii_digit.
  repeat constructor; apply andb_true_iff; split; apply N.leb_le; div_lia.
Qed.

Lemma strftime_digits t : Forall (fun c => is_ascii_digit c = true) (strftime t).
Proof.
  unfold strftime, date_text, time_text.
  destruct (civil_from_days _) as [[y m] d].
  apply Forall_app; split; [apply Forall_app; split; [apply pad4_digits|] |];
    repeat (apply Forall_app; split); apply pad2_digits.
Qed.

Lemma lit_tame_check (s : str) :
  forallb (fun c => negb (c =? sep) && negb (is_magic c)) s = true -> tame s.
Proof.
  unfold tame. intros H. apply Forall_forall. intros c Hc.
  rewrite forallb_forall in H. specialize (H c Hc).
  apply andb_true_iff in H. destruct H as [H1 H2].
  apply negb_true_iff in H1. apply negb_true_iff in H2.
  apply N.eqb_neq in H1. now split.
Qed.

(** The names of the renaming step are single components without
    wildcards. *)
Lemma artifact_name_tame st bt page t : tame (artifact_name st bt page t).
Proof.
  unfold artifact_name, page_filename, stamp_filename.
  destruct (truthy bt).
  - apply tame_app; [apply format_filename_tame|].
    apply tame_app; [apply lit_tame_check; reflexivity|].
    apply tame_app; [apply format_filename_tame|].
    apply tame_app; [apply lit_tame_check; reflexivity|].
    apply tame_app; [apply digits_tame, str_of_uint_digits|].
    apply lit_tame_check; reflexivity.
  - apply tame_app; [apply format_filename_tame|].
    apply tame_app; [apply lit_tame_check; reflexivity|].
    apply tame_app; [apply digits_tame, strftime_digits|].
    apply lit_tame_check; reflexivity.
Qed.

Lemma fnmatch_star_cons pat c name :
  fnmatch (42 :: pat) (c :: name) =
  fnmatch pat (c :: name) || fnmatch (42 :: pat) name.
Proof. reflexivity. Qed.

Lemma fnmatch_star_nil pat : fnmatch (42 :: pat) [] = fnmatch pat [].
Proof. cbn [fnmatch]. change (42 =? 42) with true. cbv iota. apply orb_false_r. Qed.

Lemma fnmatch_only_star name : fnmatch [42] name = true.
Proof.
  induction name as [|c name IH]; [reflexivity|].
  rewrite fnmatch_star_cons, IH. apply orb_true_r.
Qed.

Lemma fnmatch_prefix pre r t :
  literal pre -> fnmatch (pre ++ r) (pre ++ t) = fnmatch r t.
Proof.
  induction 1 as [|c pre [H1 H2] _ IH]; [reflexivity|].
  rewrite <- !app_comm_cons. cbn [fnmatch].
  apply N.eqb_neq in H1. rewrite H1, N.eqb_refl, orb_true_r. exact IH.
Qed.

(** A literal text followed by a star matches the names that start with
    the text. *)
Lemma fnmatch_prefix_star pre : literal pre ->
  forall name, fnmatch (pre ++ [42]) name = startswith pre name.
Proof.
  unfold startswith.
  induction 1 as [|c pre [H1 H2] _ IH]; intros name.
  - cbn [List.app strip_prefix]. apply fnmatch_only_star.
  - rewrite <- app_comm_cons. cbn [fnmatch strip_prefix].
    apply N.eqb_neq in H1. apply N.eqb_neq in H2. rewrite H1.
    destruct name as [|k name]; [reflexivity|].
    rewrite H2. cbn [orb]. destruct (c =? k); [apply IH | reflexivity].
Qed.

(** A star followed by a literal text matches the names that end with it. *)
Lemma fnmatch_star_suffix suf : literal suf ->
  forall x, fnmatch (42 :: suf) (x ++ suf) = true.
Proof.
  intros H x. induction x as [|c x IH].
  - cbn [List.app]. destruct suf as [|k suf]; [reflexivity|].
    rewrite fnmatch_star_cons.
    rewrite <- (app_nil_r (k :: suf)) at 1 2.
    now rewrite (fnmatch_prefix _ [] [] H).
  - rewrite <- app_comm_cons, fnmatch_star_cons, IH. apply orb_true_r.
Qed.

(** *** Sanitised names *)

Lemma replace_app old new a b :
  replace old new (a ++ b) = replace old new a ++ replace old new b.
Proof. unfold replace. apply flat_map_app. Qed.

Lemma format_filename_concat a b :
  format_filename (a ++ b) = format_filename a ++ format_filename b.
Proof. unfold format_filename. cbv zeta. now rewrite !replace_app, filter_app. Qed.

Lemma format_filename_char c :
  format_filename [c] =
  if c =? 32 then lit "_"
  else if c =? 38 then lit "and"
  else if isalnum c || (c =? 95) then [c] else [].
Proof.
  unfold format_filename, replace. cbv zeta. cbn [flat_map List.app].
  destruct (c =? 32) eqn:E1; [reflexivity|]. cbn [flat_map List.app].
  destruct (c =? 38) eqn:E2; [reflexivity|]. cbn [filter List.app].
  now destruct (isalnum c || (c =? 95)).
Qed.

(** X1: sanitisation works character by character: the result for a
    concatenation is the concatenation of the results, a space gives an
    underscore, an ampersand gives "and", a letter, digit or underscore is
    kept and anything else is dropped.  Hence a space and an underscore, or
    an ampersand and the word "and", are not told apart. *)
Theorem format_filename_by_character :
  (forall a b, format_filename (a ++ b) = format_filename a ++ format_filename b) /\
  (forall c, format_filename [c] =
             if c =? 32 then lit "_"
             else if c =? 38 then lit "and"
             else if isalnum c || (c =? 95) then [c] else []) /\
  (forall a b, format_filename (a ++ lit " " ++ b) = format_filename (a ++ lit "_" ++ b)) /\
  (forall a b, format_filename (a ++ lit "&" ++ b) = format_filename (a ++ lit "and" ++ b)).
Proof.
  split; [exact format_filename_concat|].
  split; [exact format_filename_char|].
  split; intros a b; rewrite !format_filename_concat; do 2 f_equal.
Qed.

Lemma basename_join_nil d : basename (path_join d []) = [].
Proof.
  unfold basename, path_join. destruct d as [|x d]; [reflexivity|].
  assert (H : forall y, snd (path_split (y ++ [sep])) = []).
  { intros y. unfold path_split. rewrite (rsplit_sep_app y []) by constructor.
    now destruct (lstrip_sep _). }
  destruct (ends_with_sep (x :: d)) eqn:E; [|apply H].
  unfold ends_with_sep in E.
  destruct (List.rev (x :: d)) as [|y r] eqn:Er; [discriminate|].
  apply N.eqb_eq in E. subst y.
  assert (Hx : x :: d = List.rev r ++ [sep]).
  { rewrite <- (rev_involutive (x :: d)), Er. reflexivity. }
  rewrite Hx. apply H.
Qed.

Lemma basename_join_free d b : sep_free b -> basename (path_join d b) = b.
Proof.
  destruct b as [|c b]; [intros _; apply basename_join_nil | apply basename_join].
Qed.

(** X2: a sanitised text is safe as one path component: it holds no
    separator, no wildcard character and no dot, and joined to any directory
    it is the last component of the path. *)
Theorem sanitised_name_is_component text :
  has_magic (format_filename text) = false /\
  ~ In sep (format_filename text) /\
  ~ In 46 (format_filename text) /\
  forall d, basename (path_join d (format_filename text)) = format_filename text.
Proof.
  assert (K := format_filename_kept text). rewrite Forall_forall in K.
  split; [apply tame_no_magic, format_filename_tame|].
  split; [|split].
  - intros H. apply K, kept_tame in H. tauto.
  - intros H. apply K, kept_tame in H. tauto.
  - intros d. apply basename_join_free, tame_sep_free, format_filename_tame.
Qed.

(** *** The names of a query against its patterns *)

Lemma lit_literal_check (s : str) :
  forallb (fun c => negb (c =? 42) && negb (c =? 63)) s = true -> literal s.
Proof.
  unfold literal. intros H. apply Forall_forall. intros c Hc.
  rewrite forallb_forall in H. specialize (H c Hc).
  apply andb_true_iff in H. destruct H as [H1 H2].
  apply negb_true_iff in H1. apply negb_true_iff in H2.
  apply N.eqb_neq in H1. apply N.eqb_neq in H2. now split.
Qed.

Lemma literal_app a b : literal a -> literal b -> literal (a ++ b).
Proof. unfold literal. intros. now apply Forall_app. Qed.

Lemma sep_free_app a b : sep_free a -> sep_free b -> sep_free (a ++ b).
Proof. unfold sep_free. intros. now apply Forall_app. Qed.

Lemma lit_sep_free_check (s : str) :
  forallb (fun c => negb (c =? sep)) s = true -> sep_free s.
Proof.
  unfold sep_free. intros H. apply Forall_forall. intros c Hc.
  rewrite forallb_forall in H. specialize (H c Hc).
  apply negb_true_iff in H. now apply N.eqb_neq in H.
Qed.

(** A sanitised text followed by an underscore starts with a character that
    is neither a dot nor a separator. *)
Lemma name_head text r :
  exists c t, format_filename text ++ 95 :: r = c :: t /\ c <> 46 /\ c <> sep.
Proof.
  assert (K := format_filename_kept text).
  destruct (format_filename text) as [|c s].
  - exists 95, r. repeat split; discriminate.
  - exists c, (s ++ 95 :: r). inversion K as [|? ? Hc _]; subst.
    apply kept_tame in Hc. tauto.
Qed.

Lemma name_not_hidden text r : is_hidden (format_filename text ++ 95 :: r) = false.
Proof.
  destruct (name_head text r) as (c & t & -> & Hc & _).
  now apply N.eqb_neq.
Qed.

Lemma path_join_free d b :
  d <> [] -> ends_with_sep d = false -> sep_free b -> b <> [] ->
  path_join d b = d ++ sep :: b.
Proof.
  intros Hd He Hb Hn. destruct b as [|c b]; [congruence|].
  apply path_join_plain; try assumption. now inversion Hb.
Qed.

Lemma lookup_In p fs0 n : lookup p fs0 = Some n -> In (p, n) fs0.
Proof.
  induction fs0 as [|[q m] fs0 IH]; simpl; [discriminate|].
  destruct (str_eqb p q) eqn:E.
  - apply str_eqb_eq in E. intros H. inversion H; subst. now left.
  - intros H. right. now apply IH.
Qed.

Lemma listdir_In d name fs0 :
  d <> [] -> ends_with_sep d = false -> sep_free name -> name <> [] ->
  is_dir d fs0 = true -> exists_path (d ++ sep :: name) fs0 = true ->
  In name (listdir d fs0).
Proof.
  intros Hd He Hf Hn Hdir Hex. unfold listdir. rewrite Hdir.
  unfold exists_path in Hex.
  destruct (lookup (d ++ sep :: name) fs0) as [n|] eqn:E; [|discriminate].
  apply lookup_In in E. apply in_flat_map. exists (d ++ sep :: name, n).
  split; [exact E|]. cbn [fst]. destruct name as [|c r]; [congruence|].
  rewrite child_name_plain by assumption. now left.
Qed.

Lemma glob_plain_In d pat name fs0 :
  plain_dir d -> has_magic pat = true -> sep_free pat ->
  sep_free name -> name <> [] ->
  is_dir d fs0 = true -> exists_path (d ++ sep :: name) fs0 = true ->
  glob_match pat name = true ->
  In (d ++ sep :: name) (glob (d ++ sep :: pat) fs0).
Proof.
  intros Hd Hm Hp Hf Hn Hdir Hex Hg. rewrite glob_plain by assumption.
  apply in_map_iff. exists name. split; [reflexivity|].
  apply filter_In. split; [|exact Hg].
  destruct Hd as (Hd & He & _). now apply listdir_In.
Qed.

Lemma ends_with_sep_free a b :
  sep_free b -> b <> [] -> ends_with_sep (a ++ b) = false.
Proof.
  intros Hb Hn. unfold ends_with_sep. rewrite rev_app_distr.
  destruct (List.rev b) as [|c r] eqn:E.
  - apply (f_equal (@List.rev N)) in E. rewrite rev_involutive in E. now subst.
  - cbn [List.app]. apply N.eqb_neq. unfold sep_free in Hb.
    rewrite Forall_forall in Hb. apply Hb. apply in_rev. rewrite E. now left.
Qed.

(** A tame name joined to a plain directory gives a plain directory. *)
Lemma plain_join d b : plain_dir d -> tame b -> b <> [] -> plain_dir (path_join d b).
Proof.
  intros (Hd & He & Hm) Hb Hn.
  rewrite path_join_free; try assumption; [|now apply tame_sep_free].
  repeat split.
  - now destruct d.
  - change (sep :: b) with ([sep] ++ b). rewrite app_assoc.
    apply ends_with_sep_free; [now apply tame_sep_free | assumption].
  - change (sep :: b) with ([sep] ++ b).
    rewrite !has_magic_app, Hm, (tame_no_magic b Hb). reflexivity.
Qed.

Lemma combine_layout_stem dd st bt :
  combine_layout dd st bt =
  (path_join dd (query_stem st bt),
   (query_stem st bt ++ (if truthy bt then lit "_page_" else lit "_")) ++ lit "*.csv",
   query_stem st bt ++ lit "_combined.csv").
Proof.
  unfold combine_layout, query_stem. destruct (truthy bt); cbv zeta;
    now rewrite <- ?app_assoc.
Qed.

Lemma artifact_name_stem st bt page t :
  artifact_name st bt page t =
  (query_stem st bt ++ (if truthy bt then lit "_page_" else lit "_")) ++
  (if truthy bt then str_of_N page else strftime t) ++ lit ".csv".
Proof.
  unfold artifact_name, query_stem, page_filename, stamp_filename.
  destruct (truthy bt); now rewrite <- ?app_assoc.
Qed.

Lemma query_stem_tame st bt : tame (query_stem st bt).
Proof.
  unfold query_stem. destruct (truthy bt); [|apply format_filename_tame].
  apply tame_app; [apply format_filename_tame|].
  apply tame_app; [apply lit_tame_check; reflexivity | apply format_filename_tame].
Qed.

Lemma query_prefix_tame st bt :
  tame (query_stem st bt ++ (if truthy bt then lit "_page_" else lit "_")).
Proof.
  apply tame_app; [apply query_stem_tame|].
  destruct (truthy bt); apply lit_tame_check; reflexivity.
Qed.

Lemma query_name_not_hidden st bt r :
  is_hidden ((query_stem st bt ++ (if truthy bt then lit "_page_" else lit "_")) ++ r)
  = false.
Proof.
  unfold query_stem. destruct (truthy bt); rewrite <- ?app_assoc; apply name_not_hidden.
Qed.

Lemma artifact_matches dd st bt page t :
  glob_match (snd (fst (combine_layout dd st bt))) (artifact_name st bt page t) = true.
Proof.
  rewrite combine_layout_stem, artifact_name_stem. cbn [fst snd].
  unfold glob_match. rewrite !query_name_not_hidden. cbn [negb orb andb].
  rewrite fnmatch_prefix by apply tame_literal, query_prefix_tame.
  apply (fnmatch_star_suffix (lit ".csv")). apply lit_literal_check. reflexivity.
Qed.

Lemma move_files_to_directory_layout dd st bt :
  move_files_to_directory dd st bt =
  (create_directory (fst (fst (combine_layout dd st bt))) ;;;
   csv_files <- glob_glob (path_join dd (snd (fst (combine_layout dd st bt)))) ;;
   move_each (fst (fst (combine_layout dd st bt))) csv_files).
Proof.
  unfold move_files_to_directory, combine_layout. now destruct (truthy bt).
Qed.

Lemma query_pattern_facts st bt :
  let pat := (query_stem st bt ++ (if truthy bt then lit "_page_" else lit "_"))
             ++ lit "*.csv" in
  has_magic pat = true /\ sep_free pat /\ pat <> [].
Proof.
  cbv zeta. repeat split.
  - rewrite has_magic_app. apply orb_true_r.
  - apply sep_free_app; [apply tame_sep_free, query_prefix_tame|].
    apply lit_sep_free_check. reflexivity.
  - intros H. apply app_eq_nil in H. destruct H as [_ H]. discriminate.
Qed.

(** X6: the three steps agree on the names.  [move_files_to_directory]
    uses the directory and the pattern of [combine_csv_files]; a file that
    the renaming step left in a plain download directory is among the files
    the move step finds there; it keeps its name when moved; and in the
    directory of its query it is among the files the combine step finds. *)
Theorem renamed_page_is_collected dd st bt page t fs0 :
  plain_dir dd ->
  (truthy bt = false -> format_filename st <> []) ->
  let name := artifact_name st bt page t in
  let directory_path := fst (fst (combine_layout dd st bt)) in
  let file_pattern := snd (fst (combine_layout dd st bt)) in
  move_files_to_directory dd st bt =
    (create_directory directory_path ;;;
     csv_files <- glob_glob (path_join dd file_pattern) ;;
     move_each directory_path csv_files) /\
  (is_dir dd fs0 = true -> exists_path (path_join dd name) fs0 = true ->
   In (path_join dd name) (glob (path_join dd file_pattern) fs0)) /\
  path_join directory_path (basename (path_join dd name)) =
    path_join directory_path name /\
  (is_dir directory_path fs0 = true ->
   exists_path (path_join directory_path name) fs0 = true ->
   In (path_join directory_path name) (glob (combine_pattern dd st bt) fs0)).
Proof.
  intros Hdd Hst. cbv zeta.
  assert (Hname : tame (artifact_name st bt page t)) by apply artifact_name_tame.
  assert (Hnn : artifact_name st bt page t <> []).
  { rewrite artifact_name_stem. intros H.
    apply app_eq_nil in H. destruct H as [_ H].
    apply app_eq_nil in H. destruct H as [_ H]. discriminate. }
  assert (Hm := artifact_matches dd st bt page t).
  assert (Hstem : query_stem st bt <> []).
  { unfold query_stem. destruct (truthy bt) eqn:E; [|now apply Hst].
    intros H. apply app_eq_nil in H. destruct H as [_ H]. discriminate. }
  assert (Hdir : plain_dir (path_join dd (query_stem st bt)))
    by (apply plain_join; [assumption | apply query_stem_tame | assumption]).
  split; [apply move_files_to_directory_layout|].
  unfold combine_pattern. revert Hm. rewrite combine_layout_stem. cbn [fst snd].
  intros Hm. destruct (query_pattern_facts st bt) as (Hp1 & Hp2 & Hp3).
  cbv zeta in Hp1, Hp2, Hp3.
  assert (Hcollect : forall d, plain_dir d -> is_dir d fs0 = true ->
            exists_path (path_join d (artifact_name st bt page t)) fs0 = true ->
            In (path_join d (artifact_name st bt page t))
               (glob (path_join d
                  ((query_stem st bt ++ (if truthy bt then lit "_page_" else lit "_"))
                   ++ lit "*.csv")) fs0)).
  { intros d Hd. destruct Hd as (Hd1 & Hd2 & Hd3).
    rewrite !path_join_free; try assumption; try (now apply tame_sep_free).
    intros Hdir' Hex. apply glob_plain_In; try assumption.
    - now repeat split.
    - now apply tame_sep_free. }
  split; [now apply Hcollect|].
  split; [now rewrite basename_join_free by (now apply tame_sep_free)|].
  now apply Hcollect.
Qed.

(** X7: the output name of a query against its own input pattern.  For a
    query without business type the name [<state>_combined.csv] matches the
    pattern [<state>_*.csv] the inputs are found with; for a business-filtered
    query the name [<state>_<business>_combined.csv] never matches the pattern
    [<state>_<business>_page_*.csv]. *)
Theorem combined_name_against_pattern dd st bt :
  glob_match (snd (fst (combine_layout dd st bt))) (snd (combine_layout dd st bt))
  = negb (truthy bt).
Proof.
  unfold combine_layout, glob_match.
  destruct (truthy bt); cbv zeta; cbn [fst snd negb].
  - apply andb_false_iff. right.
    change (lit "_page_*.csv") with (lit "_" ++ lit "page_*.csv").
    change (lit "_combined.csv") with (lit "_" ++ lit "combined.csv").
    rewrite !app_assoc. rewrite fnmatch_prefix; [reflexivity|].
    rewrite <- !app_assoc.
    repeat apply literal_app;
      try (apply tame_literal, format_filename_tame);
      apply lit_literal_check; reflexivity.
  - change (lit "_combined.csv") with (95 :: lit "combined.csv").
    rewrite name_not_hidden. cbn [negb]. rewrite orb_true_r. cbn [andb].
    change (lit "_*.csv") with (lit "_" ++ lit "*.csv").
    change (95 :: lit "combined.csv") with (lit "_" ++ lit "combined.csv").
    rewrite !app_assoc. rewrite fnmatch_prefix; [reflexivity|].
    apply literal_app; [apply tame_literal, format_filename_tame|].
    apply lit_literal_check; reflexivity.
Qed.

Lemma startswith_hidden c p name :
  c <> 46 -> is_hidden name = true -> startswith (c :: p) name = false.
Proof.
  intros Hc Hh. destruct name as [|k name]; [reflexivity|].
  cbn [is_hidden] in Hh. apply N.eqb_eq in Hh. subst k.
  unfold startswith. cbn [strip_prefix]. apply N.eqb_neq in Hc. now rewrite Hc.
Qed.

Lemma state_pattern_match text name :
  glob_match (format_filename text ++ lit "_*") name =
  startswith (format_filename text ++ lit "_") name.
Proof.
  unfold glob_match. change (lit "_*") with (95 :: [42]).
  rewrite name_not_hidden. cbn [orb].
  change (95 :: [42]) with (lit "_" ++ [42]). rewrite app_assoc.
  rewrite fnmatch_prefix_star.
  - destruct (is_hidden name) eqn:Hh; [|reflexivity]. cbn [negb andb].
    destruct (name_head text []) as (c & r & E & Hc & _).
    change (lit "_") with [95]. rewrite E. symmetry. now apply startswith_hidden.
  - apply literal_app; [apply tame_literal, format_filename_tame|].
    apply lit_literal_check; reflexivity.
Qed.

(** X8: in a plain download directory, the "business type folders" of
    [consolidate_state_files] are exactly the entries whose name starts with
    [<state>_], in listing order, directories or not; the consolidated file
    written there is one of them from then on. *)
Theorem consolidate_finds_by_prefix dd st fs0 :
  plain_dir dd ->
  glob (consolidate_pattern dd st) fs0 =
    map (fun name => dd ++ sep :: name)
        (filter (startswith (format_filename st ++ lit "_")) (listdir dd fs0)) /\
  (is_dir dd fs0 = true -> exists_path (consolidate_output dd st) fs0 = true ->
   In (consolidate_output dd st) (glob (consolidate_pattern dd st) fs0)).
Proof.
  intros Hdd. assert (Hp := Hdd). destruct Hp as (Hd & He & Hm).
  unfold consolidate_pattern, consolidate_output.
  assert (Hpat : sep_free (format_filename st ++ lit "_*")).
  { apply sep_free_app; [apply tame_sep_free, format_filename_tame|].
    apply lit_sep_free_check. reflexivity. }
  assert (Hout : sep_free (format_filename st ++ lit "_consolidated.csv")).
  { apply sep_free_app; [apply tame_sep_free, format_filename_tame|].
    apply lit_sep_free_check. reflexivity. }
  assert (Hnn : forall r, r <> [] -> format_filename st ++ r <> []).
  { intros r Hr H. apply app_eq_nil in H. tauto. }
  rewrite !path_join_free; try assumption; try (apply Hnn; discriminate).
  assert (Hg : glob (dd ++ sep :: format_filename st ++ lit "_*") fs0 =
               map (fun name => dd ++ sep :: name)
                 (filter (startswith (format_filename st ++ lit "_")) (listdir dd fs0))).
  { rewrite glob_plain; try assumption.
    - f_equal. apply filter_ext. intros name. apply state_pattern_match.
    - rewrite has_magic_app. apply orb_true_r. }
  split; [exact Hg|].
  intros Hdir Hex. rewrite Hg. apply in_map_iff.
  exists (format_filename st ++ lit "_consolidated.csv"). split; [reflexivity|].
  apply filter_In. split.
  - apply listdir_In; try assumption. apply Hnn. discriminate.
  - unfold startswith.
    change (lit "_consolidated.csv") with (lit "_" ++ lit "consolidated.csv").
    rewrite app_assoc.
    assert (Hs : forall p t, strip_prefix p (p ++ t) = Some t).
    { induction p as [|a p IH]; intros t; simpl; [reflexivity|].
      now rewrite N.eqb_refl, IH. }
    now rewrite Hs.
Qed.

(** *** Renaming, moving, creating directories *)

Lemma os_rename_raise a b w e w1 : os_rename a b w = (Raise e, w1) -> w1 = w.
Proof.
  unfold os_rename.
  destruct (lookup a (fs w)) as [n|]; [|now inversion 1].
  destruct (str_eqb a b); [discriminate|].
  destruct (negb (parent_ok b (fs w))); [now inversion 1|].
  destruct (body n) as [|d0|e0]; destruct (lookup b (fs w)) as [[t [|df|e1]]|];
    try discriminate; try (now inversion 1).
  destruct (has_entries b (fs w)); [now inversion 1 | discriminate].
Qed.

(** A renaming that succeeds on something that is not a directory. *)
Lemma os_rename_file a b w w1 :
  os_rename a b w = (Ok tt, w1) -> a <> b ->
  exists n, lookup a (fs w) = Some n /\
    (body n <> Directory ->
     fs w1 = store b n (unlink a (fs w)) /\ is_dir b (fs w) = false).
Proof.
  unfold os_rename. intros H Hab.
  destruct (lookup a (fs w)) as [n|]; [|discriminate].
  exists n. split; [reflexivity|]. intros Hn.
  rewrite (str_eqb_neq a b Hab) in H.
  destruct (negb (parent_ok b (fs w))); [discriminate|].
  unfold is_dir.
  destruct (body n) as [|d0|e0]; [congruence| |];
    destruct (lookup b (fs w)) as [[t [|df|e1]]|];
    try discriminate; inversion H; subst; now split.
Qed.

Lemma artifact_path_fresh dd st bt page t :
  path_join dd (artifact_name st bt page t) <> path_join dd (lit "data.csv").
Proof.
  intros H.
  assert (Hin : In 95 (artifact_name st bt page t)).
  { unfold artifact_name, page_filename, stamp_filename.
    destruct (truthy bt); apply in_or_app; right; now left. }
  assert (E : artifact_name st bt page t = lit "data.csv").
  { destruct (name_head st ((if truthy bt
        then format_filename (text_of bt) ++ lit "_page_" ++ str_of_N page
        else strftime t) ++ lit ".csv")) as (c & r & E & _ & Hc).
    assert (En : artifact_name st bt page t = c :: r).
    { rewrite <- E. unfold artifact_name, page_filename, stamp_filename.
      destruct (truthy bt); now rewrite <- ?app_assoc. }
    rewrite En in H |- *.
    apply (path_join_inj dd r (lit "ata.csv") c 100); [exact Hc | discriminate | exact H]. }
  rewrite E in Hin. vm_compute in Hin.
  repeat (destruct Hin as [Hin|Hin]; [discriminate|]). exact Hin.
Qed.

(** X3: [rename_downloaded_file] touches the export and nothing else.
    Without [data.csv] it returns [None] and leaves the files as they are;
    when [os.rename] raises, nothing has changed and nothing was written;
    when it returns a path, that path is the new name in the download
    directory, it is not the path of [data.csv], it now holds what [data.csv]
    held, [data.csv] is gone and every other path is as before. *)
Theorem rename_moves_the_export dd st bt page w r w' :
  rename_downloaded_file dd st bt page w = (r, w') ->
  let src := path_join dd (lit "data.csv") in
  now w' = now w /\
  match r with
  | Ok None => exists_path src (fs w) = false /\ fs w' = fs w
  | Raise e => exists_path src (fs w) = true /\ w' = w
  | Ok (Some path) =>
      path = path_join dd (artifact_name st bt page (now w)) /\
      path <> src /\
      exists n, lookup src (fs w) = Some n /\
        (body n <> Directory ->
         lookup path (fs w') = Some n /\
         lookup src (fs w') = None /\
         forall q, q <> src -> q <> path -> lookup q (fs w') = lookup q (fs w))
  end.
Proof.
  intros H. cbv zeta. unfold rename_downloaded_file in H.
  destruct (exists_path (path_join dd (lit "data.csv")) (fs w)) eqn:Ex.
  - change (if truthy bt
            then page_filename (format_filename st)
                   (format_filename (text_of bt)) page
            else stamp_filename (format_filename st) (strftime (now w)))
      with (artifact_name st bt page (now w)) in H.
    assert (Hfresh := artifact_path_fresh dd st bt page (now w)).
    unfold bind in H.
    destruct (os_rename (path_join dd (lit "data.csv"))
                (path_join dd (artifact_name st bt page (now w))) w)
      as [[[]|e] w1] eqn:Er.
    + destruct (os_rename_quiet (path_join dd (lit "data.csv"))
                  (path_join dd (artifact_name st bt page (now w))) w) as [Hn _].
      rewrite Er in Hn. cbn [snd] in Hn.
      unfold safe_print, ret in H. inversion H; subst r w'. cbn [now fs].
      split; [exact Hn|]. split; [reflexivity|]. split; [exact Hfresh|].
      destruct (os_rename_file _ _ _ _ Er (fun E => Hfresh (eq_sym E)))
        as (n & Hl & Hf).
      exists n. split; [exact Hl|]. intros Hb. destruct (Hf Hb) as [-> _].
      split; [apply lookup_store|].
      split.
      * rewrite lookup_store_other by (intros E; now apply Hfresh).
        apply lookup_unlink_same.
      * intros q Hq1 Hq2. rewrite lookup_store_other by assumption.
        now apply lookup_unlink_other.
    + apply os_rename_raise in Er. inversion H; subst. now repeat split.
  - unfold bind, safe_print, ret in H. inversion H; subst. cbn [now fs].
    now repeat split.
Qed.

Lemma move_each_cons target p files w :
  move_each target (p :: files) w =
  match os_rename p (path_join target (basename p)) w with
  | (Ok _, w1) =>
      move_each target files
        {| fs := fs w1; now := now w1;
           out := out w1 ++ [(now w1, MovedFile target (basename p))] |}
  | (Raise e, w1) =>
      move_each target files
        {| fs := fs w1; now := now w1;
           out := out w1 ++ [(now w1, ErrorMoving p e)] |}
  end.
Proof.
  cbn [move_each]. unfold bind, try_except, safe_print.
  now destruct (os_rename p (path_join target (basename p)) w) as [[[]|e] w1].
Qed.

(** X4: no file stops the move.  [move_each] never raises and leaves the
    clock alone; it writes exactly one line per file, in order: that the
    file was moved, under its base name, or that moving it failed. *)
Theorem move_each_isolated target files w :
  fst (move_each target files w) = Ok tt /\
  now (snd (move_each target files w)) = now w /\
  exists lines,
    out (snd (move_each target files w)) = out w ++ stamped (now w) lines /\
    Forall2 (fun p l => l = MovedFile target (basename p) \/
                        exists e, l = ErrorMoving p e) files lines.
Proof.
  revert w. induction files as [|p files IH]; intros w.
  - cbn. repeat split. exists []. cbn. rewrite app_nil_r. split; constructor.
  - rewrite move_each_cons.
    destruct (os_rename_quiet p (path_join target (basename p)) w) as [Hn Ho].
    destruct (os_rename p (path_join target (basename p)) w) as [[[]|e] w1] eqn:Er;
      cbn [snd] in Hn, Ho.
    + match goal with |- context [move_each target files ?w2] =>
        destruct (IH w2) as (H1 & H2 & lines & H3 & H4) end.
      cbn [now out] in H2, H3.
      split; [exact H1|]. split; [now rewrite H2|].
      exists (MovedFile target (basename p) :: lines). split.
      * rewrite H3, Hn, Ho, <- app_assoc. reflexivity.
      * constructor; [now left | exact H4].
    + match goal with |- context [move_each target files ?w2] =>
        destruct (IH w2) as (H1 & H2 & lines & H3 & H4) end.
      cbn [now out] in H2, H3.
      split; [exact H1|]. split; [now rewrite H2|].
      exists (ErrorMoving p e :: lines). split.
      * rewrite H3, Hn, Ho, <- app_assoc. reflexivity.
      * constructor; [right; now exists e | exact H4].
Qed.

Lemma os_mkdir_ok p w w' :
  os_mkdir p w = (Ok tt, w') ->
  exists_path p (fs w) = false /\ parent_ok p (fs w) = true /\
  fs w' = store p {| mtime := now w; body := Directory |} (fs w).
Proof.
  unfold os_mkdir. destruct (exists_path p (fs w)); [discriminate|].
  destruct (parent_ok p (fs w)); [|discriminate].
  cbn [negb]. inversion 1; subst. now repeat split.
Qed.

Lemma rsplit_components p :
  match rsplit_sep p with
  | Some (h, t) => last (components p) [] = t /\ (2 <= List.length (components p))%nat
  | None => components p = [p]
  end.
Proof.
  induction p as [|c p IH]; [reflexivity|]. cbn [rsplit_sep components].
  destruct (rsplit_sep p) as [[h t]|].
  - destruct IH as [IH L]. destruct (c =? sep).
    + split; [|cbn [List.length]; lia].
      destruct (components p); [cbn [List.length] in L; lia | exact IH].
    + destruct (components p) as [|x [|y l]]; cbn [List.length] in L; try lia.
      split; [exact IH | cbn [List.length]; lia].
  - rewrite IH. destruct (c =? sep); [|reflexivity].
    split; [reflexivity | cbn [List.length]; lia].
Qed.

Lemma basename_components p : basename p = last (components p) [].
Proof.
  unfold basename, path_split. generalize (rsplit_components p).
  destruct (rsplit_sep p) as [[h t]|].
  - intros [H _]. now destruct (lstrip_sep (List.rev h)).
  - now intros ->.
Qed.

Lemma tidy_basename p : tidy p = true -> proper (basename p) = true.
Proof.
  rewrite basename_components. unfold tidy.
  destruct (components p) as [|r [|x l]]; [discriminate | now cbn |].
  intros H. apply andb_true_iff in H. destruct H as [_ H].
  rewrite forallb_forall in H. apply H.
  change (In (last (r :: x :: l) []) (x :: l)).
  cbn [last]. clear. revert x. induction l as [|y l IH]; intros x.
  - now left.
  - right. exact (IH y).
Qed.

Lemma proper_name t : proper t = true -> t <> [] /\ str_eqb t (lit ".") = false.
Proof.
  unfold proper. intros H.
  apply andb_true_iff in H. destruct H as [H _].
  apply andb_true_iff in H. destruct H as [H1 H2].
  split.
  - intros ->. discriminate.
  - now destruct (str_eqb t (lit ".")).
Qed.

Lemma makedirs_fuel_ok fuel p w w' :
  proper (basename p) = true ->
  makedirs_fuel fuel p w = (Ok tt, w') -> exists w1, os_mkdir p w1 = (Ok tt, w').
Proof.
  intros Hp. apply proper_name in Hp. destruct Hp as [Hne Hdot].
  destruct fuel as [|fuel]; [discriminate|]. cbn [makedirs_fuel].
  unfold basename in Hne, Hdot.
  destruct (path_split p) as [h t]. cbn [snd] in Hne, Hdot.
  destruct t as [|c t]; [contradiction|].
  destruct (_ && _); [|intros H; now exists w].
  destruct (try_except _ _ w) as [[[]|e] w1]; [|discriminate].
  rewrite Hdot. intros H. now exists w1.
Qed.

Lemma os_mkdir_grows p w q n :
  lookup q (fs w) = Some n -> lookup q (fs (snd (os_mkdir p w))) = Some n.
Proof.
  intros H. unfold os_mkdir. destruct (exists_path p (fs w)) eqn:E; [exact H|].
  destruct (negb (parent_ok p (fs w))); [exact H|]. cbn [snd fs].
  rewrite lookup_store_other; [exact H|]. intros ->.
  unfold exists_path in E. now rewrite H in E.
Qed.

Lemma makedirs_fuel_grows fuel : forall p w q n,
  lookup q (fs w) = Some n ->
  lookup q (fs (snd (makedirs_fuel fuel p w))) = Some n.
Proof.
  induction fuel as [|fuel IH]; intros p w q n H; [exact H|].
  cbn [makedirs_fuel].
  destruct (path_split p) as [h t].
  destruct (match t with [] => path_split h | _ :: _ => (h, t) end) as [h' t'].
  destruct (_ && _); [|now apply os_mkdir_grows].
  assert (K : forall r w1,
    try_except (makedirs_fuel fuel h')
      (fun e => if exists_path h' (fs w) then ret tt else raise e) w = (r, w1) ->
    lookup q (fs w1) = Some n).
  { intros r w1 E. unfold try_except in E. specialize (IH h' w q n H).
    destruct (makedirs_fuel fuel h' w) as [[[]|e] w2]; cbn [snd] in IH.
    - now inversion E; subst.
    - destruct (exists_path h' (fs w)); unfold ret, raise in E;
        now inversion E; subst. }
  destruct (try_except _ _ w) as [[[]|e] w1] eqn:E.
  - destruct (str_eqb t' (lit ".")).
    + cbn [snd]. exact (K _ _ eq_refl).
    + apply os_mkdir_grows. exact (K _ _ eq_refl).
  - cbn [snd]. exact (K _ _ eq_refl).
Qed.

(** X5: [create_directory] is idempotent and only adds, for a path in
    normal form (proper components: no trailing or doubled separator, no [.]
    and no [..]; the entries of the file system are kept under such texts).
    After a call on such a path that returned, the path exists and a second
    call changes nothing; every entry that was there is still there,
    unchanged; and when the path was missing it is now a directory inside a
    directory. *)
Theorem create_directory_idempotent path w w' :
  tidy path = true ->
  create_directory path w = (Ok tt, w') ->
  exists_path path (fs w') = true /\
  create_directory path w' = (Ok tt, w') /\
  (forall q n, lookup q (fs w) = Some n -> lookup q (fs w') = Some n) /\
  (exists_path path (fs w) = false ->
   is_dir path (fs w') = true /\ is_dir (dirname path) (fs w') = true).
Proof.
  intros Ht H. apply tidy_basename in Ht.
  assert (Hgrow : forall q n, lookup q (fs w) = Some n -> lookup q (fs w') = Some n).
  { intros q n Hq. unfold create_directory in H.
    destruct (negb (exists_path path (fs w))).
    - generalize (makedirs_fuel_grows (S (List.length path)) path w q n Hq).
      unfold makedirs in H. now rewrite H.
    - now inversion H; subst. }
  assert (Hnew : exists_path path (fs w) = false ->
            is_dir path (fs w') = true /\ is_dir (dirname path) (fs w') = true).
  { intros Ex. unfold create_directory in H. rewrite Ex in H. cbn [negb] in H.
    apply makedirs_fuel_ok in H; [|exact Ht]. destruct H as (w1 & H).
    apply os_mkdir_ok in H. destruct H as (H1 & H2 & ->).
    assert (Hne : dirname path <> path).
    { intros E. unfold parent_ok in H2. rewrite E in H2.
      unfold is_dir in H2. unfold exists_path in H1.
      destruct (lookup path (fs w1)); discriminate. }
    split.
    - unfold is_dir. now rewrite lookup_store.
    - now rewrite is_dir_store_other. }
  assert (Hex : exists_path path (fs w') = true).
  { destruct (exists_path path (fs w)) eqn:Ex.
    - unfold exists_path in Ex |- *.
      destruct (lookup path (fs w)) as [n|] eqn:E; [|discriminate].
      now rewrite (Hgrow _ _ E).
    - destruct (Hnew eq_refl) as [Hd _]. unfold is_dir in Hd. unfold exists_path.
      destruct (lookup path (fs w')); [reflexivity | discriminate]. }
  repeat split; try assumption; try (now apply Hnew).
  unfold create_directory. now rewrite Hex.
Qed.

(** *** Inside a session *)

Lemma rename_none dd st bt page w :
  fst (rename_downloaded_file dd st bt page w) = Ok None ->
  exists_path (path_join dd (lit "data.csv")) (fs w) = false.
Proof.
  unfold rename_downloaded_file.
  destruct (exists_path (path_join dd (lit "data.csv")) (fs w)); [|reflexivity].
  unfold bind. destruct (os_rename _ _ w) as [[[]|e] w1]; discriminate.
Qed.

Lemma combine_last_line dd st bt w w' :
  combine_csv_files dd st bt w = (Ok tt, w') ->
  exists added l,
    out w' = out w ++ added ++ [(now w, l)] /\
    (l = CreatedCombined (combine_output dd st bt) \/
     l = NoDataToCombine (snd (combine_layout dd st bt))).
Proof.
  rewrite combine_csv_files_body.
  pose proof (combine_inputs_world dd st bt w) as Hw.
  destruct (combine_inputs dd st bt w) as [[files|e] w1]; [|discriminate].
  cbn [snd] in Hw. subst w1. cbv zeta.
  destruct (negb (df_empty (merged (fs w) files empty_frame))).
  - unfold bind.
    destruct (to_csv (combine_output dd st bt) (merged (fs w) files empty_frame)
                (wrote w (failures (fs w) files))) as [[[]|e] w2] eqn:Et;
      [|discriminate].
    apply to_csv_ok in Et. subst w2. unfold safe_print. intros H.
    inversion H; subst. cbn [out now wrote].
    exists (stamped (now w) (failures (fs w) files)), 
           (CreatedCombined (combine_output dd st bt)).
    split; [now rewrite <- app_assoc | now left].
  - unfold safe_print. intros H. inversion H; subst. cbn [out now wrote].
    exists (stamped (now w) (failures (fs w) files)),
           (NoDataToCombine (snd (combine_layout dd st bt))).
    split; [now rewrite <- app_assoc | now right].
Qed.

Section SessionLog.

Variable B : Type.
Variable drive : action -> B -> filesystem -> N -> result elem * (B * filesystem * N).

Lemma until_file_found t p (st s1 : state B) :
  until_file drive t p st = (Ok tt, s1) -> exists_path p (fs (snd s1)) = true.
Proof.
  unfold until_file. destruct (exists_path p (fs (snd st))) eqn:E.
  - now inversion 1; subst.
  - destruct (exists_path p (fs (snd (snd (call drive (UntilFile t p) st))))) eqn:E1;
      [|discriminate].
    now inversion 1; subst.
Qed.

(** The export of a page returns only when [data.csv] is there. *)
Lemma export_page_found dd (st s1 : state B) :
  export_page drive dd st = (Ok tt, s1) ->
  exists_path (path_join dd (lit "data.csv")) (fs (snd s1)) = true.
Proof.
  unfold export_page, bind. unfold sleep at 1.
  destruct (call drive (UntilClickable 30 export_link) _) as [[el|e] s2]; [|discriminate].
  destruct (call_ drive (Click el) s2) as [[[]|e] s3]; [|discriminate].
  apply until_file_found.
Qed.

(** One turn of the loop writes the line of one renaming, or nothing and
    then the turn has raised. *)
Lemma page_step_lines dd sn bt page (st : state B) :
  exists d,
    out_of (snd (page_step drive dd sn bt page st)) = out_of st ++ d /\
    ((d = [] /\ exists e, fst (page_step drive dd sn bt page st) = Raise e) \/
     exists t, d = [(t, RenamedTo (artifact_name sn bt page t))]).
Proof.
  unfold page_step, bind.
  pose proof (export_page_out B drive dd st) as Xo.
  destruct (export_page drive dd st) as [[[]|e] s0] eqn:Ee; cbn [snd] in Xo.
  2:{ exists []. rewrite app_nil_r. cbn [fst snd]. split; [exact Xo|].
      left. split; [reflexivity | now exists e]. }
  apply export_page_found in Ee. rewrite lift_eq.
  destruct (rename_outcome dd sn bt page (snd s0)) as [_ Rc].
  pose proof (rename_none dd sn bt page (snd s0)) as Rn.
  destruct (fst (rename_downloaded_file dd sn bt page (snd s0))) as [o|e] eqn:Er.
  - pose proof (next_page_out B drive
                  (fst s0, snd (rename_downloaded_file dd sn bt page (snd s0)))) as Yo.
    destruct (next_page drive _) as [r2 s2]. cbn [fst snd] in *.
    destruct Rc as [[[e He] _]|[[Hn _]|[_ Ho]]]; [discriminate| |].
    + rewrite (Rn Hn) in Ee. discriminate.
    + exists [(now (snd s0), RenamedTo (artifact_name sn bt page (now (snd s0))))].
      split; [|right; now eexists].
      rewrite Yo. unfold out_of in *. cbn [snd]. now rewrite Ho, Xo.
  - cbn [fst snd]. destruct Rc as [[_ Ho]|[[Hn _]|[Hn _]]]; try discriminate.
    exists []. rewrite app_nil_r. split.
    + unfold out_of in *. cbn [snd]. now rewrite Ho.
    + left. split; [reflexivity | now exists e].
Qed.

(** C6, in the form that holds: when the wait for the next-page control
    always raises, the loop ends after its first turn, whatever the fuel,
    and that turn exports once at most: it prints nothing, or the one line
    of the renaming of its page, and then the end of the navigation is
    printed.  There is exactly one export when the export of the page and
    its renaming succeeded; there is none when the export raised (no export
    link, no download): the condition on the next-page control does not
    exclude that. *)
Theorem pagination_ends_after_first_page fuel dd sn bt :
  (forall b f t, exists e,
     fst (drive (UntilClickable 30 next_control) b f t) = Raise e) ->
  forall page (st : state B), exists e s1 d,
    page_step drive dd sn bt page st = (Raise e, s1) /\
    paginate drive (S fuel) dd sn bt page st =
    Some (Ok tt, (fst s1, wrote (snd s1) [NavigationEnded e])) /\
    out_of s1 = out_of st ++ d /\
    (d = [] \/ exists t, d = [(t, RenamedTo (artifact_name sn bt page t))]) /\
    (forall st1 path st2,
       export_page drive dd st = (Ok tt, st1) ->
       lift (rename_downloaded_file dd sn bt page) st1 = (Ok (Some path), st2) ->
       path = path_join dd (artifact_name sn bt page (now (snd st1))) /\
       d = [(now (snd st1), RenamedTo (artifact_name sn bt page (now (snd st1))))] /\
       call drive (UntilClickable 30 next_control) st2 = (Raise e, s1)) /\
    (forall e0 st1,
       export_page drive dd st = (Raise e0, st1) -> e = e0 /\ s1 = st1 /\ d = []).
Proof.
  intros Hnever page st.
  destruct (one_turn_without_next B drive fuel dd sn bt Hnever page st)
    as (e & s1 & Hp & Hl).
  destruct (page_step_lines dd sn bt page st) as (d & Hd & Hc).
  rewrite Hp in Hd, Hc. cbn [fst snd] in Hd, Hc.
  exists e, s1, d. split; [exact Hp|]. split; [exact Hl|]. split; [exact Hd|].
  split; [destruct Hc as [[Hc _]|Hc]; [now left | now right]|].
  split.
  - intros st1 path st2 Hexp Hren.
    destruct (Hnever (fst st2) (fs (snd st2)) (now (snd st2))) as [e' He'].
    rewrite <- call_fst in He'. pose proof (next_page_raises B drive st2 e' He') as Hn.
    pose proof (call_out B drive (UntilClickable 30 next_control) st2) as Ho.
    unfold page_step, bind in Hp. rewrite Hexp, Hren, Hn in Hp.
    inversion Hp as [[He Hs]]. subst e'.
    destruct (call drive (UntilClickable 30 next_control) st2) as [r3 s3] eqn:Ec.
    cbn [fst snd] in *. subst r3 s3.
    pose proof (export_page_out B drive dd st) as Xo. rewrite Hexp in Xo.
    cbn [snd] in Xo.
    rewrite lift_eq in Hren.
    destruct (rename_outcome dd sn bt page (snd st1))
      as [_ [[[e1 H1] _]|[[H1 _]|[H1 H2]]]];
      inversion Hren as [[Hr Hw]]; rewrite Hr in H1; try discriminate.
    inversion H1; subst path. split; [reflexivity|]. split; [|reflexivity].
    apply (app_inv_head (out_of st)). rewrite <- Hd, Ho, <- Hw.
    unfold out_of in *. cbn [snd]. now rewrite H2, Xo.
  - intros e0 st1 Hexp. unfold page_step, bind in Hp. rewrite Hexp in Hp.
    inversion Hp; subst e0 st1. split; [reflexivity|]. split; [reflexivity|].
    pose proof (export_page_out B drive dd st) as Xo. rewrite Hexp in Xo.
    cbn [snd] in Xo. apply (app_inv_head (out_of st)).
    now rewrite <- Hd, app_nil_r.
Qed.

Lemma paginate_returns fuel dd sn bt : forall page (st : state B) r st',
  paginate drive fuel dd sn bt page st = Some (r, st') -> r = Ok tt.
Proof.
  induction fuel as [|fuel IH]; intros page st r st' H; cbn [paginate] in H;
    [discriminate|].
  destruct (page_step drive dd sn bt page st) as [[[]|e] s1].
  - eapply IH; exact H.
  - rewrite say_eq in H. now inversion H.
Qed.

Lemma emitsL_paginate_found fuel dd sn bt : forall page,
  emitsL (fun l => l <> NoFileToRename) (paginate drive fuel dd sn bt page).
Proof.
  induction fuel as [|fuel IH]; intros page st r st' H; cbn [paginate] in H;
    [discriminate|].
  destruct (page_step_lines dd sn bt page st) as (d & Eo & Hd).
  assert (Fd : Forall (fun x : N * line => snd x <> NoFileToRename) d).
  { destruct Hd as [[-> _]|[t ->]]; repeat constructor. discriminate. }
  destruct (page_step drive dd sn bt page st) as [[[]|e] s1]; cbn [snd] in Eo.
  - destruct (IH _ _ _ _ H) as (a2 & E2 & F2). exists (d ++ a2).
    unfold out_of in Eo. rewrite E2, Eo, app_assoc.
    split; [reflexivity | now apply Forall_app].
  - rewrite say_eq in H. inversion H; subst. exists (d ++ [(now (snd s1), NavigationEnded e)]).
    unfold out_of in Eo. cbn [snd out wrote stamped map]. rewrite Eo, app_assoc.
    split; [reflexivity|]. apply Forall_app. split; [exact Fd|].
    repeat constructor. discriminate.
Qed.

(** X9: inside a session the renaming step always finds its file:
    whatever the browser does, the lines a session writes never include
    "No file found to rename.", because [rename_downloaded_file] is called
    only after the wait for [data.csv] has returned. *)
Theorem session_always_finds_export fuel dd sn bt (st : state B) r st' :
  download_and_process_data drive fuel dd sn bt st = Some (r, st') ->
  exists added,
    out_of st' = out_of st ++ added /\
    Forall (fun x => snd x <> NoFileToRename) added.
Proof.
  revert st r st'.
  change (emitsL (fun l => l <> NoFileToRename)
            (download_and_process_data drive fuel dd sn bt)).
  unfold download_and_process_data. apply emitsL_try.
  - apply emitsL_bind; [apply emitsL_run, emits_setup|]. intros _.
    apply emitsL_bind; [apply emitsL_paginate_found|]. intros _.
    apply emitsL_bind.
    + apply emitsL_run, emits_lift.
      eapply emits_weaken; [|apply emits_move]. now intros l Hl ->.
    + intros _. apply emitsL_run, emits_lift.
      eapply emits_weaken; [|apply emits_combine]. now intros l Hl ->.
  - intros e. apply emitsL_bind; [now apply emitsL_say|]. intros _.
    apply emitsL_run, emits_raise.
Qed.

Lemma renamed_app a b : renamed (a ++ b) = renamed a ++ renamed b.
Proof. unfold renamed. apply flat_map_app. Qed.

Lemma renamed_quiet a : Forall (fun x => not_renamed (snd x)) a -> renamed a = [].
Proof.
  induction 1 as [|[t l] a Hl _ IH]; [reflexivity|].
  cbn [renamed flat_map snd] in *. fold (renamed a). rewrite IH.
  destruct l; try reflexivity. exfalso. now apply (Hl new_filename).
Qed.

Lemma paginate_pages fuel dd sn bt : forall page (st : state B) r st',
  paginate drive fuel dd sn bt page st = Some (r, st') ->
  exists added k,
    out_of st' = out_of st ++ added /\
    Forall2 (fun i n => exists t, n = artifact_name sn bt (page + N.of_nat i) t)
            (seq 0 k) (renamed added).
Proof.
  induction fuel as [|fuel IH]; intros page st r st' H; cbn [paginate] in H;
    [discriminate|].
  destruct (page_step_lines dd sn bt page st) as (d & Eo & Hd).
  destruct (page_step drive dd sn bt page st) as [[[]|e] s1]; cbn [fst snd] in Eo, Hd.
  - destruct Hd as [[_ [e He]]|[t ->]]; [discriminate|].
    destruct (IH _ _ _ _ H) as (a2 & k & E2 & F2).
    exists ((t, RenamedTo (artifact_name sn bt page t)) :: a2), (S k).
    split.
    + unfold out_of in *. rewrite E2, Eo, <- app_assoc. reflexivity.
    + cbn [renamed flat_map snd List.app seq]. fold (renamed a2).
      constructor.
      * exists t. f_equal. lia.
      * rewrite <- seq_shift. clear -F2.
        induction F2 as [|i n ks ns [t Ht] _ IHf]; cbn [map]; constructor;
          [|exact IHf].
        exists t. rewrite Ht. f_equal. lia.
  - rewrite say_eq in H. inversion H; subst.
    exists (d ++ [(now (snd s1), NavigationEnded e)]).
    exists (List.length (renamed d)).
    split.
    + unfold out_of in *. cbn [snd out wrote stamped map]. now rewrite Eo, app_assoc.
    + rewrite renamed_app. cbn [renamed flat_map snd List.app]. rewrite app_nil_r.
      destruct Hd as [[-> _]|[t ->]]; cbn; [constructor|].
      constructor; [|constructor]. exists t. f_equal. lia.
Qed.

Lemma session_handler_eq e (s : state B) :
  bindL (say (ErrorInDownload e)) (fun _ : unit => @run B unit (raise e)) s =
  Some (Raise e, (fst s, wrote (snd s) [ErrorInDownload e])).
Proof. unfold bindL. now rewrite say_eq. Qed.

(** The ways a session ends. *)
Lemma session_cases fuel dd sn bt (st : state B) r st' :
  download_and_process_data drive fuel dd sn bt st = Some (r, st') ->
  (exists e s0,
     setup drive sn bt st = (Raise e, s0) /\ r = Raise e /\
     st' = (fst s0, wrote (snd s0) [ErrorInDownload e])) \/
  (exists s0 s1,
     setup drive sn bt st = (Ok tt, s0) /\
     paginate drive fuel dd sn bt 1 s0 = Some (Ok tt, s1) /\
     ((exists e s2,
         lift (move_files_to_directory dd sn bt) s1 = (Raise e, s2) /\ r = Raise e /\
         st' = (fst s2, wrote (snd s2) [ErrorInDownload e])) \/
      (exists s2 e s3,
         lift (move_files_to_directory dd sn bt) s1 = (Ok tt, s2) /\
         lift (combine_csv_files dd sn bt) s2 = (Raise e, s3) /\ r = Raise e /\
         st' = (fst s3, wrote (snd s3) [ErrorInDownload e])) \/
      (exists s2,
         lift (move_files_to_directory dd sn bt) s1 = (Ok tt, s2) /\
         lift (combine_csv_files dd sn bt) s2 = (Ok tt, st') /\ r = Ok tt))).
Proof.
  intros H. unfold download_and_process_data, try_exceptL in H.
  unfold bindL at 1 in H. unfold run at 1 in H.
  destruct (setup drive sn bt st) as [[[]|e] s0].
  2:{ left. exists e, s0. rewrite session_handler_eq in H. inversion H; subst.
      now repeat split. }
  right. exists s0. unfold bindL at 1 in H.
  destruct (paginate drive fuel dd sn bt 1 s0) as [[r1 s1]|] eqn:Ep; [|discriminate].
  assert (r1 = Ok tt) by (eapply paginate_returns; exact Ep). subst r1.
  exists s1. split; [reflexivity|]. split; [reflexivity|].
  unfold bindL at 1 in H. unfold run at 1 in H.
  destruct (lift (move_files_to_directory dd sn bt) s1) as [[[]|e] s2].
  2:{ left. exists e, s2. rewrite session_handler_eq in H. inversion H; subst.
      now repeat split. }
  right. unfold run at 1 in H.
  destruct (lift (combine_csv_files dd sn bt) s2) as [[[]|e] s3] eqn:Ec.
  - right. exists s2. inversion H; subst. now repeat split.
  - left. exists s2, e, s3. rewrite session_handler_eq in H. inversion H; subst.
    now repeat split.
Qed.

Lemma setup_out sn bt (st : state B) : out_of (snd (setup drive sn bt st)) = out_of st.
Proof.
  apply (silent_of_emits (@out_of B)). apply emits_setup.
Qed.

Lemma lift_out {A : Type} (P : line -> Prop) (m : M A) (s : state B) r s' :
  emits out P m -> lift m s = (r, s') ->
  exists a, out_of s' = out_of s ++ a /\ Forall (fun x => P (snd x)) a.
Proof.
  intros Hm E. destruct (emits_lift B P m Hm s) as (a & Ea & Fa).
  rewrite E in Ea. now exists a.
Qed.

(** X10: in the session of a business-filtered query the exports are
    numbered without gap: the names of the "Renamed" lines of a session that
    ends are, in order, those of pages 1, 2, ..., k for some k. *)
Theorem session_pages_consecutive fuel dd sn bt (st : state B) r st' :
  truthy bt = true ->
  download_and_process_data drive fuel dd sn bt st = Some (r, st') ->
  exists added k,
    out_of st' = out_of st ++ added /\
    renamed added =
      map (fun i => page_filename (format_filename sn)
                      (format_filename (text_of bt)) (N.of_nat i))
          (seq 1 k).
Proof.
  intros Hbt H.
  assert (Hpages : forall s0 s1, paginate drive fuel dd sn bt 1 s0 = Some (Ok tt, s1) ->
            exists a k, out_of s1 = out_of s0 ++ a /\
              renamed a = map (fun i => page_filename (format_filename sn)
                                  (format_filename (text_of bt)) (N.of_nat i))
                              (seq 1 k)).
  { intros s0 s1 Ep. destruct (paginate_pages _ _ _ _ _ _ _ _ Ep) as (a & k & Ea & Fa).
    exists a, k. split; [exact Ea|]. rewrite <- seq_shift, map_map.
    apply Forall2_map_eq. eapply Forall2_impl; [|exact Fa].
    intros i n [t ->]. unfold artifact_name. rewrite Hbt. f_equal. lia. }
  assert (Hq : forall e (s : state B) a,
            Forall (fun x => not_renamed (snd x)) a ->
            renamed (a ++ [(now (snd s), ErrorInDownload e)]) = []).
  { intros e s a Fa. rewrite renamed_app, (renamed_quiet a Fa). reflexivity. }
  assert (Hmove : forall l, printed_by l = in_move -> not_renamed l)
    by (intros l Hl n ->; discriminate).
  assert (Hcomb : forall l, printed_by l = in_combine -> not_renamed l)
    by (intros l Hl n ->; discriminate).
  destruct (session_cases _ _ _ _ _ _ _ H)
    as [(e & s0 & Es & -> & ->)|(s0 & s1 & Es & Ep & Hrest)].
  - pose proof (setup_out sn bt st) as So. rewrite Es in So. cbn [snd] in So.
    exists [(now (snd s0), ErrorInDownload e)], 0%nat.
    unfold out_of in *. cbn [snd out wrote stamped map]. now rewrite So.
  - pose proof (setup_out sn bt st) as So. rewrite Es in So. cbn [snd] in So.
    destruct (Hpages _ _ Ep) as (a1 & k & E1 & R1).
    destruct Hrest as [(e & s2 & Em & -> & ->)|
                       [(s2 & e & s3 & Em & Ec & -> & ->)|(s2 & Em & Ec & ->)]].
    + destruct (lift_out _ _ _ _ _ (emits_weaken _ _ _ _ Hmove (emits_move dd sn bt)) Em)
        as (a2 & E2 & F2).
      exists (a1 ++ a2 ++ [(now (snd s2), ErrorInDownload e)]), k. split.
      * unfold out_of in *. cbn [snd out wrote stamped map].
        rewrite E2, E1, So. now rewrite <- !app_assoc.
      * now rewrite renamed_app, (Hq e s2 a2 F2), app_nil_r.
    + destruct (lift_out _ _ _ _ _ (emits_weaken _ _ _ _ Hmove (emits_move dd sn bt)) Em)
        as (a2 & E2 & F2).
      destruct (lift_out _ _ _ _ _ (emits_weaken _ _ _ _ Hcomb (emits_combine dd sn bt)) Ec)
        as (a3 & E3 & F3).
      exists (a1 ++ (a2 ++ a3) ++ [(now (snd s3), ErrorInDownload e)]), k. split.
      * unfold out_of in *. cbn [snd out wrote stamped map].
        rewrite E3, E2, E1, So. now rewrite <- !app_assoc.
      * rewrite renamed_app, (Hq e s3 (a2 ++ a3)), app_nil_r; [exact R1|].
        now apply Forall_app.
    + destruct (lift_out _ _ _ _ _ (emits_weaken _ _ _ _ Hmove (emits_move dd sn bt)) Em)
        as (a2 & E2 & F2).
      destruct (lift_out _ _ _ _ _ (emits_weaken _ _ _ _ Hcomb (emits_combine dd sn bt)) Ec)
        as (a3 & E3 & F3).
      exists (a1 ++ a2 ++ a3), k. split.
      * unfold out_of in *. rewrite E3, E2, E1, So. now rewrite <- !app_assoc.
      * rewrite renamed_app, (renamed_quiet (a2 ++ a3)), app_nil_r; [exact R1|].
        now apply Forall_app.
Qed.

(** X11: how a session ends.  When it returns, the query was set up, the
    page loop has ended and the last line written is the closing line of
    [combine_csv_files].  When it raises, the last line written is "Error in
    download_and_process_data" with the exception raised, which is what the
    set-up, the move or the combine step raised: nothing that happens in the
    page loop makes the session raise. *)
Theorem session_outcomes fuel dd sn bt (st : state B) r st' :
  download_and_process_data drive fuel dd sn bt st = Some (r, st') ->
  match r with
  | Ok _ =>
      fst (setup drive sn bt st) = Ok tt /\
      exists added t l,
        out_of st' = out_of st ++ added ++ [(t, l)] /\
        (l = CreatedCombined (combine_output dd sn bt) \/
         l = NoDataToCombine (snd (combine_layout dd sn bt)))
  | Raise e =>
      (exists added t,
         out_of st' = out_of st ++ added ++ [(t, ErrorInDownload e)]) /\
      (fst (setup drive sn bt st) = Raise e \/
       (exists w, fst (move_files_to_directory dd sn bt w) = Raise e) \/
       (exists w, fst (combine_csv_files dd sn bt w) = Raise e))
  end.
Proof.
  intros H.
  destruct (session_cases _ _ _ _ _ _ _ H)
    as [(e & s0 & Es & -> & ->)|(s0 & s1 & Es & Ep & Hrest)].
  - pose proof (setup_out sn bt st) as So. rewrite Es in So. cbn [snd] in So.
    split; [|left; now rewrite Es].
    exists [], (now (snd s0)). unfold out_of in *. cbn [snd out wrote stamped map].
    now rewrite So.
  - pose proof (setup_out sn bt st) as So. rewrite Es in So. cbn [snd] in So.
    destruct (emitsL_paginate B drive _ _ _ _ _ _ _ _ Ep) as (a1 & E1 & _).
    destruct Hrest as [(e & s2 & Em & -> & ->)|
                       [(s2 & e & s3 & Em & Ec & -> & ->)|(s2 & Em & Ec & ->)]].
    + destruct (lift_out _ _ _ _ _ (emits_move dd sn bt) Em) as (a2 & E2 & _).
      split.
      * exists (a1 ++ a2), (now (snd s2)). unfold out_of in *.
        cbn [snd out wrote stamped map]. rewrite E2, E1, So. now rewrite <- !app_assoc.
      * right. left. exists (snd s1). rewrite lift_eq in Em. now inversion Em.
    + destruct (lift_out _ _ _ _ _ (emits_move dd sn bt) Em) as (a2 & E2 & _).
      destruct (lift_out _ _ _ _ _ (emits_combine dd sn bt) Ec) as (a3 & E3 & _).
      split.
      * exists (a1 ++ a2 ++ a3), (now (snd s3)). unfold out_of in *.
        cbn [snd out wrote stamped map]. rewrite E3, E2, E1, So.
        now rewrite <- !app_assoc.
      * right. right. exists (snd s2). rewrite lift_eq in Ec. now inversion Ec.
    + destruct (lift_out _ _ _ _ _ (emits_move dd sn bt) Em) as (a2 & E2 & _).
      rewrite Es. split; [reflexivity|].
      rewrite lift_eq in Ec. inversion Ec as [[Hr Hs]].
      destruct (combine_csv_files dd sn bt (snd s2)) as [rc wc] eqn:Ecc.
      cbn [fst snd] in *. subst rc.
      destruct (combine_last_line _ _ _ _ _ Ecc) as (a3 & l & E3 & Hl).
      exists (a1 ++ a2 ++ a3), (now (snd s2)), l. split; [|exact Hl].
      unfold out_of in *. cbn [snd]. rewrite E3, E2, E1, So.
      now rewrite <- !app_assoc.
Qed.

End SessionLog.

(** *** The names of an unfiltered session *)

Lemma os_rename_moves a b w n :
  lookup a (fs w) = Some n -> a <> b -> parent_ok b (fs w) = true ->
  body n <> Directory -> is_dir b (fs w) = false ->
  os_rename a b w =
  (Ok tt, {| fs := store b n (unlink a (fs w)); now := now w; out := out w |}).
Proof.
  intros Ha Hab Hp Hn Hb. unfold os_rename.
  rewrite Ha, (str_eqb_neq a b Hab), Hp. cbn [negb]. unfold is_dir in Hb.
  destruct (body n) as [|d0|e0]; [congruence| |];
    destruct (lookup b (fs w)) as [[t [|df|e1]]|]; try discriminate; reflexivity.
Qed.

Lemma strftime_second t1 t2 :
  same_day t1 t2 -> (strftime t1 = strftime t2 <-> t1 / second = t2 / second).
Proof.
  intros Hd. split.
  - unfold same_day, strftime in *. intros E. cbv zeta in E.
    rewrite Hd in E. apply app_inv_head in E.
    apply time_text_inj in E; try (apply N.mod_lt; discriminate).
    rewrite (N.div_mod (t1 / second) 86400), (N.div_mod (t2 / second) 86400)
      by discriminate.
    now rewrite Hd, E.
  - intros E. unfold strftime. cbv zeta. now rewrite E.
Qed.

Section StampedNames.

Variable B : Type.
Variable drive : action -> B -> filesystem -> N -> result elem * (B * filesystem * N).

Hypothesis clock_mono : forall a b f t, t <= snd (snd (drive a b f t)).
Hypothesis sleep_takes :
  forall n b f t, t + n * second <= snd (snd (drive (Sleep n) b f t)).

(** C9, with the conditions it needs: for a query without business type,
    on a clock that does not go back and on which [time.sleep(n)] takes [n]
    seconds at least.  The renaming step gives the export the name [{state}_{timestamp}.csv] in
    the download directory, the timestamp being the instant of the renaming:
    the file is under that path afterwards, [data.csv] is gone and the name
    is printed.  On one day two instants get the same timestamp exactly when
    they are in the same second.  In a session every name printed is the one
    of its instant, two renamings are eleven seconds apart at least, and so
    on one day they give two names and two paths. *)
Theorem stamped_names_distinct dd sn bt :
  truthy bt = false ->
  (forall page w n,
     lookup (path_join dd (lit "data.csv")) (fs w) = Some n ->
     body n <> Directory ->
     parent_ok (path_join dd (stamp_filename (format_filename sn) (strftime (now w))))
               (fs w) = true ->
     is_dir (path_join dd (stamp_filename (format_filename sn) (strftime (now w))))
            (fs w) = false ->
     rename_downloaded_file dd sn bt page w =
     (Ok (Some (path_join dd (stamp_filename (format_filename sn) (strftime (now w))))),
      {| fs := store (path_join dd (stamp_filename (format_filename sn)
                                      (strftime (now w)))) n
                 (unlink (path_join dd (lit "data.csv")) (fs w));
         now := now w;
         out := out w ++ [(now w, RenamedTo (stamp_filename (format_filename sn)
                                               (strftime (now w))))] |})) /\
  (forall t1 t2, same_day t1 t2 ->
     (strftime t1 = strftime t2 <-> t1 / second = t2 / second)) /\
  (forall fuel (st : state B) r st',
     download_and_process_data drive fuel dd sn bt st = Some (r, st') ->
     exists added,
       out_of st' = out_of st ++ added /\
       (forall t n, In (t, RenamedTo n) added ->
          n = stamp_filename (format_filename sn) (strftime t)) /\
       forall l1 t1 n1 l2 t2 n2 l3,
         added = l1 ++ (t1, RenamedTo n1) :: l2 ++ (t2, RenamedTo n2) :: l3 ->
         t1 + 11 * second <= t2 /\
         (same_day t1 t2 -> n1 <> n2 /\ path_join dd n1 <> path_join dd n2)).
Proof.
  intros Hbt. split; [|split; [exact strftime_second|]].
  - intros page w n Hl Hn Hp Hd.
    pose proof (artifact_path_fresh dd sn bt page (now w)) as Hf.
    unfold artifact_name in Hf. rewrite Hbt in Hf.
    unfold rename_downloaded_file, exists_path. rewrite Hl, Hbt. cbv zeta.
    unfold bind.
    rewrite (os_rename_moves _ _ w n Hl (fun E => Hf (eq_sym E)) Hp Hn Hd).
    reflexivity.
  - intros fuel st r st' H.
    destruct (session_spaced B drive clock_mono sleep_takes _ _ _ _ _ _ _ Hbt H)
      as (added & Eo & Sp).
    exists added. split; [exact Eo|]. split.
    + intros t n Hin. apply in_split in Hin. destruct Hin as (l1 & l2 & ->).
      apply spaced_in in Sp. now destruct Sp as (_ & Hn & _).
    + intros l1 t1 n1 l2 t2 n2 l3 ->. apply spaced_split in Sp.
      destruct Sp as (-> & -> & Ht). split; [exact Ht|]. intros Hday. split.
      * intros E. apply stamp_filename_inj in E.
        revert E. apply strftime_distinct; [assumption | unfold second in *; lia].
      * intros E. apply stamp_path_inj in E; [|apply format_filename_no_sep].
        revert E. apply strftime_distinct; [assumption | unfold second in *; lia].
Qed.

End StampedNames.

(** *** What the merges can raise *)

Lemma In_lookup q n fs0 : In (q, n) fs0 -> exists_path q fs0 = true.
Proof.
  unfold exists_path. induction fs0 as [|[r m] fs0 IH]; [contradiction|].
  intros [H|H]; cbn [lookup].
  - inversion H; subst. now rewrite str_eqb_refl.
  - destruct (str_eqb q r); [reflexivity | now apply IH].
Qed.

Lemma child_name_join d q name : child_name d q = Some name -> path_join d name = q.
Proof.
  unfold child_name.
  destruct (strip_prefix _ q) as [[|c r]|] eqn:E; try discriminate.
  destruct (existsb (N.eqb sep) (c :: r)) eqn:Ex; [discriminate|].
  intros H. inversion H; subst name. clear H.
  apply strip_prefix_Some in E.
  cbn [existsb] in Ex. apply orb_false_iff in Ex. destruct Ex as [Ex _].
  rewrite N.eqb_sym in Ex. unfold path_join. rewrite Ex.
  destruct d as [|x d]; [exact (eq_sym E)|].
  destruct (ends_with_sep (x :: d)); [exact (eq_sym E)|].
  rewrite E, <- app_assoc. reflexivity.
Qed.

Lemma listdir_exists d name fs0 :
  In name (listdir d fs0) -> exists_path (path_join d name) fs0 = true.
Proof.
  unfold listdir. destruct (is_dir d fs0); [|contradiction].
  intros H. apply in_flat_map in H. destruct H as ([q n] & Hq & H). cbn [fst] in H.
  destruct (child_name d q) as [m|] eqn:E; [|contradiction].
  destruct H as [->|[]]. apply child_name_join in E. rewrite E.
  eapply In_lookup; exact Hq.
Qed.

(** What [glob] returns for a pattern whose last component has a wildcard
    exists. *)
Lemma glob_fuel_exists fuel pathname fs0 x :
  has_magic (basename pathname) = true ->
  In x (glob_fuel fuel pathname fs0) -> exists_path x fs0 = true.
Proof.
  intros Hb. destruct fuel as [|fuel]; [contradiction|]. cbn [glob_fuel].
  destruct (negb (has_magic pathname)).
  - destruct (exists_path pathname fs0) eqn:E; [|contradiction].
    intros [<-|[]]. exact E.
  - unfold basename in Hb. destruct (path_split pathname) as [dir base].
    cbn [snd] in Hb. rewrite Hb. intros H. apply in_flat_map in H.
    destruct H as (d & _ & H). apply in_map_iff in H. destruct H as (name & <- & H).
    unfold glob1 in H. apply filter_In in H. destruct H as [H _].
    now apply listdir_exists.
Qed.

Lemma combine_glob_exists dd st bt fs0 x :
  In x (glob (combine_pattern dd st bt) fs0) -> exists_path x fs0 = true.
Proof.
  unfold combine_pattern, glob. rewrite combine_layout_stem.
  destruct (query_pattern_facts st bt) as (Hm & Hf & _). cbv zeta in Hm, Hf.
  apply glob_fuel_exists. now rewrite basename_join_free.
Qed.

Lemma mapM_raise_inv {A C : Type} (f : A -> M C) l w e w' :
  (forall x w0, snd (f x w0) = w0) ->
  mapM f l w = (Raise e, w') ->
  w' = w /\ exists x, In x l /\ f x w = (Raise e, w).
Proof.
  intros Hf. revert w'. induction l as [|x l IH]; intros w' H; [discriminate|].
  cbn [mapM] in H. unfold bind at 1 in H.
  pose proof (Hf x w) as Hx.
  destruct (f x w) as [[y|e1] w1] eqn:E; cbn [snd] in Hx; subst w1.
  - unfold bind at 1 in H.
    destruct (mapM f l w) as [[ys|e2] w2] eqn:E2; [discriminate|].
    inversion H; subst. destruct (IH w' eq_refl) as (-> & z & Hz & Ez).
    split; [reflexivity|]. exists z. split; [now right | exact Ez].
  - inversion H; subst. split; [reflexivity|]. exists x. split; [now left | exact E].
Qed.

Lemma to_csv_raise_why p df w e w' :
  to_csv p df w = (Raise e, w') ->
  exn_cls e = OSError /\ (is_dir p (fs w) = true \/ parent_ok p (fs w) = false).
Proof.
  unfold to_csv. destruct (is_dir p (fs w)).
  - inversion 1; subst. split; [reflexivity | now left].
  - destruct (parent_ok p (fs w)); [discriminate|].
    inversion 1; subst. split; [reflexivity | now right].
Qed.

(** X12: what [combine_csv_files] raises comes from its sort or from its
    write.  When it raises [e], either the key of the sort raised [e] on a
    matched path, before anything was read, printed or written (for a
    business-filtered query the key is the page number: the text after the
    last "page_" is not an integer and [e] is a [ValueError]; otherwise the
    key is [os.path.getmtime]); or the inputs were sorted and read, the table
    is not empty and it is the write of the output, [to_csv], that raised
    [e], after the lines of the unreadable inputs were printed.  What
    [read_csv] raises never leaves the function. *)
Theorem combine_raises_only dd st bt w e w' :
  combine_csv_files dd st bt w = (Raise e, w') ->
  (w' = w /\
   exists x, In x (glob (combine_pattern dd st bt) (fs w)) /\
     if truthy bt
     then page_key x w = (Raise e, w) /\ exn_cls e = ValueError /\
          py_int (page_segment x) = None
     else getmtime x w = (Raise e, w)) \/
  (exists files,
     combine_inputs dd st bt w = (Ok files, w) /\
     df_empty (merged (fs w) files empty_frame) = false /\
     to_csv (combine_output dd st bt) (merged (fs w) files empty_frame)
       (wrote w (failures (fs w) files)) = (Raise e, w')).
Proof.
  rewrite combine_csv_files_body.
  pose proof (combine_inputs_world dd st bt w) as Hw.
  destruct (combine_inputs dd st bt w) as [[files|e1] w1] eqn:Ei; cbn [snd] in Hw;
    subst w1.
  - cbv zeta. destruct (df_empty (merged (fs w) files empty_frame)) eqn:Ed;
      cbn [negb]; [discriminate|].
    unfold bind.
    destruct (to_csv (combine_output dd st bt) (merged (fs w) files empty_frame)
                (wrote w (failures (fs w) files))) as [[[]|e2] w2] eqn:Et;
      [discriminate|].
    intros H. inversion H; subst e2 w2. clear H.
    right. exists files. split; [reflexivity|]. split; [exact Ed | exact Et].
  - intros H. inversion H; subst e1 w'. clear H. left. split; [reflexivity|].
    unfold combine_inputs in Ei. unfold combine_pattern.
    destruct (combine_layout dd st bt) as [[d pat] o].
    unfold bind at 1, glob_glob in Ei.
    destruct (truthy bt) eqn:Hbt; unfold sort_key, bind in Ei.
    + destruct (mapM page_key (glob (path_join d pat) (fs w)) w) as [[ks|e1] w1] eqn:Em;
        [discriminate|].
      inversion Ei; subst e1 w1. clear Ei.
      apply mapM_raise_inv in Em; [|apply page_key_world].
      destruct Em as (_ & x & Hx & Ex). exists x. split; [exact Hx|].
      split; [exact Ex|].
      unfold page_key in Ex.
      destruct (py_int (page_segment x)) eqn:Ep; [discriminate|].
      inversion Ex; subst e. now split.
    + destruct (mapM getmtime (glob (path_join d pat) (fs w)) w) as [[ks|e1] w1] eqn:Em;
        [discriminate|].
      inversion Ei; subst e1 w1. clear Ei.
      apply mapM_raise_inv in Em; [|apply getmtime_world].
      destruct Em as (_ & x & Hx & Ex). exists x. now split.
Qed.

Lemma consolidate_raises_why dd st w e w' :
  consolidate_state_files dd st w = (Raise e, w') ->
  exn_cls e = OSError /\ fs w' = fs w /\
  (is_dir (consolidate_output dd st) (fs w) = true \/
   parent_ok (consolidate_output dd st) (fs w) = false).
Proof.
  rewrite consolidate_state_files_body.
  destruct (glob (consolidate_pattern dd st) (fs w)) as [|f folders]; [discriminate|].
  cbv zeta. destruct (negb (df_empty _)); [|discriminate].
  unfold bind.
  match goal with |- context [to_csv ?p ?df ?w0] =>
    destruct (to_csv p df w0) as [[[]|e2] w2] eqn:Et end; [discriminate|].
  intros H. inversion H; subst e2 w2. clear H.
  pose proof (to_csv_raise _ _ _ _ _ Et) as Hs.
  apply to_csv_raise_why in Et. destruct Et as [Hc Hwhy]. subst w'.
  now repeat split.
Qed.

Lemma consolidate_raises_write dd st w e w' :
  consolidate_state_files dd st w = (Raise e, w') ->
  exists df w1,
    df_empty df = false /\ fs w1 = fs w /\
    to_csv (consolidate_output dd st) df w1 = (Raise e, w').
Proof.
  rewrite consolidate_state_files_body.
  destruct (glob (consolidate_pattern dd st) (fs w)) as [|f folders]; [discriminate|].
  cbv zeta. destruct (df_empty _) eqn:Ed; cbn [negb]; [discriminate|].
  unfold bind.
  match goal with |- context [to_csv ?p ?df ?w0] =>
    destruct (to_csv p df w0) as [[[]|e2] w2] eqn:Et end; [discriminate|].
  intros H. inversion H; subst e2 w2. clear H.
  eexists. eexists. split; [exact Ed|]. split; [|exact Et]. reflexivity.
Qed.

Section Loops.

Variable B : Type.
Variable drive : action -> B -> filesystem -> N -> result elem * (B * filesystem * N).

Lemma for_business_types_returns fuel dd sn types : forall (st : state B) r st',
  for_business_types drive fuel dd sn types st = Some (r, st') -> r = Ok tt.
Proof.
  induction types as [|bt types IH]; intros st r st' H.
  - now inversion H.
  - cbn [for_business_types] in H. unfold bindL at 1 in H.
    destruct (skipped sn bt).
    + rewrite say_eq in H. eapply IH; exact H.
    + destruct (attempt_pair drive fuel dd sn bt st) as [[r1 s1]|] eqn:E;
        [|discriminate].
      destruct (attempt_pair_verdict _ _ _ _ _ _ _ _ _ E) as [-> _].
      eapply IH; exact H.
Qed.

Lemma for_other_states_returns fuel dd states : forall (st : state B) r st',
  for_other_states drive fuel dd states st = Some (r, st') -> r = Ok tt.
Proof.
  induction states as [|sn states IH]; intros st r st' H.
  - now inversion H.
  - cbn [for_other_states] in H. unfold bindL at 1 in H. rewrite say_eq in H.
    unfold bindL at 1 in H.
    match type of H with context [attempt_state drive fuel dd sn ?s0] =>
      destruct (attempt_state drive fuel dd sn s0) as [[r1 s1]|] eqn:E end;
      [|discriminate].
    destruct (attempt_state_verdict _ _ _ _ _ _ _ _ E) as [-> _].
    eapply IH; exact H.
Qed.

Lemma for_filtered_states_raises fuel dd types states : forall (st : state B) e st',
  for_filtered_states drive fuel dd states types st = Some (Raise e, st') ->
  exists sn w, In sn states /\
    consolidate_state_files dd sn w = (Raise e, snd st').
Proof.
  induction states as [|sn states IH]; intros st e st' H.
  - discriminate.
  - cbn [for_filtered_states] in H. unfold bindL at 1 in H. rewrite say_eq in H.
    unfold bindL at 1 in H.
    match type of H with context [for_business_types drive fuel dd sn types ?s0] =>
      destruct (for_business_types drive fuel dd sn types s0) as [[r1 s1]|] eqn:E end;
      [|discriminate].
    apply for_business_types_returns in E. subst r1.
    unfold bindL at 1 in H. rewrite say_eq in H.
    unfold bindL at 1 in H. unfold run at 1 in H. rewrite lift_eq in H.
    match type of H with context [consolidate_state_files dd sn ?w0] =>
      destruct (consolidate_state_files dd sn w0) as [[[]|e1] w1] eqn:Ec end;
      cbn [fst snd] in H.
    + destruct (IH _ _ _ H) as (s' & w & Hin & Hc).
      exists s', w. split; [now right | exact Hc].
    + inversion H; subst. eexists sn, _. split; [now left | exact Ec].
Qed.

(** X13: what escapes the loops of [main].  The loop over the states
    without business filter never raises.  The loop over the business-filtered
    states raises only what [consolidate_state_files] raised for one of the
    states, and that is what the write of the consolidated file, [to_csv],
    raised on a table that is not empty: no failure of a query leaves its
    [try], but a failure of that write ends the loop. *)
Theorem main_loops_raise_only fuel dd :
  (forall states (st : state B) r st',
     for_other_states drive fuel dd states st = Some (r, st') -> r = Ok tt) /\
  (forall states types (st : state B) e st',
     for_filtered_states drive fuel dd states types st = Some (Raise e, st') ->
     exists sn w df w1,
       In sn states /\
       consolidate_state_files dd sn w = (Raise e, snd st') /\
       df_empty df = false /\ fs w1 = fs w /\
       to_csv (consolidate_output dd sn) df w1 = (Raise e, snd st')).
Proof.
  split.
  - intros states. apply for_other_states_returns.
  - intros states types st e st' H.
    apply for_filtered_states_raises in H. destruct H as (sn & w & Hin & Hc).
    destruct (consolidate_raises_write _ _ _ _ _ Hc) as (df & w1 & Hd & Hf & Ht).
    exists sn, w, df, w1. now repeat split.
Qed.

End Loops.

(** *** Running a merge again *)

Lemma mapM_fst_ext {A C : Type} (f : A -> M C) l w w' :
  (forall x w0, snd (f x w0) = w0) ->
  (forall x, In x l -> fst (f x w) = fst (f x w')) ->
  fst (mapM f l w) = fst (mapM f l w').
Proof.
  intros Hs. induction l as [|x l IH]; intros Hf; [reflexivity|].
  cbn [mapM]. unfold bind at 1 3.
  pose proof (Hs x w) as H1. pose proof (Hs x w') as H2.
  pose proof (Hf x (or_introl eq_refl)) as H3.
  destruct (f x w) as [r1 w1]. destruct (f x w') as [r2 w2].
  cbn [fst snd] in *. subst w1 w2 r2.
  destruct r1 as [y|e]; [|reflexivity].
  unfold bind.
  assert (IH' := IH (fun z Hz => Hf z (or_intror Hz))).
  destruct (mapM f l w) as [[ys|e] w3]; destruct (mapM f l w') as [[ys'|e'] w3'];
    cbn [fst] in IH'; try discriminate; now inversion IH'.
Qed.

Lemma sort_key_fst_ext {K : Type} (before : K -> K -> bool) (key : str -> M K) l w w' :
  (forall x w0, snd (key x w0) = w0) ->
  (forall x, In x l -> fst (key x w) = fst (key x w')) ->
  fst (sort_key before key l w) = fst (sort_key before key l w').
Proof.
  intros Hs Hf. unfold sort_key, bind.
  pose proof (mapM_fst_ext key l w w' Hs Hf) as H.
  destruct (mapM key l w) as [[ks|e] w1]; destruct (mapM key l w') as [[ks'|e'] w1'];
    cbn [fst] in H; try discriminate; now inversion H.
Qed.

Lemma combine_inputs_fs dd st bt w :
  combine_inputs dd st bt w = (files_read dd st bt (fs w), w).
Proof.
  pose proof (combine_inputs_world dd st bt w) as Hw.
  assert (Hf : fst (combine_inputs dd st bt w) = files_read dd st bt (fs w)).
  { unfold files_read, combine_inputs.
    destruct (combine_layout dd st bt) as [[d pat] o].
    unfold bind, glob_glob. cbn [fs].
    destruct (truthy bt); apply sort_key_fst_ext.
    - apply page_key_world.
    - intros x _. unfold page_key. now destruct (py_int (page_segment x)).
    - apply getmtime_world.
    - intros x _. unfold getmtime. cbn [fs]. now destruct (lookup x (fs w)). }
  destruct (combine_inputs dd st bt w) as [r w1]. cbn [fst snd] in *. now subst.
Qed.

Lemma combine_fs dd st bt w :
  fs (snd (combine_csv_files dd st bt w)) = combine_effect dd st bt (fs w) (now w).
Proof.
  rewrite combine_csv_files_body, combine_inputs_fs. unfold combine_effect.
  destruct (files_read dd st bt (fs w)) as [files|e]; [|reflexivity].
  cbv zeta. destruct (negb (df_empty (merged (fs w) files empty_frame)));
    cbn [andb]; [|reflexivity].
  unfold bind, to_csv. cbn [fs wrote now].
  destruct (is_dir (combine_output dd st bt) (fs w)); cbn [negb]; [reflexivity|].
  now destruct (parent_ok (combine_output dd st bt) (fs w)).
Qed.

Lemma contents_store_again p n m fs0 :
  body n = body m -> contents (store p n (store p m fs0)) = contents (store p m fs0).
Proof.
  intros Hb. unfold contents. induction fs0 as [|[q k] fs0 IH]; cbn [store].
  - cbn [store map fst snd]. rewrite str_eqb_refl. cbn [map fst snd]. now rewrite Hb.
  - destruct (str_eqb p q) eqn:E; cbn [store]; rewrite E; cbn [map fst snd].
    + now rewrite Hb.
    + now rewrite IH.
Qed.

Lemma table_at_store_other p q n fs0 :
  p <> q -> table_at (store q n fs0) p = table_at fs0 p.
Proof.
  intros H. unfold table_at, read_csv. cbn [fs].
  rewrite lookup_store_other by assumption.
  destruct (lookup p fs0) as [[t [|df|e]]|]; try reflexivity.
  now destruct (columns df).
Qed.

Lemma merged_ext fs1 fs2 files : forall acc,
  (forall p, In p files -> table_at fs1 p = table_at fs2 p) ->
  merged fs1 files acc = merged fs2 files acc.
Proof.
  induction files as [|p files IH]; intros acc H; [reflexivity|].
  rewrite !merged_cons. rewrite (H p (or_introl eq_refl)).
  destruct (table_at fs2 p); apply IH; intros q Hq; apply H; now right.
Qed.

Lemma names_in_app d a b : names_in d (a ++ b) = names_in d a ++ names_in d b.
Proof. unfold names_in. apply flat_map_app. Qed.

(** The listing of a directory after a write elsewhere in the tree. *)
Lemma listdir_store d q n fs0 :
  d <> q ->
  listdir d (store q n fs0) =
  listdir d fs0 ++
  (if is_dir d fs0 && negb (exists_path q fs0) then names_in d [q] else []).
Proof.
  intros H. rewrite !listdir_names_in, is_dir_store_other, store_paths by assumption.
  destruct (is_dir d fs0); [|reflexivity]. cbn [andb].
  destruct (exists_path q fs0); cbn [negb]; [now rewrite app_nil_r|].
  apply names_in_app.
Qed.

Lemma path_longer d b : d ++ sep :: b <> d.
Proof.
  intros H. apply (f_equal (@List.length char)) in H.
  rewrite length_app in H. cbn [List.length] in H. lia.
Qed.

(** The files matched in a plain directory after a file was written into
    it: one more when the file is new and its name matches. *)
Lemma glob_store d pat name n fs0 :
  plain_dir d -> has_magic pat = true -> sep_free pat ->
  sep_free name -> name <> [] ->
  glob (d ++ sep :: pat) (store (d ++ sep :: name) n fs0) =
  glob (d ++ sep :: pat) fs0 ++
  (if is_dir d fs0 && negb (exists_path (d ++ sep :: name) fs0) && glob_match pat name
   then [d ++ sep :: name] else []).
Proof.
  intros Hd Hm Hp Hn Hne. rewrite !glob_plain by assumption.
  rewrite listdir_store by (intros E; symmetry in E; now apply path_longer in E).
  rewrite filter_app, map_app. f_equal.
  destruct (is_dir d fs0 && negb (exists_path (d ++ sep :: name) fs0)); [|reflexivity].
  cbn [andb]. unfold names_in. cbn [flat_map]. rewrite app_nil_r.
  destruct Hd as (Hd1 & Hd2 & _). destruct name as [|c r]; [congruence|].
  rewrite child_name_plain by assumption. cbn [filter].
  now destruct (glob_match pat (c :: r)).
Qed.

Lemma stem_output_match st bt :
  glob_match ((query_stem st bt ++ (if truthy bt then lit "_page_" else lit "_"))
              ++ lit "*.csv")
             (query_stem st bt ++ lit "_combined.csv")
  = negb (truthy bt).
Proof.
  unfold glob_match.
  assert (Hl : literal (query_stem st bt ++ lit "_")).
  { apply literal_app; [apply tame_literal, query_stem_tame|].
    apply lit_literal_check; reflexivity. }
  destruct (truthy bt) eqn:Hbt; cbn [negb].
  - apply andb_false_iff. right.
    change (lit "_page_") with (lit "_" ++ lit "page_").
    change (lit "_combined.csv") with (lit "_" ++ lit "combined.csv").
    rewrite !app_assoc, <- (app_assoc _ (lit "page_")).
    now rewrite fnmatch_prefix.
  - apply andb_true_iff. split.
    + apply orb_true_iff. right. apply negb_true_iff.
      unfold query_stem. rewrite Hbt. apply name_not_hidden.
    + change (lit "_combined.csv") with (lit "_" ++ lit "combined.csv").
      rewrite !app_assoc. now rewrite fnmatch_prefix.
Qed.

Lemma query_stem_filtered st bt : truthy bt = true -> query_stem st bt <> [].
Proof.
  intros Hbt. unfold query_stem. rewrite Hbt. intros H.
  apply app_eq_nil in H. destruct H as [_ H]. discriminate.
Qed.

Lemma output_name_tame st bt : tame (query_stem st bt ++ lit "_combined.csv").
Proof.
  apply tame_app; [apply query_stem_tame | apply lit_tame_check; reflexivity].
Qed.

(** The paths of a query in a plain download directory. *)
Lemma query_paths dd st bt :
  plain_dir dd -> query_stem st bt <> [] ->
  plain_dir (path_join dd (query_stem st bt)) /\
  combine_pattern dd st bt =
    path_join dd (query_stem st bt) ++ sep ::
    (query_stem st bt ++ (if truthy bt then lit "_page_" else lit "_")) ++ lit "*.csv" /\
  combine_output dd st bt =
    path_join dd (query_stem st bt) ++ sep :: query_stem st bt ++ lit "_combined.csv".
Proof.
  intros Hdd Hs.
  assert (Hd : plain_dir (path_join dd (query_stem st bt)))
    by (apply plain_join; [assumption | apply query_stem_tame | assumption]).
  split; [exact Hd|]. destruct Hd as (Hd1 & Hd2 & _).
  destruct (query_pattern_facts st bt) as (_ & Hp & Hpn). cbv zeta in Hp, Hpn.
  unfold combine_pattern, combine_output. rewrite combine_layout_stem.
  split; apply path_join_free; try assumption.
  - apply tame_sep_free, output_name_tame.
  - intros H. apply app_eq_nil in H. destruct H as [_ H]. discriminate.
Qed.

Lemma files_read_perm dd st bt fs0 files :
  files_read dd st bt fs0 = Ok files ->
  Permutation (glob (combine_pattern dd st bt) fs0) files.
Proof.
  intros H.
  pose proof (combine_inputs_fs dd st bt {| fs := fs0; now := 0; out := [] |}) as Hc.
  cbn [fs] in Hc. rewrite H in Hc. clear H. revert Hc.
  unfold combine_inputs, combine_pattern.
  destruct (combine_layout dd st bt) as [[d pat] o].
  unfold bind, glob_glob. cbn [fs]. destruct (truthy bt); intros H.
  - apply (sort_key_inv Z.ltb page_key page_no) in H.
    + destruct H as (_ & -> & _). apply sort_by_perm.
    + apply page_key_world.
    + intros x y w' E. apply page_key_inv in E. tauto.
  - apply (sort_key_inv (fun a b => b <? a) getmtime (mtime_at fs0)) in H.
    + destruct H as (_ & -> & _). apply sort_by_perm.
    + apply getmtime_world.
    + intros x y w' E. now apply getmtime_inv in E.
Qed.

Lemma files_read_glob dd st bt fs1 fs2 :
  truthy bt = true ->
  glob (combine_pattern dd st bt) fs1 = glob (combine_pattern dd st bt) fs2 ->
  files_read dd st bt fs1 = files_read dd st bt fs2.
Proof.
  unfold files_read, combine_inputs, combine_pattern.
  destruct (combine_layout dd st bt) as [[d pat] o].
  unfold bind, glob_glob. cbn [fs]. intros Hbt ->. rewrite Hbt.
  apply sort_key_fst_ext; [apply page_key_world|].
  intros x _. unfold page_key. now destruct (py_int (page_segment x)).
Qed.

(** Without business type the inputs are always found and sorted. *)
Lemma files_read_unfiltered dd st bt fs0 :
  truthy bt = false -> exists files, files_read dd st bt fs0 = Ok files.
Proof.
  intros Hbt. destruct (files_read dd st bt fs0) as [files|e] eqn:E; [now exists files|].
  exfalso.
  pose proof (combine_inputs_fs dd st bt {| fs := fs0; now := 0; out := [] |}) as Hc.
  cbn [fs] in Hc. rewrite E in Hc. clear E.
  pose proof (combine_glob_exists dd st bt fs0) as Hex.
  unfold combine_inputs, combine_pattern in *.
  destruct (combine_layout dd st bt) as [[d pat] o].
  unfold bind at 1, glob_glob in Hc. cbn [fs] in Hc. rewrite Hbt in Hc.
  unfold sort_key, bind in Hc.
  destruct (mapM getmtime (glob (path_join d pat) fs0) _) as [[ks|e1] w1] eqn:Em;
    [discriminate|].
  apply mapM_raise_inv in Em; [|apply getmtime_world].
  destruct Em as (_ & x & Hx & Ex). apply Hex in Hx.
  unfold getmtime in Ex. cbn [fs] in Ex. unfold exists_path in Hx.
  destruct (lookup x fs0); discriminate.
Qed.

Lemma combine_effect_cases dd st bt fs0 :
  (forall t, combine_effect dd st bt fs0 t = fs0) \/
  exists files,
    files_read dd st bt fs0 = Ok files /\
    df_empty (merged fs0 files empty_frame) = false /\
    is_dir (combine_output dd st bt) fs0 = false /\
    parent_ok (combine_output dd st bt) fs0 = true /\
    forall t, combine_effect dd st bt fs0 t =
              store (combine_output dd st bt)
                    {| mtime := t; body := Csv (merged fs0 files empty_frame) |} fs0.
Proof.
  unfold combine_effect.
  destruct (files_read dd st bt fs0) as [files|e]; [|now left]. cbv zeta.
  destruct (df_empty (merged fs0 files empty_frame)) eqn:E1; [now left|].
  destruct (is_dir (combine_output dd st bt) fs0) eqn:E2; [now left|].
  destruct (parent_ok (combine_output dd st bt) fs0) eqn:E3; [|now left].
  right. exists files. now repeat split.
Qed.

Lemma glob_names d pat fs0 p :
  plain_dir d -> has_magic pat = true -> sep_free pat ->
  In p (glob (d ++ sep :: pat) fs0) ->
  exists name, p = d ++ sep :: name /\ glob_match pat name = true.
Proof.
  intros Hd Hm Hp. rewrite glob_plain by assumption. intros H.
  apply in_map_iff in H. destruct H as (name & <- & H).
  apply filter_In in H. exists name. split; [reflexivity | apply H].
Qed.

Lemma dirname_plain d name :
  d <> [] -> ends_with_sep d = false -> sep_free name -> dirname (d ++ sep :: name) = d.
Proof. intros. unfold dirname. now rewrite path_split_plain. Qed.

Lemma merged_columns fs0 files : forall acc,
  columns acc <> [] -> columns (merged fs0 files acc) <> [].
Proof.
  induction files as [|p files IH]; intros acc H; [exact H|].
  rewrite merged_cons. destruct (table_at fs0 p) as [df|e]; apply IH; [|exact H].
  unfold concat. cbn [columns]. intros E. apply app_eq_nil in E. tauto.
Qed.

Lemma table_at_columns fs0 p df : table_at fs0 p = Ok df -> columns df <> [].
Proof.
  unfold table_at, read_csv. cbn [fs].
  destruct (lookup p fs0) as [[t [|d|e]]|]; try discriminate.
  destruct (columns d) eqn:E; [discriminate|]. cbn [fst]. intros H.
  inversion H; subst. now rewrite E.
Qed.

Lemma merged_columns_in fs0 files p df : forall acc,
  In p files -> table_at fs0 p = Ok df -> columns (merged fs0 files acc) <> [].
Proof.
  induction files as [|q files IH]; intros acc Hin Hp; [contradiction|].
  rewrite merged_cons. destruct Hin as [->|Hin].
  - rewrite Hp. apply merged_columns. unfold concat. cbn [columns].
    pose proof (table_at_columns _ _ _ Hp) as Hc.
    destruct (columns df) as [|c0 cs0]; [congruence|].
    destruct (columns acc) as [|c cs]; [|discriminate].
    cbn [List.app filter mem existsb negb]. discriminate.
  - destruct (table_at fs0 q); now apply IH.
Qed.

Lemma df_empty_false df : df_empty df = false -> columns df <> [] /\ rows df <> [].
Proof.
  unfold df_empty. destruct (columns df); [discriminate|].
  destruct (rows df); [discriminate|]. split; discriminate.
Qed.

Lemma table_at_stored p t df fs0 :
  columns df <> [] -> table_at (store p {| mtime := t; body := Csv df |} fs0) p = Ok df.
Proof.
  intros H. unfold table_at, read_csv. cbn [fs]. rewrite lookup_store.
  destruct (columns df); [congruence | reflexivity].
Qed.

(** X14: the business-filtered merge is stable under a second run.  In a
    plain download directory, on the files a run of [combine_csv_files] has
    left, a further run changes no content: the output it has written is
    not among its inputs, so it is written again with the same table, and a
    run that wrote nothing writes nothing again. *)
Theorem recombine_filtered_stable dd st bt w w' :
  plain_dir dd -> truthy bt = true ->
  fs w' = fs (snd (combine_csv_files dd st bt w)) ->
  contents (fs (snd (combine_csv_files dd st bt w'))) = contents (fs w').
Proof.
  intros Hdd Hbt Hfs. rewrite combine_fs, Hfs, combine_fs.
  generalize (now w') (now w) (fs w). clear w w' Hfs. intros t2 t1 F.
  destruct (combine_effect_cases dd st bt F)
    as [E1|(files & Ef & Ene & Edir & Epar & E1)]; [now rewrite !E1|].
  rewrite E1.
  destruct (query_paths dd st bt Hdd (query_stem_filtered st bt Hbt))
    as (HD & Hpat & Hout).
  destruct (query_pattern_facts st bt) as (Hm & Hp & _). cbv zeta in Hm, Hp.
  pose proof (stem_output_match st bt) as Hno.
  replace (negb (truthy bt)) with false in Hno by (now rewrite Hbt).
  pose proof (tame_sep_free _ (output_name_tame st bt)) as Hon.
  assert (Honn : query_stem st bt ++ lit "_combined.csv" <> []).
  { intros H. apply app_eq_nil in H. destruct H as [_ H]. discriminate. }
  set (n1 := {| mtime := t1; body := Csv (merged F files empty_frame) |}) in *.
  set (F1 := store (combine_output dd st bt) n1 F).
  assert (Hglob : glob (combine_pattern dd st bt) F1 = glob (combine_pattern dd st bt) F).
  { unfold F1. rewrite Hpat, Hout. rewrite glob_store by assumption.
    rewrite Hno, andb_false_r. apply app_nil_r. }
  assert (Hfiles : files_read dd st bt F1 = Ok files).
  { rewrite <- Ef. now apply files_read_glob. }
  assert (Hother : forall p, In p files -> p <> combine_output dd st bt).
  { intros p Hin ->. apply files_read_perm in Ef.
    apply (Permutation_in _ (Permutation_sym Ef)) in Hin.
    rewrite Hpat, Hout in Hin. apply glob_names in Hin; try assumption.
    destruct Hin as (name & E & Hmatch). apply app_inv_head in E.
    inversion E; subst name. congruence. }
  assert (Hmerged : merged F1 files empty_frame = merged F files empty_frame).
  { apply merged_ext. intros p Hin. apply table_at_store_other. now apply Hother. }
  assert (Hdir1 : is_dir (combine_output dd st bt) F1 = false).
  { unfold F1, is_dir. now rewrite lookup_store. }
  assert (Hpar1 : parent_ok (combine_output dd st bt) F1 = true).
  { rewrite <- Epar. unfold parent_ok, F1. apply is_dir_store_other.
    rewrite Hout. destruct HD as (HD1 & HD2 & _).
    rewrite dirname_plain by assumption.
    intros E. symmetry in E. now apply path_longer in E. }
  unfold combine_effect. rewrite Hfiles. cbv zeta.
  rewrite Hmerged, Ene, Hdir1, Hpar1. cbn [negb andb].
  unfold F1. now apply contents_store_again.
Qed.

Lemma flat_map_same {A C : Type} (f g : A -> list C) l :
  (forall x, In x l -> f x = g x) -> flat_map f l = flat_map g l.
Proof.
  induction l as [|x l IH]; intros H; [reflexivity|]. cbn [flat_map].
  rewrite (H x (or_introl eq_refl)), IH; [reflexivity|].
  intros y Hy. apply H. now right.
Qed.

Lemma rows_at_store_other p q n fs0 :
  p <> q -> rows_at (store q n fs0) p = rows_at fs0 p.
Proof. intros H. unfold rows_at. now rewrite table_at_store_other. Qed.

Lemma df_empty_iff df : columns df <> [] -> rows df <> [] -> df_empty df = false.
Proof.
  unfold df_empty. destruct (columns df); [congruence|].
  destruct (rows df); [congruence | reflexivity].
Qed.

(** X15: without business type a second run doubles the table, whatever
    the state and the files.  In a plain download directory, when a run of
    [combine_csv_files] has created [<state>_combined.csv], a further run on
    the files it left reads that file next to the files the first run read,
    and writes a table whose rows are those of the first output, twice. *)
Theorem unfiltered_rerun_doubles dd st bt w w' n1 :
  plain_dir dd -> truthy bt = false -> format_filename st <> [] ->
  exists_path (combine_output dd st bt) (fs w) = false ->
  lookup (combine_output dd st bt) (fs (snd (combine_csv_files dd st bt w))) = Some n1 ->
  fs w' = fs (snd (combine_csv_files dd st bt w)) ->
  exists df1 df2,
    body n1 = Csv df1 /\ rows df1 <> [] /\
    In (combine_output dd st bt) (glob (combine_pattern dd st bt) (fs w')) /\
    lookup (combine_output dd st bt) (fs (snd (combine_csv_files dd st bt w'))) =
      Some {| mtime := now w'; body := Csv df2 |} /\
    Permutation (rows df2) (rows df1 ++ rows df1).
Proof.
  intros Hdd Hbt Hst Hnew Hl Hfs. rewrite combine_fs in Hl, Hfs.
  rewrite combine_fs, Hfs. revert Hnew Hl.
  generalize (now w') (now w) (fs w). clear w w' Hfs. intros t2 t1 F Hnew Hl.
  destruct (combine_effect_cases dd st bt F)
    as [E1|(files & Ef & Ene & Edir & Epar & E1)].
  { rewrite E1 in Hl. unfold exists_path in Hnew. now rewrite Hl in Hnew. }
  rewrite E1 in Hl |- *. rewrite lookup_store in Hl. inversion Hl; subst n1. clear Hl.
  set (df1 := merged F files empty_frame) in *.
  destruct (df_empty_false _ Ene) as [Hc1 Hr1].
  assert (Hstem : query_stem st bt <> []) by (unfold query_stem; now rewrite Hbt).
  destruct (query_paths dd st bt Hdd Hstem) as (HD & Hpat & Hout).
  destruct (query_pattern_facts st bt) as (Hm & Hp & _). cbv zeta in Hm, Hp.
  pose proof (stem_output_match st bt) as Hyes.
  replace (negb (truthy bt)) with true in Hyes by (now rewrite Hbt).
  pose proof (tame_sep_free _ (output_name_tame st bt)) as Hon.
  assert (Honn : query_stem st bt ++ lit "_combined.csv" <> []).
  { intros H. apply app_eq_nil in H. destruct H as [_ H]. discriminate. }
  set (n1 := {| mtime := t1; body := Csv df1 |}) in *.
  set (F1 := store (combine_output dd st bt) n1 F).
  assert (HDdir : is_dir (path_join dd (query_stem st bt)) F = true).
  { rewrite <- Epar. unfold parent_ok. rewrite Hout.
    destruct HD as (HD1 & HD2 & _). now rewrite dirname_plain. }
  assert (Hglob : glob (combine_pattern dd st bt) F1 =
                  glob (combine_pattern dd st bt) F ++ [combine_output dd st bt]).
  { unfold F1. rewrite Hpat, Hout. rewrite glob_store by assumption.
    rewrite <- Hout, Hnew, HDdir, Hyes. reflexivity. }
  destruct (files_read_unfiltered dd st bt F1 Hbt) as (files2 & Ef2).
  pose proof (files_read_perm _ _ _ _ _ Ef) as P1.
  pose proof (files_read_perm _ _ _ _ _ Ef2) as P2. rewrite Hglob in P2.
  set (df2 := merged F1 files2 empty_frame).
  assert (Hself : table_at F1 (combine_output dd st bt) = Ok df1)
    by (now apply table_at_stored).
  assert (Hold : forall p, In p (glob (combine_pattern dd st bt) F) ->
                           rows_at F1 p = rows_at F p).
  { intros p Hin. apply rows_at_store_other. intros ->.
    apply combine_glob_exists in Hin. congruence. }
  assert (Hperm : Permutation (rows df2) (rows df1 ++ rows df1)).
  { assert (R1 : rows df1 = flat_map (rows_at F) files)
      by (unfold df1; now rewrite merged_rows).
    assert (R2 : rows df2 = flat_map (rows_at F1) files2)
      by (unfold df2; now rewrite merged_rows).
    assert (Rs : rows_at F1 (combine_output dd st bt) = rows df1)
      by (unfold rows_at; now rewrite Hself).
    rewrite R2, <- (Permutation_flat_map (rows_at F1) P2).
    rewrite flat_map_app. cbn [flat_map]. rewrite app_nil_r, Rs.
    apply Permutation_app_tail.
    rewrite (flat_map_same _ _ _ Hold).
    rewrite (Permutation_flat_map (rows_at F) P1). now rewrite R1. }
  assert (Hne2 : df_empty df2 = false).
  { apply df_empty_iff.
    - apply (merged_columns_in F1 files2 (combine_output dd st bt) df1); [|exact Hself].
      apply (Permutation_in _ P2). apply in_or_app. right. now left.
    - intros E. rewrite E in Hperm. apply Permutation_nil in Hperm.
      apply app_eq_nil in Hperm. tauto. }
  assert (Hdir1 : is_dir (combine_output dd st bt) F1 = false).
  { unfold F1, is_dir. now rewrite lookup_store. }
  assert (Hpar1 : parent_ok (combine_output dd st bt) F1 = true).
  { rewrite <- Epar. unfold parent_ok, F1. apply is_dir_store_other.
    rewrite Hout. destruct HD as (HD1 & HD2 & _).
    rewrite dirname_plain by assumption.
    intros E. symmetry in E. now apply path_longer in E. }
  exists df1, df2. split; [reflexivity|]. split; [exact Hr1|].
  split; [fold F1; rewrite Hglob; apply in_or_app; right; now left|].
  split; [|exact Hperm].
  fold F1. unfold combine_effect. rewrite Ef2. cbv zeta. fold df2.
  rewrite Hne2, Hdir1, Hpar1. cbn [negb andb]. apply lookup_store.
Qed.

(** *** The queries of [main] *)

Lemma fnmatch_needs_prefix pre r : literal pre ->
  forall name, fnmatch (pre ++ r) name = true -> exists t, name = pre ++ t.
Proof.
  induction 1 as [|c pre [H1 H2] _ IH]; intros name H; [now exists name|].
  rewrite <- app_comm_cons in H. cbn [fnmatch] in H.
  apply N.eqb_neq in H1. apply N.eqb_neq in H2. rewrite H1 in H.
  destruct name as [|k name]; [discriminate|].
  rewrite H2 in H. cbn [orb] in H. apply andb_true_iff in H. destruct H as [Hk H].
  apply N.eqb_eq in Hk. subst k. destruct (IH _ H) as [t ->]. now exists t.
Qed.

Lemma strip_prefix_app p t : strip_prefix p (p ++ t) = Some t.
Proof.
  induction p as [|a p IH]; cbn [strip_prefix List.app]; [reflexivity|].
  now rewrite N.eqb_refl.
Qed.

Lemma app_comparable a : forall b x y, a ++ x = b ++ y -> comparable a b = true.
Proof.
  unfold comparable, startswith.
  induction a as [|c a IH]; intros b x y H; [reflexivity|].
  destruct b as [|k b]; [apply orb_true_r|].
  cbn [List.app] in H. inversion H; subst k. cbn [strip_prefix].
  rewrite N.eqb_refl. eapply IH; eassumption.
Qed.

Lemma NoDup_map_In {A C : Type} (f : A -> C) l x y :
  NoDup (map f l) -> In x l -> In y l -> f x = f y -> x = y.
Proof.
  induction l as [|a l IH]; intros Hn Hx Hy E; [contradiction|].
  cbn [map] in Hn. inversion Hn as [|? ? Hnot Hn']; subst.
  destruct Hx as [->|Hx]; destruct Hy as [->|Hy]; [reflexivity| | |now apply IH].
  - exfalso. apply Hnot. rewrite E. now apply in_map.
  - exfalso. apply Hnot. rewrite <- E. now apply in_map.
Qed.

Lemma distinct_NoDup l : distinct l = true -> NoDup l.
Proof.
  induction l as [|x l IH]; intros H; [constructor|].
  cbn [distinct] in H. apply andb_true_iff in H. destruct H as [H1 H2].
  constructor; [|now apply IH]. intros Hin.
  apply negb_true_iff in H1.
  assert (existsb (str_eqb x) l = true); [|congruence].
  apply existsb_exists. exists x. split; [exact Hin | apply str_eqb_refl].
Qed.

Lemma NoDup_path_join dd l :
  Forall (fun x => x <> [] /\ tame x) l -> NoDup l -> NoDup (map (path_join dd) l).
Proof.
  induction 1 as [|x l [Hx Ht] Hl IH]; intros Hn; [constructor|].
  inversion Hn as [|? ? Hnot Hn']; subst. cbn [map].
  constructor; [|now apply IH].
  intros Hin. apply in_map_iff in Hin. destruct Hin as (y & E & Hy).
  apply Hnot. rewrite Forall_forall in Hl. destruct (Hl y Hy) as [Hy0 Hyt].
  destruct x as [|a x]; [congruence|]. destruct y as [|b y]; [congruence|].
  inversion Ht as [|? ? [Ha _] _]. inversion Hyt as [|? ? [Hb _] _].
  apply path_join_inj in E; [now rewrite <- E | exact Hb | exact Ha].
Qed.

Lemma main_stems_distinct :
  NoDup (map (fun q => query_stem (fst q) (snd q)) main_queries).
Proof. apply distinct_NoDup. vm_compute. reflexivity. Qed.

Lemma main_prefixes_apart q q' :
  In q main_queries -> In q' main_queries ->
  comparable (query_prefix q) (query_prefix q') = true -> q = q'.
Proof.
  intros Hq Hq' Hc.
  set (key := fun q0 : str * option str =>
                (query_stem (fst q0) (snd q0), query_prefix q0)).
  assert (T : let l := map key main_queries in
              forallb (fun a => forallb (fun b =>
                str_eqb (fst a) (fst b) || negb (comparable (snd a) (snd b))) l) l
              = true) by (vm_compute; reflexivity).
  cbv zeta in T. rewrite forallb_forall in T.
  specialize (T (key q) (in_map key _ _ Hq)).
  rewrite forallb_forall in T. specialize (T (key q') (in_map key _ _ Hq')).
  unfold key in T. cbn [fst snd] in T.
  rewrite Hc in T. cbn [negb] in T. rewrite orb_false_r in T.
  apply str_eqb_eq in T.
  exact (NoDup_map_In _ _ _ _ main_stems_distinct Hq Hq' T).
Qed.

Lemma query_pattern_prefix dd q :
  snd (fst (combine_layout dd (fst q) (snd q))) = query_prefix q ++ lit "*.csv".
Proof. now rewrite combine_layout_stem. Qed.

Lemma query_prefix_literal q : literal (query_prefix q).
Proof. apply tame_literal, query_prefix_tame. Qed.

(** X16: the queries of [main] do not get in each other's way.  Each has
    a directory of its own; the input pattern of a query matches no export
    of another query and no consolidated file; and among the directories of
    the queries the pattern [<state>_*] of a business-filtered state matches
    exactly those of its own business types. *)
Theorem main_queries_apart :
  (forall dd,
     NoDup (map (fun q => fst (fst (combine_layout dd (fst q) (snd q)))) main_queries)) /\
  (forall dd q q' page t,
     In q main_queries -> In q' main_queries ->
     glob_match (snd (fst (combine_layout dd (fst q) (snd q))))
                (artifact_name (fst q') (snd q') page t) = true ->
     q = q') /\
  (forall dd s q,
     In s business_filtered_states -> In q main_queries ->
     glob_match (snd (fst (combine_layout dd (fst q) (snd q))))
                (format_filename s ++ lit "_consolidated.csv") = false) /\
  (forall s q,
     In s business_filtered_states -> In q main_queries ->
     startswith (format_filename s ++ lit "_") (query_stem (fst q) (snd q)) =
     str_eqb (fst q) s && truthy (snd q)).
Proof.
  split; [|split; [|split]].
  - intros dd.
    assert (E : map (fun q => fst (fst (combine_layout dd (fst q) (snd q)))) main_queries
                = map (path_join dd)
                      (map (fun q => query_stem (fst q) (snd q)) main_queries)).
    { rewrite map_map. apply map_ext. intros q. now rewrite combine_layout_stem. }
    rewrite E. clear E.
    assert (Hne : Forall (fun x : str => x <> [])
                    (map (fun q => query_stem (fst q) (snd q)) main_queries)).
    { apply Forall_forall. intros x Hx.
      assert (T : forallb (fun x : str => negb (null x))
                    (map (fun q => query_stem (fst q) (snd q)) main_queries) = true)
        by (vm_compute; reflexivity).
      rewrite forallb_forall in T. specialize (T x Hx). now destruct x. }
    assert (Ht : Forall tame (map (fun q => query_stem (fst q) (snd q)) main_queries)).
    { apply Forall_forall. intros x Hx. apply in_map_iff in Hx.
      destruct Hx as (q & <- & _). apply query_stem_tame. }
    apply NoDup_path_join; [|exact main_stems_distinct].
    apply Forall_forall. intros x Hx. split.
    + rewrite Forall_forall in Hne. now apply Hne.
    + rewrite Forall_forall in Ht. now apply Ht.
  - intros dd q q' page t Hq Hq' Hm.
    rewrite query_pattern_prefix in Hm. unfold glob_match in Hm.
    apply andb_true_iff in Hm. destruct Hm as [_ Hm].
    apply fnmatch_needs_prefix in Hm; [|apply query_prefix_literal].
    destruct Hm as [r Hm]. rewrite artifact_name_stem in Hm.
    apply main_prefixes_apart; try assumption.
    change (query_stem (fst q') (snd q') ++
            (if truthy (snd q') then lit "_page_" else lit "_"))
      with (query_prefix q') in Hm.
    symmetry in Hm. eapply app_comparable; exact Hm.
  - intros dd s q Hs Hq. rewrite query_pattern_prefix.
    destruct (glob_match (query_prefix q ++ lit "*.csv")
                (format_filename s ++ lit "_consolidated.csv")) eqn:Hm; [|reflexivity].
    exfalso. unfold glob_match in Hm.
    apply andb_true_iff in Hm. destruct Hm as [_ Hm].
    apply fnmatch_needs_prefix in Hm; [|apply query_prefix_literal].
    destruct Hm as [r Hm].
    assert (Hc : comparable (query_prefix q)
                   (format_filename s ++ lit "_consolidated.csv") = true).
    { apply (app_comparable _ _ r []). now rewrite app_nil_r. }
    assert (T : forallb (fun s0 => forallb (fun q0 =>
                  negb (comparable (query_prefix q0)
                          (format_filename s0 ++ lit "_consolidated.csv")))
                main_queries) business_filtered_states = true)
      by (vm_compute; reflexivity).
    rewrite forallb_forall in T. specialize (T s Hs).
    rewrite forallb_forall in T. specialize (T q Hq). now rewrite Hc in T.
  - intros s q Hs Hq.
    assert (T : forallb (fun s0 => forallb (fun q0 =>
                  Bool.eqb (startswith (format_filename s0 ++ lit "_")
                              (query_stem (fst q0) (snd q0)))
                           (str_eqb (fst q0) s0 && truthy (snd q0)))
                main_queries) business_filtered_states = true)
      by (vm_compute; reflexivity).
    rewrite forallb_forall in T. specialize (T s Hs).
    rewrite forallb_forall in T. specialize (T q Hq). now apply Bool.eqb_prop in T.
Qed.

(** *** Running the consolidation again *)

Lemma consolidate_fs dd st w :
  fs (snd (consolidate_state_files dd st w)) = consolidate_effect dd st (fs w) (now w).
Proof.
  rewrite consolidate_state_files_body. unfold consolidate_effect.
  destruct (glob (consolidate_pattern dd st) (fs w)) as [|f folders]; [reflexivity|].
  cbv zeta. destruct (negb (df_empty _)); cbn [andb]; [|reflexivity].
  unfold bind, to_csv. cbn [fs wrote now].
  destruct (is_dir (consolidate_output dd st) (fs w)); cbn [negb]; [reflexivity|].
  now destruct (parent_ok (consolidate_output dd st) (fs w)).
Qed.

Lemma consolidate_effect_cases dd st fs0 :
  (forall t, consolidate_effect dd st fs0 t = fs0) \/
  exists f folders,
    glob (consolidate_pattern dd st) fs0 = f :: folders /\
    df_empty (merged fs0 (flat_map (folder_files fs0) (f :: folders)) empty_frame)
      = false /\
    is_dir (consolidate_output dd st) fs0 = false /\
    parent_ok (consolidate_output dd st) fs0 = true /\
    forall t, consolidate_effect dd st fs0 t =
              store (consolidate_output dd st)
                {| mtime := t;
                   body := Csv (merged fs0 (flat_map (folder_files fs0) (f :: folders))
                                  empty_frame) |} fs0.
Proof.
  unfold consolidate_effect.
  destruct (glob (consolidate_pattern dd st) fs0) as [|f folders]; [now left|].
  cbv zeta.
  destruct (df_empty (merged fs0 (flat_map (folder_files fs0) (f :: folders))
                        empty_frame)) eqn:E1; [now left|].
  destruct (is_dir (consolidate_output dd st) fs0) eqn:E2; [now left|].
  destruct (parent_ok (consolidate_output dd st) fs0) eqn:E3; [|now left].
  right. exists f, folders. now repeat split.
Qed.

Lemma state_name_facts st r :
  forallb (fun c => negb (c =? sep)) r = true -> r <> [] ->
  sep_free (format_filename st ++ r) /\ format_filename st ++ r <> [].
Proof.
  intros Hr Hn. split.
  - apply sep_free_app; [apply tame_sep_free, format_filename_tame|].
    now apply lit_sep_free_check.
  - intros H. apply app_eq_nil in H. tauto.
Qed.

Lemma consolidate_paths dd st :
  plain_dir dd ->
  consolidate_pattern dd st = dd ++ sep :: format_filename st ++ lit "_*" /\
  consolidate_output dd st = dd ++ sep :: format_filename st ++ lit "_consolidated.csv".
Proof.
  intros (Hd & He & _). unfold consolidate_pattern, consolidate_output.
  destruct (state_name_facts st (lit "_*") eq_refl) as [H1 H2]; [discriminate|].
  destruct (state_name_facts st (lit "_consolidated.csv") eq_refl) as [H3 H4];
    [discriminate|].
  now rewrite !path_join_free.
Qed.

Lemma in_sep_free s : sep_free s -> ~ In sep s.
Proof. unfold sep_free. rewrite Forall_forall. intros H Hin. now apply (H sep). Qed.

(** An entry of a directory is not inside another entry of it. *)
Lemma child_name_sibling d name cname :
  d <> [] -> name <> [] -> sep_free name -> sep_free cname ->
  child_name (d ++ sep :: name) (d ++ sep :: cname) = None.
Proof.
  intros Hd Hn Hf Hc.
  destruct (child_name (d ++ sep :: name) (d ++ sep :: cname)) as [x|] eqn:E;
    [|reflexivity].
  exfalso. apply child_name_path in E.
  - rewrite <- app_assoc in E. apply app_inv_head in E.
    cbn [List.app] in E. inversion E as [E'].
    apply (in_sep_free _ Hc). rewrite E'. apply in_or_app. right. now left.
  - now destruct d.
  - change (sep :: name) with ([sep] ++ name). rewrite app_assoc.
    now apply ends_with_sep_free.
Qed.

Lemma plain_child d name :
  plain_dir d -> name <> [] -> sep_free name -> has_magic (d ++ sep :: name) = false ->
  plain_dir (d ++ sep :: name).
Proof.
  intros (Hd & He & Hm) Hn Hf Hmag. repeat split.
  - now destruct d.
  - change (sep :: name) with ([sep] ++ name). rewrite app_assoc.
    now apply ends_with_sep_free.
  - exact Hmag.
Qed.

Lemma folder_files_plain f fs0 :
  plain_dir f ->
  folder_files fs0 f =
  map (fun name => f ++ sep :: name)
      (filter (glob_match (lit "*_combined.csv")) (listdir f fs0)).
Proof.
  intros Hf. unfold folder_files. assert (H := Hf). destruct H as (H1 & H2 & _).
  rewrite path_join_free; try assumption;
    [|apply lit_sep_free_check; reflexivity | discriminate].
  apply glob_plain; [assumption | reflexivity | apply lit_sep_free_check; reflexivity].
Qed.

Lemma listdir_not_dir d fs0 : is_dir d fs0 = false -> listdir d fs0 = [].
Proof. intros H. unfold listdir. now rewrite H. Qed.

(** *** Folders without a combined file *)

Lemma fnmatch_literal suf : literal suf ->
  forall name, fnmatch suf name = true -> name = suf.
Proof.
  induction 1 as [|c suf [H1 H2] _ IH]; intros name H.
  - now destruct name.
  - cbn [fnmatch] in H. apply N.eqb_neq in H1. apply N.eqb_neq in H2.
    rewrite H1 in H. destruct name as [|k name]; [discriminate|].
    rewrite H2 in H. cbn [orb] in H. apply andb_true_iff in H. destruct H as [Hk H].
    apply N.eqb_eq in Hk. subst k. f_equal. now apply IH.
Qed.

(** A star followed by a literal text matches only names that end with it. *)
Lemma fnmatch_star_ends suf : literal suf ->
  forall name, fnmatch (42 :: suf) name = true -> endswith suf name = true.
Proof.
  intros Hs name H.
  assert (E : exists x, name = x ++ suf).
  { induction name as [|c name IH].
    - rewrite fnmatch_star_nil in H. apply (fnmatch_literal suf Hs) in H.
      exists []. now rewrite <- H.
    - rewrite fnmatch_star_cons in H. apply orb_true_iff in H. destruct H as [H|H].
      + apply (fnmatch_literal suf Hs) in H. exists []. now rewrite <- H.
      + destruct (IH H) as [x ->]. now exists (c :: x). }
  destruct E as [x ->]. unfold endswith, startswith.
  now rewrite rev_app_distr, strip_prefix_app.
Qed.

(** What [glob] finds for the pattern of a state is a path of the download
    directory; without wildcard character it is a plain directory path. *)
Lemma state_folder_plain dd st fs0 folder :
  plain_dir dd -> In folder (glob (consolidate_pattern dd st) fs0) ->
  has_magic folder = false -> plain_dir folder.
Proof.
  intros Hdd Hin Hm. assert (Hp := Hdd). destruct Hp as (Hd & He & Hmd).
  unfold consolidate_pattern in Hin.
  assert (Hpat : sep_free (format_filename st ++ lit "_*")).
  { apply sep_free_app; [apply tame_sep_free, format_filename_tame|].
    apply lit_sep_free_check. reflexivity. }
  rewrite path_join_free in Hin; try assumption;
    [|intros H; apply app_eq_nil in H; destruct H; discriminate].
  rewrite glob_plain in Hin; try assumption;
    [|rewrite has_magic_app; apply orb_true_r].
  apply in_map_iff in Hin. destruct Hin as (name & <- & Hn).
  apply filter_In in Hn. destruct Hn as [Hn _].
  apply listdir_name in Hn. destruct Hn as (c & r & -> & Hf).
  split; [now destruct dd|]. split; [|exact Hm].
  change (sep :: c :: r) with ([sep] ++ c :: r). rewrite app_assoc.
  apply ends_with_sep_free; [exact Hf | discriminate].
Qed.

(** C4, with the condition it needs: among the folders
    [consolidate_state_files] finds for a state, a folder whose path holds
    no wildcard character ([*], [?], [[]) and which lists no name ending in
    "_combined.csv" contributes no row:
    [glob] finds nothing in it, the accumulated table is the one obtained
    without the folder, and is made of the rows of the combined files of the
    other folders only.  (A folder path with a wildcard character is read as
    a pattern once more, and can bring in the combined files of other
    folders.) *)
Theorem consolidate_reads_combined_only dd st l1 folder l2 acc w :
  plain_dir dd ->
  glob (consolidate_pattern dd st) (fs w) = l1 ++ folder :: l2 ->
  has_magic folder = false ->
  (forall name, In name (listdir folder (fs w)) ->
     endswith (lit "_combined.csv") name = false) ->
  glob (path_join folder (lit "*_combined.csv")) (fs w) = [] /\
  fst (read_folders (l1 ++ folder :: l2) acc w) =
  fst (read_folders (l1 ++ l2) acc w) /\
  exists df w',
    read_folders (l1 ++ folder :: l2) acc w = (Ok df, w') /\
    fs w' = fs w /\
    rows df =
    rows acc ++
    flat_map (fun f => flat_map (rows_at (fs w))
                         (glob (path_join f (lit "*_combined.csv")) (fs w)))
             (l1 ++ l2).
Proof.
  intros Hdd Hg Hm Hl.
  assert (Hin : In folder (glob (consolidate_pattern dd st) (fs w)))
    by (rewrite Hg; apply in_elt).
  pose proof (state_folder_plain dd st (fs w) folder Hdd Hin Hm) as Hf.
  assert (E : glob (path_join folder (lit "*_combined.csv")) (fs w) = []).
  { change (folder_files (fs w) folder = []). rewrite folder_files_plain by exact Hf.
    replace (filter (glob_match (lit "*_combined.csv")) (listdir folder (fs w)))
      with (@nil str); [reflexivity|].
    symmetry. induction (listdir folder (fs w)) as [|name l IH]; [reflexivity|].
    cbn [filter].
    assert (Hn : glob_match (lit "*_combined.csv") name = false).
    { unfold glob_match.
      destruct (fnmatch (lit "*_combined.csv") name) eqn:Em; [|apply andb_false_r].
      apply (fnmatch_star_ends (lit "_combined.csv")) in Em.
      - rewrite (Hl name (or_introl eq_refl)) in Em. discriminate.
      - unfold literal. repeat constructor; discriminate. }
    rewrite Hn. apply IH. intros n Hn'. apply Hl. now right. }
  split; [exact E|]. now apply read_folders_skips_folder.
Qed.

(** X17: the consolidation is stable under a second run.  In a plain
    download directory where no matched folder has a wildcard character in
    its name, on the files a run of [consolidate_state_files] has left a
    further run changes no content: the consolidated file is matched by
    [<state>_*] but nothing is found under it, and it lies in no business
    folder. *)
Theorem reconsolidate_stable dd st w w' :
  plain_dir dd ->
  Forall (fun f => has_magic f = false) (glob (consolidate_pattern dd st) (fs w)) ->
  fs w' = fs (snd (consolidate_state_files dd st w)) ->
  contents (fs (snd (consolidate_state_files dd st w'))) = contents (fs w').
Proof.
  intros Hdd Hplain Hfs. rewrite consolidate_fs, Hfs, consolidate_fs. revert Hplain.
  generalize (now w') (now w) (fs w). clear w w' Hfs. intros t2 t1 F Hplain.
  destruct (consolidate_effect_cases dd st F)
    as [E1|(f0 & fl & Eg & Ene & Edir & Epar & E1)]; [now rewrite !E1|].
  rewrite E1. set (folders := f0 :: fl) in *.
  set (df := merged F (flat_map (folder_files F) folders) empty_frame) in *.
  set (n1 := {| mtime := t1; body := Csv df |}).
  set (cons := consolidate_output dd st) in *.
  set (F1 := store cons n1 F).
  destruct (consolidate_paths dd st Hdd) as [Hpat Hout]. fold cons in Hout.
  destruct (state_name_facts st (lit "_*") eq_refl) as [Hp1 Hp2]; [discriminate|].
  destruct (state_name_facts st (lit "_consolidated.csv") eq_refl) as [Hc1 Hc2];
    [discriminate|].
  assert (Hd := Hdd). destruct Hd as (Hd1 & Hd2 & Hd3).
  assert (Hpm : has_magic (format_filename st ++ lit "_*") = true)
    by (rewrite has_magic_app; apply orb_true_r).
  (* the folders of the second run *)
  assert (Hglob : exists extra,
            glob (consolidate_pattern dd st) F1 = folders ++ extra /\
            (extra = [] \/ extra = [cons])).
  { unfold F1. rewrite Hpat, Hout. rewrite glob_store by assumption.
    rewrite <- Hpat, <- Hout, Eg. eexists. split; [reflexivity|].
    destruct (_ && _ && _); [now right | now left]. }
  destruct Hglob as (extra & Hglob & Hextra).
  (* what a folder of the first run is *)
  assert (Hfolder : forall f, In f folders ->
            exists name, f = dd ++ sep :: name /\ name <> [] /\ sep_free name /\
                         plain_dir f).
  { intros f Hin. rewrite Forall_forall in Hplain. rewrite Eg in Hplain.
    pose proof (Hplain f Hin) as Hmag.
    rewrite <- Eg, Hpat, glob_plain in Hin by assumption.
    apply in_map_iff in Hin. destruct Hin as (name & <- & Hin).
    apply filter_In in Hin. destruct Hin as [Hin _].
    apply listdir_name in Hin. destruct Hin as (c & r & -> & Hcr).
    exists (c :: r). split; [reflexivity|]. split; [discriminate|].
    split; [exact Hcr|]. apply plain_child; try assumption. discriminate. }
  assert (Hcons_files : folder_files F1 cons = []).
  { rewrite folder_files_plain.
    - rewrite listdir_not_dir; [reflexivity|]. unfold F1, is_dir.
      now rewrite lookup_store.
    - rewrite Hout. apply plain_child; try assumption.
      rewrite has_magic_app, Hd3. change (sep :: ?x) with ([sep] ++ x).
      rewrite has_magic_app. cbn [orb].
      apply tame_no_magic. apply tame_app; [apply format_filename_tame|].
      apply lit_tame_check. reflexivity. }
  assert (Hsame : forall f, In f folders -> folder_files F1 f = folder_files F f).
  { intros f Hin. destruct (Hfolder f Hin) as (name & Ef & Hn0 & Hnf & Hfp).
    rewrite !folder_files_plain by assumption. f_equal. f_equal.
    destruct (list_eq_dec N.eq_dec f cons) as [Efc|Nfc].
    - rewrite !listdir_not_dir; [reflexivity | now rewrite Efc |].
      rewrite Efc. unfold F1, is_dir. now rewrite lookup_store.
    - unfold F1. rewrite listdir_store by assumption.
      destruct (_ && _); [|apply app_nil_r].
      unfold names_in. cbn [flat_map]. rewrite Ef, Hout.
      rewrite child_name_sibling by assumption. apply app_nil_r. }
  assert (Hfiles : flat_map (folder_files F1) (folders ++ extra) =
                   flat_map (folder_files F) folders).
  { rewrite flat_map_app. rewrite (flat_map_same _ _ _ Hsame).
    destruct Hextra as [-> | ->]; cbn [flat_map]; [apply app_nil_r|].
    rewrite Hcons_files. now rewrite !app_nil_r. }
  assert (Hother : forall p, In p (flat_map (folder_files F) folders) -> p <> cons).
  { intros p Hin ->. apply in_flat_map in Hin. destruct Hin as (f & Hf & Hin).
    destruct (Hfolder f Hf) as (name & Ef & Hn0 & Hnf & Hfp).
    rewrite folder_files_plain in Hin by assumption.
    apply in_map_iff in Hin. destruct Hin as (x & E & _).
    rewrite Ef, Hout, <- app_assoc in E. apply app_inv_head in E.
    cbn [List.app] in E. inversion E as [E'].
    apply (in_sep_free _ Hc1). rewrite <- E'. apply in_or_app. right. now left. }
  assert (Hmerged : merged F1 (flat_map (folder_files F) folders) empty_frame = df).
  { unfold df. apply merged_ext. intros p Hin. apply table_at_store_other.
    now apply Hother. }
  assert (Hdir1 : is_dir cons F1 = false).
  { unfold F1, is_dir. now rewrite lookup_store. }
  assert (Hpar1 : parent_ok cons F1 = true).
  { rewrite <- Epar. unfold parent_ok, F1. apply is_dir_store_other.
    rewrite Hout. rewrite dirname_plain by assumption.
    intros E. symmetry in E. now apply path_longer in E. }
  unfold consolidate_effect. fold cons. rewrite Hglob.
  assert (Hne : folders ++ extra = f0 :: (fl ++ extra)) by reflexivity.
  rewrite Hne at 1. cbv zeta. rewrite <- Hne. rewrite Hfiles, Hmerged.
  rewrite Ene, Hdir1, Hpar1. cbn [negb andb].
  unfold F1. now apply contents_store_again.
Qed.

(** *** The whole run *)

Section MainFacts.

Variable B : Type.
Variable drive : action -> B -> filesystem -> N -> result elem * (B * filesystem * N).

Lemma session_line_not_closing l : session_line l -> not_closing l.
Proof.
  unfold session_line. intros H. split; [intros ->|intros e ->]; discriminate H.
Qed.

Lemma emitsL_attempt_pair fuel dd sn bt :
  emitsL not_closing (attempt_pair drive fuel dd sn bt).
Proof.
  unfold attempt_pair. apply emitsL_try.
  - apply emitsL_bind; [apply emitsL_run, emits_call_|]. intros _.
    apply emitsL_bind; [apply emitsL_run, emits_sleep|]. intros _.
    apply emitsL_bind.
    + eapply emitsL_weaken; [exact session_line_not_closing | apply emitsL_session].
    + intros _. apply emitsL_say. split; [|intros e]; discriminate.
  - intros e. apply emitsL_say. split; [|intros e0]; discriminate.
Qed.

Lemma emitsL_attempt_state fuel dd sn :
  emitsL not_closing (attempt_state drive fuel dd sn).
Proof.
  unfold attempt_state. apply emitsL_try.
  - apply emitsL_bind; [apply emitsL_run, emits_call_|]. intros _.
    apply emitsL_bind; [apply emitsL_run, emits_sleep|]. intros _.
    apply emitsL_bind.
    + eapply emitsL_weaken; [exact session_line_not_closing | apply emitsL_session].
    + intros _. apply emitsL_say. split; [|intros e]; discriminate.
  - intros e. apply emitsL_say. split; [|intros e0]; discriminate.
Qed.

Lemma emitsL_retL (P : line -> Prop) : emitsL P (@retL B unit tt).
Proof.
  intros st r st' H. inversion H; subst. exists []. rewrite app_nil_r.
  split; [reflexivity | constructor].
Qed.

Lemma emitsL_for_business_types fuel dd sn types :
  emitsL not_closing (for_business_types drive fuel dd sn types).
Proof.
  induction types as [|bt types IH]; cbn [for_business_types]; [apply emitsL_retL|].
  apply emitsL_bind; [|intros _; exact IH].
  destruct (skipped sn bt); [|apply emitsL_attempt_pair].
  apply emitsL_say. split; [|intros e]; discriminate.
Qed.

Lemma emitsL_for_filtered_states fuel dd types states :
  emitsL not_closing (for_filtered_states drive fuel dd states types).
Proof.
  induction states as [|sn states IH]; cbn [for_filtered_states]; [apply emitsL_retL|].
  apply emitsL_bind; [apply emitsL_say; split; [|intros e]; discriminate|]. intros _.
  apply emitsL_bind; [apply emitsL_for_business_types|]. intros _.
  apply emitsL_bind; [apply emitsL_say; split; [|intros e]; discriminate|]. intros _.
  apply emitsL_bind; [|intros _; exact IH].
  apply emitsL_run, emits_lift.
  eapply emits_weaken; [|apply emits_consolidate].
  intros l Hl. split; [intros -> | intros e ->]; destruct Hl; discriminate.
Qed.

Lemma emitsL_for_other_states fuel dd states :
  emitsL not_closing (for_other_states drive fuel dd states).
Proof.
  induction states as [|sn states IH]; cbn [for_other_states]; [apply emitsL_retL|].
  apply emitsL_bind; [apply emitsL_say; split; [|intros e]; discriminate|]. intros _.
  apply emitsL_bind; [apply emitsL_attempt_state | intros _; exact IH].
Qed.

(** The [try] of [main], lines 281-318: it never raises, and its last line
    tells how it ended. *)
Lemma main_try fuel dd (st : state B) r st' :
  try_exceptL
    (bindL (for_filtered_states drive fuel dd business_filtered_states business_types)
       (fun _ => bindL (for_other_states drive fuel dd other_states)
          (fun _ => say AllCompleted)))
    (fun e => say (ErrorInMain e)) st = Some (r, st') ->
  r = Ok tt /\
  exists lines t l,
    out_of st' = out_of st ++ lines ++ [(t, l)] /\
    Forall (fun x => not_closing (snd x)) lines /\
    (l = AllCompleted \/ exists e, l = ErrorInMain e /\ exn_cls e = OSError).
Proof.
  unfold try_exceptL, bindL.
  destruct (for_filtered_states drive fuel dd business_filtered_states business_types st)
    as [[[[]|e] s1]|] eqn:E1; [| |discriminate].
  - destruct (emitsL_for_filtered_states _ _ _ _ _ _ _ E1) as (a1 & Ea1 & F1).
    destruct (for_other_states drive fuel dd other_states s1)
      as [[r2 s2]|] eqn:E2; [|discriminate].
    destruct (emitsL_for_other_states _ _ _ _ _ _ E2) as (a2 & Ea2 & F2).
    apply for_other_states_returns in E2. subst r2.
    rewrite say_eq. intros H. inversion H; subst. split; [reflexivity|].
    exists (a1 ++ a2), (now (snd s2)), AllCompleted.
    unfold out_of in *. cbn [snd out wrote stamped map].
    rewrite Ea2, Ea1, <- !app_assoc.
    split; [reflexivity|]. split; [now apply Forall_app | now left].
  - destruct (emitsL_for_filtered_states _ _ _ _ _ _ _ E1) as (a1 & Ea1 & F1).
    apply for_filtered_states_raises in E1. destruct E1 as (sn & w & _ & Hc).
    apply consolidate_raises_why in Hc. destruct Hc as (He & _).
    rewrite say_eq. intros H. inversion H; subst. split; [reflexivity|].
    exists a1, (now (snd s1)), (ErrorInMain e).
    unfold out_of in *. cbn [snd out wrote stamped map]. rewrite Ea1, <- app_assoc.
    split; [reflexivity|]. split; [exact F1|]. right. now exists e.
Qed.

Lemma call__out a (st : state B) : out_of (snd (call_ drive a st)) = out_of st.
Proof. apply (silent_of_emits (@out_of B)). apply emits_call_. Qed.

(** X18: how [main] ends.  Either one of the three opening calls on the
    browser raised, and nothing was printed; or the [try] ran, its last line
    is "Data collection and consolidation completed for all states." or "An
    error occurred in main execution" with the [OSError] of a consolidated
    write, neither line occurs before, and the [finally] block ran after it:
    the result of [main] is the result of the two closing calls. *)
Theorem main_closing_line fuel (st : state B) r st' :
  main drive fuel st = Some (r, st') ->
  (out_of st' = out_of st /\ exists e, r = Raise e) \/
  exists lines t l s1,
    out_of st' = out_of st ++ lines ++ [(t, l)] /\
    Forall (fun x => not_closing (snd x)) lines /\
    (l = AllCompleted \/ exists e, l = ErrorInMain e /\ exn_cls e = OSError) /\
    bindL (run (call_ drive (Input (lit "Press Enter to close the browser..."))))
          (fun _ => run (call_ drive Quit)) s1 = Some (r, st').
Proof.
  unfold main. cbv zeta. intros H.
  unfold bindL at 1 in H. unfold run at 1 in H.
  pose proof (call__out (StartEdge (lit "D:\Downloads")) st) as O0.
  destruct (call_ drive (StartEdge (lit "D:\Downloads")) st) as [[[]|e] s0];
    cbn [snd] in O0.
  2:{ inversion H; subst. left. split; [exact O0 | now exists e]. }
  unfold bindL at 1 in H. unfold run at 1 in H.
  pose proof (call__out (Get portal) s0) as O1.
  destruct (call_ drive (Get portal) s0) as [[[]|e] s1]; cbn [snd] in O1.
  2:{ inversion H; subst. left. split; [now rewrite O1 | now exists e]. }
  unfold bindL at 1 in H. unfold run at 1 in H.
  pose proof (call__out (Input (lit "Press Enter after you've logged in...")) s1) as O2.
  destruct (call_ drive (Input (lit "Press Enter after you've logged in...")) s1)
    as [[[]|e] s2]; cbn [snd] in O2.
  2:{ inversion H; subst. left. split; [now rewrite O2, O1 | now exists e]. }
  right. unfold try_finallyL in H.
  match type of H with context [try_exceptL ?m ?h s2] =>
    destruct (try_exceptL m h s2) as [[rb sb]|] eqn:Eb end; [|discriminate].
  apply main_try in Eb. destruct Eb as (-> & lines & t & l & Eo & Fl & Hl).
  match type of H with context [bindL ?m ?k sb] =>
    assert (Hq : emitsL (fun _ => False) (bindL m k));
    [|destruct (bindL m k sb) as [[rc sc]|] eqn:Ec; [|discriminate]] end.
  { apply emitsL_bind; [apply emitsL_run, emits_call_|]. intros _.
    apply emitsL_run, emits_call_. }
  destruct (Hq _ _ _ Ec) as (a & Ea & Fa).
  assert (a = []) by (destruct a as [|x a]; [reflexivity | now inversion Fa]). subst a.
  rewrite app_nil_r in Ea.
  exists lines, t, l, sb.
  assert (Hr : Some (rc, sc) = Some (r, st')).
  { destruct rc as [[]|e]; exact H. }
  inversion Hr; subst.
  split; [unfold out_of in *; now rewrite Ea, Eo, O2, O1, O0|].
  split; [exact Fl|]. split; [exact Hl | exact Ec].
Qed.

End MainFacts.

End Unicode.

Arguments lift {B A} m st.
Arguments call {B} drive a st.
Arguments call_ {B} drive a.
Arguments sleep {B} drive seconds st.
Arguments until_file {B} drive timeout path st.
Arguments retL {B A} a st.
Arguments bindL {B A C} m k st.
Arguments try_exceptL {B A} m handler st.
Arguments try_finallyL {B A} m cleanup st.
Arguments run {B A} m st.
Arguments say {B} l.
Arguments setup {B} drive state_name business_type.
Arguments export_page {B} drive download_directory.
Arguments dismiss_overlay {B} drive.
Arguments next_page {B} drive.

Arguments page_step U {B} drive download_directory state_name business_type page_number.
Arguments paginate U {B} drive fuel download_directory state_name business_type
  page_number.
Arguments download_and_process_data U {B} drive fuel download_directory state_name
  business_type.
Arguments attempt_pair U {B} drive fuel download_directory state business_type.
Arguments for_business_types U {B} drive fuel download_directory state types.
Arguments for_filtered_states U {B} drive fuel download_directory states types.
Arguments attempt_state U {B} drive fuel download_directory state.
Arguments for_other_states U {B} drive fuel download_directory states.
Arguments main U {B} drive fuel.

(* ================================================================== *)
(** ** The statements on the sample worlds *)

(** Pages [3,1,2] are combined in the order [1,2,3]. *)
Example combine_pages_3_1_2 :
  rows_at (fs (snd (combine_csv_files ascii_only data (lit "Gujarat") trading
                      (world_of pages_fs))))
          trading_combined
  = map sample_row ["p1"; "p2"; "p3"]%string.
Proof. vm_compute. reflexivity. Qed.

(** Of two captures the later one comes first. *)
Example combine_latest_first :
  rows_at (fs (snd (combine_csv_files ascii_only data (lit "Goa") None
                      (world_of stamps_fs))))
          goa_combined
  = map sample_row ["late"; "early"]%string.
Proof. vm_compute. reflexivity. Qed.

(** Of five pages with the third unreadable, the four others are combined
    and the failure is written out. *)
Example combine_five_one_corrupt :
  let w := snd (combine_csv_files ascii_only data (lit "Gujarat") trading
                  (world_of five_fs)) in
  rows_at (fs w) trading_combined = map sample_row ["p1"; "p2"; "p4"; "p5"]%string /\
  map snd (out w) =
  [ ErrorProcessing (lit "/data/Gujarat_Trading/Gujarat_Trading_page_3.csv")
      (Exn OtherException (lit "'utf-8' codec can't decode byte 0xff in position 0"));
    CreatedCombined trading_combined ].
Proof. vm_compute. split; reflexivity. Qed.

(** The raw pages of Gujarat_Finance are not in the consolidated table. *)
Example consolidate_skips_raw_pages :
  rows_at (fs (snd (consolidate_state_files ascii_only data (lit "Gujarat")
                      (world_of raw_fs))))
          gujarat_consolidated
  = map sample_row ["t1"]%string.
Proof. vm_compute. reflexivity. Qed.

(** Against C2 where it speaks of capture recency: the unfiltered merge
    follows the modification times, not the capture instants.  Of two
    captures named for 00:00:09 and 00:00:23, the earlier one was modified
    last; its rows come first. *)
Example combine_mtime_not_capture :
  artifact_name ascii_only (lit "Goa") None 1 (new_year + 9 * second)
  = lit "Goa_20240101000009.csv" /\
  artifact_name ascii_only (lit "Goa") None 2 (new_year + 23 * second)
  = lit "Goa_20240101000023.csv" /\
  rows_at touched_fs (lit "/data/Goa/Goa_20240101000009.csv")
  = map sample_row ["early"]%string /\
  rows_at touched_fs (lit "/data/Goa/Goa_20240101000023.csv")
  = map sample_row ["late"]%string /\
  rows_at (fs (snd (combine_csv_files ascii_only data (lit "Goa") None
                      (world_of touched_fs))))
          goa_combined
  = map sample_row ["early"; "late"]%string.
Proof. vm_compute. repeat split; reflexivity. Qed.

(** Against C4 without a condition on the folder name: the folder
    [Gujarat_T*] matches the pattern of Gujarat and holds one raw page and
    no combined file, yet reading it brings in the row of the combined file
    of [Gujarat_Tea], which is then read a second time for its own folder. *)
Example wildcard_folder_brings_rows :
  glob (consolidate_pattern ascii_only data (lit "Gujarat")) wild_fs
  = [lit "/data/Gujarat_T*"; lit "/data/Gujarat_Tea"] /\
  listdir (lit "/data/Gujarat_T*") wild_fs = [lit "Gujarat_T_page_1.csv"] /\
  fst (read_folders [lit "/data/Gujarat_T*"] empty_frame (world_of wild_fs))
  = Ok (sample_table ["tea"]%string) /\
  rows_at (fs (snd (consolidate_state_files ascii_only data (lit "Gujarat")
                      (world_of wild_fs))))
          gujarat_consolidated
  = map sample_row ["tea"; "tea"]%string.
Proof. vm_compute. repeat split; reflexivity. Qed.

(** C1: on two captures of an unfiltered state the first run of
    [combine_csv_files] writes two rows and the second run, on the directory
    the first one left, writes four: the pattern [{state}_*.csv] also
    matches [{state}_combined.csv].  The business-filtered combine and the
    state consolidation, run twice, write the same table twice. *)
Theorem recombine_unfiltered_doubles :
  let run1 := snd (combine_csv_files ascii_only data (lit "Goa") None
                     (world_of stamps_fs)) in
  let run2 := snd (combine_csv_files ascii_only data (lit "Goa") None run1) in
  let page1 := snd (combine_csv_files ascii_only data (lit "Gujarat") trading
                      (world_of pages_fs)) in
  let page2 := snd (combine_csv_files ascii_only data (lit "Gujarat") trading page1) in
  let state1 := snd (consolidate_state_files ascii_only data (lit "Gujarat") page2) in
  let state2 := snd (consolidate_state_files ascii_only data (lit "Gujarat") state1) in
  In goa_combined
     (glob (combine_pattern ascii_only data (lit "Goa") None) (fs run1)) /\
  rows_at (fs run1) goa_combined = map sample_row ["late"; "early"]%string /\
  rows_at (fs run2) goa_combined =
    map sample_row ["late"; "early"; "late"; "early"]%string /\
  fs page2 = fs page1 /\
  fs state2 = fs state1.
Proof. vm_compute. repeat split; auto. Qed.

(** *** The general statements, applied *)

Lemma combine_order_witness :
  combine_inputs ascii_only data (lit "Gujarat") trading (world_of pages_fs)
  = (Ok pages_sorted, world_of pages_fs) /\
  Permutation (glob (combine_pattern ascii_only data (lit "Gujarat") trading) pages_fs)
              pages_sorted /\
  StronglySorted (fun a b => (page_no ascii_only a <= page_no ascii_only b)%Z)
                 pages_sorted.
Proof.
  assert (H : combine_inputs ascii_only data (lit "Gujarat") trading (world_of pages_fs)
              = (Ok pages_sorted, world_of pages_fs)) by (vm_compute; reflexivity).
  split; [exact H|].
  destruct (combine_order ascii_only data (lit "Gujarat") trading (world_of pages_fs)
              pages_sorted (world_of pages_fs) H) as (HP & HS & _).
  split; [exact HP | exact (proj1 HS)].
Defined.

Lemma empty_input_guard_witness :
  glob (combine_pattern ascii_only data (lit "Goa") None) [(lit "/data", folder)] = [] /\
  fs (snd (combine_csv_files ascii_only data (lit "Goa") None
             (world_of [(lit "/data", folder)])))
  = [(lit "/data", folder)].
Proof.
  assert (H : glob (combine_pattern ascii_only data (lit "Goa") None)
                   (fs (world_of [(lit "/data", folder)])) = [])
    by (vm_compute; reflexivity).
  split; [exact H|].
  exact (proj1 (proj2 (empty_input_guard ascii_only data (lit "Goa") None
                         (world_of [(lit "/data", folder)]))) H).
Defined.

Lemma consolidate_reads_combined_only_witness :
  plain_dir data /\
  glob (consolidate_pattern ascii_only data (lit "Gujarat")) raw_fs
  = [lit "/data/Gujarat_Finance"; lit "/data/Gujarat_Trading"] /\
  has_magic (lit "/data/Gujarat_Finance") = false /\
  listdir (lit "/data/Gujarat_Finance") raw_fs = [lit "Gujarat_Finance_page_1.csv"] /\
  fst (read_folders [lit "/data/Gujarat_Finance"; lit "/data/Gujarat_Trading"]
         empty_frame (world_of raw_fs))
  = fst (read_folders [lit "/data/Gujarat_Trading"] empty_frame (world_of raw_fs)).
Proof.
  assert (Hd : plain_dir data)
    by (unfold plain_dir; split; [discriminate | split; reflexivity]).
  assert (Hg : glob (consolidate_pattern ascii_only data (lit "Gujarat"))
                 (fs (world_of raw_fs))
               = [] ++ lit "/data/Gujarat_Finance" :: [lit "/data/Gujarat_Trading"])
    by (vm_compute; reflexivity).
  assert (Hm : has_magic (lit "/data/Gujarat_Finance") = false) by reflexivity.
  assert (Hl : listdir (lit "/data/Gujarat_Finance") raw_fs
               = [lit "Gujarat_Finance_page_1.csv"]) by (vm_compute; reflexivity).
  assert (Hn : forall name,
            In name (listdir (lit "/data/Gujarat_Finance") (fs (world_of raw_fs))) ->
            endswith (lit "_combined.csv") name = false).
  { intros name H. change (fs (world_of raw_fs)) with raw_fs in H. rewrite Hl in H.
    destruct H as [<-|[]]. vm_compute. reflexivity. }
  split; [exact Hd|]. split; [exact Hg|]. split; [exact Hm|]. split; [exact Hl|].
  exact (proj1 (proj2 (consolidate_reads_combined_only ascii_only data (lit "Gujarat")
                         [] (lit "/data/Gujarat_Finance") [lit "/data/Gujarat_Trading"]
                         empty_frame (world_of raw_fs) Hd Hg Hm Hn))).
Defined.


Lemma page_number_parse_witness :
  truthy trading = true /\
  In copy_name (glob (combine_pattern ascii_only data (lit "Gujarat") trading) copy_fs) /\
  py_int ascii_only (page_segment copy_name) = None /\
  exists e,
    combine_csv_files ascii_only data (lit "Gujarat") trading (world_of copy_fs)
    = (Raise e, world_of copy_fs) /\
    exn_cls e = ValueError.
Proof.
  assert (H1 : truthy trading = true) by reflexivity.
  assert (H2 : In copy_name
                 (glob (combine_pattern ascii_only data (lit "Gujarat") trading)
                       (fs (world_of copy_fs))))
    by (vm_compute; right; left; reflexivity).
  assert (H3 : py_int ascii_only (page_segment copy_name) = None)
    by (vm_compute; reflexivity).
  split; [exact H1|]. split; [exact H2|]. split; [exact H3|].
  exact (proj2 (page_number_parse ascii_only) data (lit "Gujarat") trading
           (world_of copy_fs) copy_name H1 H2 H3).
Defined.

(** The sample browser: its clock never goes back, a sleep takes its time,
    and with no further page the next-page control is never found. *)

Lemma sample_clock_mono pages dd a b f t :
  t <= snd (snd (sample_drive pages dd a b f t)).
Proof.
  destruct a; simpl; try lia.
  - destruct (selector_eqb by_ next_control); [|simpl; lia].
    destruct (b <? pages); simpl; lia.
  - destruct (e =? 1); simpl; lia.
  - destruct (str_eqb script _); simpl; lia.
Defined.

Lemma sample_sleep_takes pages dd n b f t :
  t + n * second <= snd (snd (sample_drive pages dd (Sleep n) b f t)).
Proof. simpl. lia. Defined.

Lemma sample_never_next dd b f t :
  exists e, fst (sample_drive 0 dd (UntilClickable 30 next_control) b f t) = Raise e.
Proof.
  exists (Exn TimeoutException (lit "Message: ")). destruct b; reflexivity.
Defined.


Lemma pagination_ends_after_first_page_witness :
  (forall b f t, exists e,
     fst (sample_drive 0 data (UntilClickable 30 next_control) b f t) = Raise e) /\
  export_page (sample_drive 0 data) data sample_start = (Ok tt, first_export) /\
  lift (rename_downloaded_file ascii_only data (lit "Gujarat") trading 1) first_export
  = (Ok (Some first_artifact),
     snd (lift (rename_downloaded_file ascii_only data (lit "Gujarat") trading 1)
            first_export)) /\
  exists e s1,
    paginate ascii_only (sample_drive 0 data) 7 data (lit "Gujarat") trading 1 sample_start
    = Some (Ok tt, (fst s1, wrote (snd s1) [NavigationEnded e])) /\
    first_artifact =
    path_join data (artifact_name ascii_only (lit "Gujarat") trading 1
                      (now (snd first_export))) /\
    out_of s1 =
    out_of sample_start ++
    [(now (snd first_export),
      RenamedTo (artifact_name ascii_only (lit "Gujarat") trading 1
                   (now (snd first_export))))].
Proof.
  assert (H0 : forall b f t, exists e,
            fst (sample_drive 0 data (UntilClickable 30 next_control) b f t) = Raise e)
    by (intros b f t; apply sample_never_next).
  assert (H1 : export_page (sample_drive 0 data) data sample_start = (Ok tt, first_export))
    by (vm_compute; reflexivity).
  assert (H2 : lift (rename_downloaded_file ascii_only data (lit "Gujarat") trading 1)
                 first_export
               = (Ok (Some first_artifact),
                  snd (lift (rename_downloaded_file ascii_only data (lit "Gujarat")
                               trading 1) first_export)))
    by (vm_compute; reflexivity).
  split; [exact H0|]. split; [exact H1|]. split; [exact H2|].
  destruct (pagination_ends_after_first_page ascii_only N (sample_drive 0 data) 6
              data (lit "Gujarat") trading H0 1 sample_start)
    as (e & s1 & d & _ & Hl & Hd & _ & Hx & _).
  destruct (Hx first_export first_artifact _ H1 H2) as (Hp & Hd' & _).
  exists e, s1. split; [exact Hl|]. split; [exact Hp|]. now rewrite Hd, Hd'.
Defined.

Lemma stamped_names_distinct_witness :
  truthy None = false /\
  fst (rename_downloaded_file ascii_only data (lit "Goa") None 1 (snd first_export))
  = Ok (Some (lit "/data/Goa_20240101000005.csv")) /\
  exists r st',
    download_and_process_data ascii_only (sample_drive 2 data) 5 data (lit "Goa") None
      sample_start = Some (r, st') /\
    exists added,
      out_of st' = out_of sample_start ++ added /\
      (forall t n, In (t, RenamedTo n) added ->
         n = stamp_filename (format_filename ascii_only (lit "Goa")) (strftime t)) /\
      forall l1 t1 n1 l2 t2 n2 l3,
        added = l1 ++ (t1, RenamedTo n1) :: l2 ++ (t2, RenamedTo n2) :: l3 ->
        t1 + 11 * second <= t2 /\
        (same_day t1 t2 -> n1 <> n2 /\ path_join data n1 <> path_join data n2).
Proof.
  split; [reflexivity|].
  destruct (stamped_names_distinct ascii_only N (sample_drive 2 data)
              (sample_clock_mono 2 data) (sample_sleep_takes 2 data)
              data (lit "Goa") None eq_refl) as (Hr & _ & Hs).
  split.
  - assert (Hl : lookup (path_join data (lit "data.csv")) (fs (snd first_export))
                 = Some {| mtime := new_year + 5 * second;
                           body := Csv {| columns := [lit "company"];
                                          rows := [[(lit "company", str_of_N 0)]] |} |})
      by (vm_compute; reflexivity).
    rewrite (Hr 1 (snd first_export) _ Hl); [vm_compute; reflexivity | discriminate
      | vm_compute; reflexivity | vm_compute; reflexivity].
  - destruct (download_and_process_data ascii_only (sample_drive 2 data) 5 data
                (lit "Goa") None sample_start) as [[r st']|] eqn:E.
    + exists r, st'. split; [reflexivity|]. exact (Hs 5%nat sample_start r st' E).
    + vm_compute in E. discriminate E.
Defined.

(** The session of the witness above renames three exports. *)
Example three_captures :
  match download_and_process_data ascii_only (sample_drive 2 data) 5 data (lit "Goa")
          None sample_start with
  | Some (Ok tt, st') =>
      flat_map (fun x => match snd x with RenamedTo n => [n] | _ => [] end) (out_of st')
      = [ lit "Goa_20240101000009.csv"; lit "Goa_20240101000023.csv";
          lit "Goa_20240101000037.csv" ]
  | _ => False
  end.
Proof. vm_compute. reflexivity. Qed.

(** Against C6 where it excludes zero exports: the next-page control is
    never found, and the session ends without any export, since the export
    link is not found either.  The loop prints the end of the navigation
    only; no page file is written. *)
Example no_export_without_link :
  (forall b f t, fst (bare_drive (UntilClickable 30 next_control) b f t)
                 = Raise (Exn TimeoutException (lit "Message: "))) /\
  paginate ascii_only bare_drive 7 data (lit "Goa") None 1 sample_start
  = Some (Ok tt,
          (0, {| fs := [(lit "/data", folder)];
                 now := new_year + 35 * second;
                 out := [(new_year + 35 * second,
                          NavigationEnded (Exn TimeoutException (lit "Message: ")))] |})) /\
  match download_and_process_data ascii_only bare_drive 7 data (lit "Goa") None
          sample_start with
  | Some (Ok tt, st') =>
      renamed (out_of st') = [] /\
      map snd (out_of st')
      = [NavigationEnded (Exn TimeoutException (lit "Message: "));
         NoDataToCombine (lit "Goa_combined.csv")] /\
      map fst (fs (snd st')) = [lit "/data"; lit "/data/Goa"]
  | _ => False
  end.
Proof.
  split; [intros b f t; reflexivity|]. vm_compute. repeat split; reflexivity.
Qed.

(** Against C9 without a condition on the clock: on a machine whose clock
    is set back by fourteen seconds while the second page loads, the two
    exports of one session, on one day, get the same name and the same path;
    the second renaming replaces the first file, and one capture is left. *)
Example set_back_clock_repeats_name :
  match download_and_process_data ascii_only (set_back_drive 1 data) 5 data (lit "Goa")
          None sample_start with
  | Some (Ok tt, st') =>
      renamed (out_of st')
      = [lit "Goa_20240101000009.csv"; lit "Goa_20240101000009.csv"] /\
      map fst (fs (snd st'))
      = [lit "/data"; lit "/data/Goa"; lit "/data/Goa/Goa_20240101000009.csv";
         lit "/data/Goa/Goa_combined.csv"]
  | _ => False
  end.
Proof. vm_compute. split; reflexivity. Qed.

(** *** The further statements, applied *)

Lemma data_plain : plain_dir data.
Proof. unfold plain_dir. split; [discriminate | split; reflexivity]. Qed.

Lemma renamed_page_is_collected_witness :
  plain_dir data /\
  In (lit "/data/Gujarat_Trading/Gujarat_Trading_page_3.csv")
     (glob (combine_pattern ascii_only data (lit "Gujarat") trading) pages_fs).
Proof.
  split; [exact data_plain|].
  assert (Ht : truthy trading = false -> format_filename ascii_only (lit "Gujarat") <> [])
    by (intros H; vm_compute in H; discriminate H).
  destruct (renamed_page_is_collected ascii_only data (lit "Gujarat") trading 3 0
              pages_fs data_plain Ht) as (_ & _ & _ & H).
  exact (H eq_refl eq_refl).
Defined.

Lemma consolidate_finds_by_prefix_witness :
  plain_dir data /\
  glob (consolidate_pattern ascii_only data (lit "Gujarat")) pages_fs =
  map (fun name => data ++ sep :: name)
      (filter (startswith (format_filename ascii_only (lit "Gujarat") ++ lit "_"))
              (listdir data pages_fs)).
Proof.
  split; [exact data_plain|].
  exact (proj1 (consolidate_finds_by_prefix ascii_only data (lit "Gujarat") pages_fs
                  data_plain)).
Defined.

Lemma rename_moves_the_export_witness :
  rename_downloaded_file ascii_only data (lit "Gujarat") trading 1 (snd first_export)
  = (Ok (Some first_artifact),
     snd (rename_downloaded_file ascii_only data (lit "Gujarat") trading 1
            (snd first_export))) /\
  first_artifact <> path_join data (lit "data.csv").
Proof.
  assert (H : rename_downloaded_file ascii_only data (lit "Gujarat") trading 1
                (snd first_export)
              = (Ok (Some first_artifact),
                 snd (rename_downloaded_file ascii_only data (lit "Gujarat") trading 1
                        (snd first_export)))) by (vm_compute; reflexivity).
  split; [exact H|].
  exact (proj1 (proj2 (proj2
    (rename_moves_the_export ascii_only data (lit "Gujarat") trading 1
       (snd first_export) _ _ H)))).
Defined.

Lemma create_directory_idempotent_witness :
  tidy (lit "/data/Goa") = true /\
  create_directory (lit "/data/Goa") (world_of [(lit "/data", folder)])
  = (Ok tt, snd (create_directory (lit "/data/Goa") (world_of [(lit "/data", folder)]))) /\
  create_directory (lit "/data/Goa")
    (snd (create_directory (lit "/data/Goa") (world_of [(lit "/data", folder)])))
  = (Ok tt, snd (create_directory (lit "/data/Goa") (world_of [(lit "/data", folder)]))).
Proof.
  assert (Ht : tidy (lit "/data/Goa") = true) by (vm_compute; reflexivity).
  assert (H : create_directory (lit "/data/Goa") (world_of [(lit "/data", folder)])
              = (Ok tt, snd (create_directory (lit "/data/Goa")
                               (world_of [(lit "/data", folder)]))))
    by (vm_compute; reflexivity).
  split; [exact Ht|]. split; [exact H|].
  exact (proj1 (proj2 (create_directory_idempotent _ _ _ Ht H))).
Defined.

Lemma session_always_finds_export_witness :
  exists r st',
    download_and_process_data ascii_only (sample_drive 2 data) 5 data (lit "Goa") None
      sample_start = Some (r, st') /\
    exists added,
      out_of st' = out_of sample_start ++ added /\
      Forall (fun x => snd x <> NoFileToRename) added.
Proof.
  destruct (download_and_process_data ascii_only (sample_drive 2 data) 5 data (lit "Goa")
              None sample_start) as [[r st']|] eqn:E.
  - exists r, st'. split; [reflexivity|].
    exact (session_always_finds_export ascii_only N (sample_drive 2 data)
             5 data (lit "Goa") None sample_start r st' E).
  - vm_compute in E. discriminate E.
Defined.

Lemma session_pages_consecutive_witness :
  truthy trading = true /\
  exists r st',
    download_and_process_data ascii_only (sample_drive 2 data) 5 data (lit "Gujarat")
      trading sample_start = Some (r, st') /\
    exists added k,
      out_of st' = out_of sample_start ++ added /\
      renamed added =
        map (fun i => page_filename (format_filename ascii_only (lit "Gujarat"))
                        (format_filename ascii_only (text_of trading)) (N.of_nat i))
            (seq 1 k).
Proof.
  split; [reflexivity|].
  destruct (download_and_process_data ascii_only (sample_drive 2 data) 5 data
              (lit "Gujarat") trading sample_start) as [[r st']|] eqn:E.
  - exists r, st'. split; [reflexivity|].
    exact (session_pages_consecutive ascii_only N (sample_drive 2 data)
             5 data (lit "Gujarat") trading sample_start r st' eq_refl E).
  - vm_compute in E. discriminate E.
Defined.

(** The session of the witness above renames pages 1, 2 and 3. *)
Example three_pages :
  match download_and_process_data ascii_only (sample_drive 2 data) 5 data (lit "Gujarat")
          trading sample_start with
  | Some (Ok tt, st') =>
      renamed (out_of st')
      = [ lit "Gujarat_Trading_page_1.csv"; lit "Gujarat_Trading_page_2.csv";
          lit "Gujarat_Trading_page_3.csv" ]
  | _ => False
  end.
Proof. vm_compute. reflexivity. Qed.

Lemma session_outcomes_witness :
  exists st',
    download_and_process_data ascii_only (sample_drive 2 data) 5 data (lit "Gujarat")
      trading sample_start = Some (Ok tt, st') /\
    exists added t l,
      out_of st' = out_of sample_start ++ added ++ [(t, l)] /\
      (l = CreatedCombined (combine_output ascii_only data (lit "Gujarat") trading) \/
       l = NoDataToCombine (snd (combine_layout ascii_only data (lit "Gujarat") trading))).
Proof.
  destruct (download_and_process_data ascii_only (sample_drive 2 data) 5 data
              (lit "Gujarat") trading sample_start) as [[[[]|e] st']|] eqn:E.
  - exists st'. split; [reflexivity|].
    exact (proj2 (session_outcomes ascii_only N (sample_drive 2 data)
                    5 data (lit "Gujarat") trading sample_start (Ok tt) st' E)).
  - vm_compute in E. discriminate E.
  - vm_compute in E. discriminate E.
Defined.

Lemma combine_raises_only_witness :
  exists e,
    combine_csv_files ascii_only data (lit "Gujarat") trading (world_of copy_fs)
    = (Raise e, world_of copy_fs) /\
    exists x,
      In x (glob (combine_pattern ascii_only data (lit "Gujarat") trading) copy_fs) /\
      page_key ascii_only x (world_of copy_fs) = (Raise e, world_of copy_fs) /\
      exn_cls e = ValueError.
Proof.
  destruct (combine_csv_files ascii_only data (lit "Gujarat") trading (world_of copy_fs))
    as [[[]|e] w'] eqn:E.
  - vm_compute in E. discriminate E.
  - exists e.
    destruct (combine_raises_only ascii_only data (lit "Gujarat") trading
                (world_of copy_fs) e w' E) as [(-> & x & Hx & Hk)|(files & Hi & _)].
    + split; [reflexivity|]. exists x. split; [exact Hx|].
      change (truthy trading) with true in Hk. cbv iota in Hk.
      destruct Hk as (Hk & Hc & _). now split.
    + vm_compute in Hi. discriminate Hi.
Defined.

Lemma main_loops_raise_only_witness :
  exists e st',
    for_filtered_states ascii_only (sample_drive 0 data) 1 data [lit "Gujarat"] []
      (0, world_of blocked_fs) = Some (Raise e, st') /\
    exists sn w df w1,
      In sn [lit "Gujarat"] /\
      consolidate_state_files ascii_only data sn w = (Raise e, snd st') /\
      df_empty df = false /\ fs w1 = fs w /\
      to_csv (consolidate_output ascii_only data sn) df w1 = (Raise e, snd st').
Proof.
  destruct (for_filtered_states ascii_only (sample_drive 0 data) 1 data [lit "Gujarat"] []
              (0, world_of blocked_fs)) as [[[[]|e] st']|] eqn:E.
  - vm_compute in E. discriminate E.
  - exists e, st'. split; [reflexivity|].
    exact (proj2 (main_loops_raise_only ascii_only N (sample_drive 0 data) 1 data)
             [lit "Gujarat"] [] (0, world_of blocked_fs) e st' E).
  - vm_compute in E. discriminate E.
Defined.

Lemma recombine_filtered_stable_witness :
  plain_dir data /\ truthy trading = true /\
  contents (fs (snd (combine_csv_files ascii_only data (lit "Gujarat") trading
                       (snd (combine_csv_files ascii_only data (lit "Gujarat") trading
                               (world_of pages_fs))))))
  = contents (fs (snd (combine_csv_files ascii_only data (lit "Gujarat") trading
                         (world_of pages_fs)))).
Proof.
  split; [exact data_plain|]. split; [reflexivity|].
  exact (recombine_filtered_stable ascii_only data (lit "Gujarat") trading
           (world_of pages_fs)
           (snd (combine_csv_files ascii_only data (lit "Gujarat") trading
                   (world_of pages_fs)))
           data_plain eq_refl eq_refl).
Defined.

Lemma unfiltered_rerun_doubles_witness :
  plain_dir data /\ truthy None = false /\
  format_filename ascii_only (lit "Goa") <> [] /\
  exists_path (combine_output ascii_only data (lit "Goa") None) stamps_fs = false /\
  exists n1 df1 df2,
    lookup (combine_output ascii_only data (lit "Goa") None)
      (fs (snd (combine_csv_files ascii_only data (lit "Goa") None (world_of stamps_fs))))
    = Some n1 /\
    body n1 = Csv df1 /\ rows df1 <> [] /\
    lookup (combine_output ascii_only data (lit "Goa") None)
      (fs (snd (combine_csv_files ascii_only data (lit "Goa") None
                  (snd (combine_csv_files ascii_only data (lit "Goa") None
                          (world_of stamps_fs))))))
    = Some {| mtime := new_year; body := Csv df2 |} /\
    Permutation (rows df2) (rows df1 ++ rows df1).
Proof.
  assert (H3 : format_filename ascii_only (lit "Goa") <> [])
    by (vm_compute; discriminate).
  assert (H4 : exists_path (combine_output ascii_only data (lit "Goa") None)
                 (fs (world_of stamps_fs)) = false) by (vm_compute; reflexivity).
  split; [exact data_plain|]. split; [reflexivity|]. split; [exact H3|].
  split; [exact H4|].
  destruct (lookup (combine_output ascii_only data (lit "Goa") None)
              (fs (snd (combine_csv_files ascii_only data (lit "Goa") None
                          (world_of stamps_fs))))) as [n1|] eqn:E.
  - destruct (unfiltered_rerun_doubles ascii_only data (lit "Goa") None
                (world_of stamps_fs)
                (snd (combine_csv_files ascii_only data (lit "Goa") None
                        (world_of stamps_fs)))
                n1 data_plain eq_refl H3 H4 E eq_refl)
      as (df1 & df2 & Hb & Hr & _ & Hl & Hp).
    exists n1, df1, df2. repeat split; assumption.
  - vm_compute in E. discriminate E.
Defined.

Lemma main_queries_apart_witness :
  In (lit "Maharashtra") business_filtered_states /\
  In (lit "Maharashtra", Some (lit "Agriculture and Allied Activities")) main_queries /\
  startswith (format_filename ascii_only (lit "Maharashtra") ++ lit "_")
             (query_stem ascii_only (lit "Maharashtra")
                (Some (lit "Agriculture and Allied Activities"))) = true.
Proof.
  assert (H1 : In (lit "Maharashtra") business_filtered_states)
    by (vm_compute; left; reflexivity).
  assert (H2 : In (lit "Maharashtra", Some (lit "Agriculture and Allied Activities"))
                  main_queries) by (vm_compute; left; reflexivity).
  split; [exact H1|]. split; [exact H2|].
  exact (proj2 (proj2 (proj2 (main_queries_apart ascii_only)))
           (lit "Maharashtra")
           (lit "Maharashtra", Some (lit "Agriculture and Allied Activities")) H1 H2).
Defined.

Lemma reconsolidate_stable_witness :
  plain_dir data /\
  Forall (fun f => has_magic f = false)
         (glob (consolidate_pattern ascii_only data (lit "Gujarat")) raw_fs) /\
  contents (fs (snd (consolidate_state_files ascii_only data (lit "Gujarat")
                       (snd (consolidate_state_files ascii_only data (lit "Gujarat")
                               (world_of raw_fs))))))
  = contents (fs (snd (consolidate_state_files ascii_only data (lit "Gujarat")
                         (world_of raw_fs)))).
Proof.
  assert (H : Forall (fun f => has_magic f = false)
                (glob (consolidate_pattern ascii_only data (lit "Gujarat"))
                      (fs (world_of raw_fs))))
    by (vm_compute; repeat constructor).
  split; [exact data_plain|]. split; [exact H|].
  exact (reconsolidate_stable ascii_only data (lit "Gujarat") (world_of raw_fs)
           (snd (consolidate_state_files ascii_only data (lit "Gujarat")
                   (world_of raw_fs)))
           data_plain H eq_refl).
Defined.

(** The run of the witness above has written the consolidated file. *)
Example reconsolidated_sample :
  exists_path gujarat_consolidated
    (fs (snd (consolidate_state_files ascii_only data (lit "Gujarat") (world_of raw_fs))))
  = true.
Proof. vm_compute. reflexivity. Qed.

Lemma main_closing_line_witness :
  exists r st',
    main ascii_only (sample_drive 0 data) 1 sample_start = Some (r, st') /\
    ((out_of st' = out_of sample_start /\ exists e, r = Raise e) \/
     exists lines t l s1,
       out_of st' = out_of sample_start ++ lines ++ [(t, l)] /\
       Forall (fun x => not_closing (snd x)) lines /\
       (l = AllCompleted \/ exists e, l = ErrorInMain e /\ exn_cls e = OSError) /\
       bindL (run (call_ (sample_drive 0 data)
                     (Input (lit "Press Enter to close the browser..."))))
             (fun _ => run (call_ (sample_drive 0 data) Quit)) s1 = Some (r, st')).
Proof.
  destruct (main ascii_only (sample_drive 0 data) 1 sample_start) as [[r st']|] eqn:E.
  - exists r, st'. split; [reflexivity|].
    exact (main_closing_line ascii_only N (sample_drive 0 data) 1 sample_start r st' E).
  - vm_compute in E. discriminate E.
Defined.
